(** * inspire-api: the framing, codec and register layer, verified

    A shallow embedding of [inspire_api/utils.py], [inspire_api/registers.py],
    [inspire_api/serial.py] and [inspire_api/modbus.py].

    Conventions of the embedding:
    - a Python [int] (and a NumPy [int32] scalar, whose bit operations agree
      with two's complement on [Z]) is a [Z]; the conversion to [int32] done by
      [astype] is written out as [wrap_int32];
    - [bytes] and lists of integers are [list Z]; [bytes(...)] checks the
      range of every element, as Python does;
    - a function that can raise returns a [result]; exception messages and
      logging, which touch no state, are left out;
    - the serial port and the Modbus client are explicit state, threaded
      through every call. *)

From Stdlib Require Import ZArith Lia.
From stdpp Require Import base list gmap strings.
From Equations Require Import Equations.

Local Open Scope Z_scope.

(** ** Exceptions and the error monad *)

Inductive exn : Type :=
| ValidationError
| CommunicationError
| GenerationError
| ValueError
| TypeError
| IndexError
| OverflowError
| KeyError.

Inductive result (A : Type) : Type :=
| Ok (a : A)
| Raise (e : exn).
Arguments Ok {A} a.
Arguments Raise {A} e.

#[global] Instance result_ret : MRet result := fun A a => Ok a.
#[global] Instance result_bind : MBind result := fun A B f m =>
  match m with
  | Ok a => f a
  | Raise e => Raise e
  end.

(** [len(l)] as a Python integer. *)
Definition len {A : Type} (l : list A) : Z := Z.of_nat (length l).

(** [range(n)]: empty when [n <= 0]. *)
Definition py_range (n : Z) : list Z := map Z.of_nat (seq 0 (Z.to_nat n)).

(** [l[i]] on a Python sequence: a negative index counts from the end, an
    index out of range raises [IndexError]. *)
Definition getitem (l : list Z) (i : Z) : result Z :=
  let j := if i <? 0 then i + len l else i in
  if j <? 0 then Raise IndexError
  else match l !! Z.to_nat j with
       | Some x => Ok x
       | None => Raise IndexError
       end.

(** [out = []; for x in l: out.append(f(x))], where [f] may raise. *)
Fixpoint collect {A B : Type} (f : A -> result B) (l : list A) : result (list B) :=
  match l with
  | [] => Ok []
  | x :: l' => y ← f x; ys ← collect f l'; Ok (y :: ys)
  end.

(** [bytes(frame)] and [bytearray(frame)]: every element must be in
    [range(256)]. *)
Definition is_byte (b : Z) : bool := (0 <=? b) && (b <? 256).

Definition to_bytes (frame : list Z) : result (list Z) :=
  if forallb is_byte frame then Ok frame else Raise ValueError.

(** ** constants.py *)

Inductive HandGeneration : Type := GEN3 | GEN4.

Definition SERIAL_START_BYTE_1 : Z := 0xEB.
Definition SERIAL_START_BYTE_2 : Z := 0x90.
Definition SERIAL_CMD_WRITE : Z := 0x12.
Definition SERIAL_CMD_READ : Z := 0x11.
Definition SERIAL_MIN_FRAME_SIZE : Z := 7.
Definition MODBUS_MAX_REGISTERS_PER_READ : Z := 125.
Definition NUM_JOINTS : Z := 6.
Definition DEFAULT_HAND_ID : Z := 1.
Definition MIN_ANGLE : Z := 0.
Definition MAX_ANGLE : Z := 1000.
Definition PLACEHOLDER_VALUE : Z := -1.
Definition BYTE_MASK : Z := 0xFF.
Definition WORD_MASK : Z := 0xFFFF.
Definition BITS_PER_BYTE : Z := 8.

(** ** registers.py *)

(** A value of the register dictionary: a plain address, or for a tactile
    sensor the tuple [(address, (rows, cols))]. *)
Inductive reg_entry : Type :=
| Plain (address : Z)
| Tactile (address : Z) (rows cols : nat).

Definition REGISTERS_GEN3 : gmap string reg_entry :=
  list_to_map
    [ ("HAND_ID", Plain 1000); ("REDU_RATIO", Plain 1001);
      ("CLEAR_ERROR", Plain 1004); ("SAVE", Plain 1005);
      ("RESET_PARA", Plain 1006); ("GESTURE_FORCE_CLB", Plain 1009);
      ("CURRENT_LIMIT", Plain 1020); ("DEFAULT_SPEED_SET", Plain 1032);
      ("DEFAULT_FORCE_SET", Plain 1044); ("VLTAGE", Plain 1472);
      ("POS_SET", Plain 1474); ("ANGLE_SET", Plain 1486);
      ("FORCE_SET", Plain 1498); ("SPEED_SET", Plain 1522);
      ("POS_ACT", Plain 1534); ("ANGLE_ACT", Plain 1546);
      ("FORCE_ACT", Plain 1582); ("CURRENT", Plain 1594);
      ("ERROR", Plain 1606); ("STATUS", Plain 1612); ("TEMP", Plain 1618);
      ("ACTION_SEQ_CHECKDATA1", Plain 2000);
      ("ACTION_SEQ_CHECKDATA2", Plain 2001);
      ("ACTION_SEQ_STEPNUM", Plain 2002);
      ("ACTION_SEQ_STEP0", Plain 2016); ("ACTION_SEQ_STEP1", Plain 2054);
      ("ACTION_SEQ_STEP2", Plain 2092); ("ACTION_SEQ_STEP3", Plain 2130);
      ("ACTION_SEQ_STEP4", Plain 2168); ("ACTION_SEQ_STEP5", Plain 2206);
      ("ACTION_SEQ_STEP6", Plain 2244); ("ACTION_SEQ_STEP7", Plain 2282);
      ("ACTION_SEQ_INDEX", Plain 2320); ("SAVE_ACTION_SEQ", Plain 2321);
      ("ACTION_SEQ_RUN", Plain 2322);
      ("ACTION_ADJUST_FORCE_SET", Plain 2334) ]%string.

Definition REGISTERS_GEN4 : gmap string reg_entry :=
  list_to_map
    [ ("HAND_ID", Plain 1000); ("REDU_RATIO", Plain 1001);
      ("CLEAR_ERROR", Plain 1004); ("SAVE", Plain 1005);
      ("RESET_PARA", Plain 1006); ("GESTURE_FORCE_CLB", Plain 1009);
      ("DEFAULT_SPEED_SET", Plain 1032); ("DEFAULT_FORCE_SET", Plain 1044);
      ("POS_SET", Plain 1474); ("ANGLE_SET", Plain 1486);
      ("FORCE_SET", Plain 1498); ("SPEED_SET", Plain 1522);
      ("POS_ACT", Plain 1534); ("ANGLE_ACT", Plain 1546);
      ("FORCE_ACT", Plain 1582); ("CURRENT", Plain 1594);
      ("ERROR", Plain 1606); ("STATUS", Plain 1612); ("TEMP", Plain 1618);
      ("IP_PART1", Plain 1700); ("IP_PART2", Plain 1701);
      ("IP_PART3", Plain 1702); ("IP_PART4", Plain 1703);
      ("PINKY_TOP_TAC", Tactile 3000 3 3);
      ("PINKY_TIP_TAC", Tactile 3018 12 8);
      ("PINKY_BASE_TAC", Tactile 3210 10 8);
      ("RING_TOP_TAC", Tactile 3370 3 3);
      ("RING_TIP_TAC", Tactile 3388 12 8);
      ("RING_BASE_TAC", Tactile 3580 10 8);
      ("MIDDLE_TOP_TAC", Tactile 3740 3 3);
      ("MIDDLE_TIP_TAC", Tactile 3758 12 8);
      ("MIDDLE_BASE_TAC", Tactile 3950 10 8);
      ("INDEX_TOP_TAC", Tactile 4110 3 3);
      ("INDEX_TIP_TAC", Tactile 4128 12 8);
      ("INDEX_BASE_TAC", Tactile 4320 10 8);
      ("THUMB_TOP_TAC", Tactile 4480 3 3);
      ("THUMB_TIP_TAC", Tactile 4498 12 8);
      ("THUMB_MID_TAC", Tactile 4690 3 3);
      ("THUMB_BASE_TAC", Tactile 4708 10 8);
      ("PALM_TAC", Tactile 4900 8 14) ]%string.

(** The hand's generation is checked to be 3 or 4 when it is constructed, so
    the [ValueError] branch of [get_registers] is not reachable from a hand. *)
Definition get_registers (generation : HandGeneration) : gmap string reg_entry :=
  match generation with
  | GEN3 => REGISTERS_GEN3
  | GEN4 => REGISTERS_GEN4
  end.

(** ** utils.py *)

Module Utils.

(** NumPy's [astype(np.int32)] on an integer array: the low 32 bits, read as
    a signed number. *)
Definition wrap_int32 (z : Z) : Z := (z + 2 ^ 31) mod 2 ^ 32 - 2 ^ 31.

Definition is_int32 (z : Z) : bool := (- 2 ^ 31 <=? z) && (z <? 2 ^ 31).

(** The argument of the validators: an integer [ndarray], given by its
    elements in flattened (C) order, or any other object. *)
Inductive pyarg : Type :=
| Ndarray (elems : list Z)
| NotNdarray.

(** The [for i, val in enumerate(values_flat)] loop of
    [validate_joint_values]. *)
Fixpoint check_range (values_flat : list Z) (min_val max_val : Z) : result () :=
  match values_flat with
  | [] => Ok ()
  | val :: rest =>
      if negb (val =? PLACEHOLDER_VALUE) && ((val <? min_val) || (val >? max_val))
      then Raise ValidationError
      else check_range rest min_val max_val
  end.

(** [value_type] only appears in the error text and is left out. *)
Definition validate_joint_values (values : pyarg) (min_val max_val : Z)
  : result (list Z) :=
  match values with
  | NotNdarray => Raise ValidationError
  | Ndarray elems =>
      let values_flat := map wrap_int32 elems in
      if negb (len values_flat =? NUM_JOINTS) then Raise ValidationError
      else _ ← check_range values_flat min_val max_val; Ok values_flat
  end.

Definition validate_angles (angles : pyarg) : result (list Z) :=
  validate_joint_values angles MIN_ANGLE MAX_ANGLE.

Definition int16_to_bytes (value : Z) : Z * Z :=
  let low_byte := Z.land value BYTE_MASK in
  let high_byte := Z.land (Z.shiftr value BITS_PER_BYTE) BYTE_MASK in
  (low_byte, high_byte).

Definition bytes_to_int16 (low high : Z) : Z :=
  Z.land low BYTE_MASK + Z.shiftl (Z.land high BYTE_MASK) BITS_PER_BYTE.

(** [for byte in data[2:]: checksum += byte], then the low eight bits. *)
Definition calculate_checksum (data : list Z) : Z :=
  let checksum := fold_left (fun checksum byte => checksum + byte) (drop 2 data) 0x00 in
  Z.land checksum BYTE_MASK.

Definition convert_to_modbus_values (values : list Z) : list Z :=
  fold_left
    (fun val_reg value =>
       if value =? PLACEHOLDER_VALUE then val_reg ++ [0xFFFF]
       else val_reg ++ [Z.land value WORD_MASK])
    values [].

Definition convert_to_serial_bytes (values : list Z) : list Z :=
  fold_left
    (fun val_bytes value =>
       let '(low, high) := int16_to_bytes value in
       (val_bytes ++ [low]) ++ [high])
    values [].

Definition convert_12bytes_to_6values (bytes_data : list Z) : result (list Z) :=
  if len bytes_data <? 12 then Raise ValidationError
  else collect
         (fun i =>
            low ← getitem bytes_data (2 * i);
            high ← getitem bytes_data (2 * i + 1);
            Ok (bytes_to_int16 low high))
         (py_range 6).

(** A NumPy array of [int32]: one-dimensional, or two-dimensional as the list
    of its rows. [np.array([], dtype=np.int32)] is [Array1 []]. *)
Inductive ndarray : Type :=
| Array1 (data : list Z)
| Array2 (rows : list (list Z)).

(** [np.array(raw_data, dtype=np.int32)] on a list of Python integers. A
    value outside [int32] raises [OverflowError] (NumPy 2; earlier versions
    wrapped it with a deprecation warning). *)
Definition np_array_int32 (raw_data : list Z) : result (list Z) :=
  if forallb is_int32 raw_data then Ok raw_data else Raise OverflowError.

(** [a.reshape(rows, cols, order="C")] of a one-dimensional array: row [r] is
    the [r]-th run of [cols] consecutive elements. *)
Fixpoint reshape_C (data : list Z) (rows cols : nat) : list (list Z) :=
  match rows with
  | O => []
  | S rows' => take cols data :: reshape_C (drop cols data) rows' cols
  end.

(** [m.T] of a two-dimensional array with [ncols] columns. *)
Fixpoint transpose (ncols : nat) (m : list (list Z)) : list (list Z) :=
  match m with
  | [] => replicate ncols []
  | row :: m' => zip_with cons row (transpose ncols m')
  end.

(** The dimensions are natural numbers, as the shapes of the register map
    are. *)
Definition reshape_tactile_data (raw_data : list Z) (rows cols : nat)
    (is_palm : bool) : result ndarray :=
  let expected_len := (rows * cols)%nat in
  if negb (length raw_data =? expected_len)%nat then Raise ValidationError
  else
    data_array ← np_array_int32 raw_data;
    if is_palm then
      let matrix := reshape_C data_array cols rows in
      Ok (Array2 (transpose rows matrix))
    else Ok (Array2 (reshape_C data_array rows cols)).

End Utils.

(** ** serial.py *)

Module Serial.
Import Utils.

(** The serial port as the engine sees it. [written] records every frame
    handed to [write], oldest first; [in_buffer] holds the bytes already
    received ([in_waiting] is its length); [incoming] is what the device
    will deliver during each of the following sleeps, one chunk per sleep.
    The schedule is finite: a device that never falls silent would keep the
    drain loop of [_write_register] running for ever. *)
Record port : Type := mk_port {
  is_open : bool;
  written : list (list Z);
  in_buffer : list Z;
  incoming : list (list Z)
}.

Definition write (p : port) (data : list Z) : port :=
  {| is_open := is_open p; written := written p ++ [data];
     in_buffer := in_buffer p; incoming := incoming p |}.

(** [time.sleep(...)]: the next chunk of the schedule arrives. *)
Definition sleep (p : port) : port :=
  match incoming p with
  | [] => p
  | chunk :: later =>
      {| is_open := is_open p; written := written p;
         in_buffer := in_buffer p ++ chunk; incoming := later |}
  end.

Definition in_waiting (p : port) : Z := len (in_buffer p).

Definition read_all (p : port) : port * list Z :=
  ({| is_open := is_open p; written := written p;
      in_buffer := []; incoming := incoming p |}, in_buffer p).

Record hand : Type := mk_hand {
  generation : HandGeneration;
  connected : bool;
  ser : option port
}.

Definition _regdict (h : hand) : gmap string reg_entry :=
  get_registers (generation h).

Definition set_ser (h : hand) (p : port) : hand :=
  {| generation := generation h; connected := connected h; ser := Some p |}.

Definition is_connected (h : hand) : bool :=
  connected h && match ser h with
                 | Some p => is_open p
                 | None => false
                 end.

Definition entry_address (v : reg_entry) : Z :=
  match v with
  | Plain a => a
  | Tactile a _ _ => a
  end.

(** The set built by the loop over [self._regdict.values()]. *)
Definition valid_addrs (regdict : gmap string reg_entry) : gset Z :=
  list_to_set (entry_address <$> (map_to_list regdict).*2).

(** [addr in valid_addrs]: a tuple is never equal to an address. *)
Definition addr_in (addr : reg_entry) (addrs : gset Z) : bool :=
  match addr with
  | Plain a => bool_decide (a ∈ addrs)
  | Tactile _ _ _ => false
  end.

Definition drain_measure (p : port) : nat :=
  (2 * length (incoming p) + (if in_buffer p is [] then 0 else 1))%nat.

(** [while self._ser.in_waiting > 0: self._ser.read_all(); time.sleep(...)] *)
Equations? drain (p : port) : port by wf (drain_measure p) lt :=
  drain p with Z_gt_dec (in_waiting p) 0 := {
    | left _ => drain (sleep (fst (read_all p)))
    | right _ => p }.
Proof.
  unfold in_waiting, len, drain_measure, sleep in *. simpl.
  destruct (in_buffer p) as [|b bs]; simpl in *; [lia|].
  destruct (incoming p) as [|c cs]; simpl; [lia|].
  destruct c; simpl; lia.
Qed.

Definition _write_register (h : hand) (hand_id : Z) (addr : reg_entry)
    (num : Z) (val : list Z) : hand * result bool :=
  match ser h with
  | None => (h, Raise CommunicationError)
  | Some p =>
      if negb (is_connected h) then (h, Raise CommunicationError)
      else if negb (addr_in addr (valid_addrs (_regdict h)))
      then (h, Raise ValidationError)
      else
        match addr with
        | Tactile _ _ _ => (h, Raise TypeError)
        | Plain a =>
            let frame :=
              [SERIAL_START_BYTE_1; SERIAL_START_BYTE_2] ++ [hand_id]
              ++ [num + 3] ++ [SERIAL_CMD_WRITE] ++ [Z.land a 0xFF]
              ++ [Z.land (Z.shiftr a 8) 0xFF] ++ val in
            match to_bytes frame with
            | Raise e => (h, Raise e)
            | Ok data =>
                let checksum := calculate_checksum data in
                let frame := frame ++ [checksum] in
                match to_bytes frame with
                | Raise e => (h, Raise e)
                | Ok out =>
                    let p := write p out in
                    let p := sleep p in
                    let p := drain p in
                    (set_ser h p, Ok true)
                end
            end
        end
  end.

(** pyserial's [read_all] always returns a [bytes] object, so of the test
    [recv is None or len(recv) == 0] only the length matters. *)
Definition _read_register (h : hand) (hand_id : Z) (addr : reg_entry)
    (num : Z) : hand * result (list Z) :=
  match ser h with
  | None => (h, Raise CommunicationError)
  | Some p =>
      if negb (is_connected h) then (h, Raise CommunicationError)
      else
        match addr with
        | Tactile _ _ _ => (h, Raise TypeError)
        | Plain a =>
            let frame :=
              [SERIAL_START_BYTE_1; SERIAL_START_BYTE_2] ++ [hand_id]
              ++ [0x04] ++ [SERIAL_CMD_READ] ++ [Z.land a 0xFF]
              ++ [Z.land (Z.shiftr a 8) 0xFF] ++ [num] in
            match to_bytes frame with
            | Raise e => (h, Raise e)
            | Ok data =>
                let checksum := calculate_checksum data in
                let frame := frame ++ [checksum] in
                match to_bytes frame with
                | Raise e => (h, Raise e)
                | Ok out =>
                    let p := write p out in
                    let p := sleep p in
                    let '(p, recv) := read_all p in
                    (set_ser h p,
                     if len recv =? 0 then Ok []
                     else if len recv <? SERIAL_MIN_FRAME_SIZE then Ok []
                     else
                       b ← getitem recv 3;
                       let num_received := Z.land b 0xFF - 3 in
                       let actual_data_len := Z.min num_received (len recv - 7) in
                       collect (fun i => getitem recv (7 + i))
                               (py_range actual_data_len))
                end
            end
        end
  end.

Definition _read6 (h : hand) (hand_id : Z) (reg_name : string)
  : hand * result (list Z) :=
  match _regdict h !! reg_name with
  | None => (h, Raise ValidationError)
  | Some entry =>
      let length := 6 in
      match _read_register h hand_id entry length with
      | (h, Raise e) => (h, Raise e)
      | (h, Ok val_act) =>
          if len val_act <? length then (h, Ok []) else (h, Ok val_act)
      end
  end.

Definition _read12 (h : hand) (hand_id : Z) (reg_name : string)
  : hand * result (list Z) :=
  match _regdict h !! reg_name with
  | None => (h, Raise ValidationError)
  | Some entry =>
      let length := 12 in
      match _read_register h hand_id entry length with
      | (h, Raise e) => (h, Raise e)
      | (h, Ok val) =>
          if len val <? length then (h, Ok [])
          else (h, convert_12bytes_to_6values val)
      end
  end.

Definition set_angle (h : hand) (angles : pyarg) (hand_id : Z)
  : hand * result bool :=
  match validate_angles angles with
  | Raise e => (h, Raise e)
  | Ok angles_validated =>
      let val_bytes := convert_to_serial_bytes angles_validated in
      match _regdict h !! "ANGLE_SET"%string with
      | None => (h, Raise KeyError)
      | Some addr => _write_register h hand_id addr 12 val_bytes
      end
  end.

End Serial.

(** ** modbus.py *)

Module Modbus.
Import Utils.

(** What one call of [client.read_holding_registers] can do: return a
    response carrying registers, return a response whose [isError()] is
    true, or raise. *)
Inductive reply : Type :=
| Registers (registers : list Z)
| ErrorResponse
| TransportError.

(** The client together with the device behind it, and the trace of the
    read requests issued so far as pairs (address, count), oldest first. *)
Record client (Dev : Type) : Type := mk_client {
  device : Dev;
  requests : list (Z * Z)
}.
Arguments mk_client {Dev} _ _.
Arguments device {Dev} _.
Arguments requests {Dev} _.

Record hand (Dev : Type) : Type := mk_hand {
  generation : HandGeneration;
  connected : bool;
  _client : option (client Dev)
}.
Arguments mk_hand {Dev} _ _ _.
Arguments generation {Dev} _.
Arguments connected {Dev} _.
Arguments _client {Dev} _.

(** types.py *)
Record FingerSensorData : Type := mk_finger {
  f_top : ndarray;
  f_tip : ndarray;
  f_base : ndarray
}.

Record ThumbSensorData : Type := mk_thumb {
  t_top : ndarray;
  t_tip : ndarray;
  t_mid : ndarray;
  t_base : ndarray
}.

Record TactileData (Time : Type) : Type := mk_tactile {
  timestamp : Time;
  pinky : FingerSensorData;
  ring : FingerSensorData;
  middle : FingerSensorData;
  index : FingerSensorData;
  thumb : ThumbSensorData;
  palm : ndarray
}.
Arguments mk_tactile {Time} _ _ _ _ _ _ _.
Arguments timestamp {Time} _.
Arguments pinky {Time} _.
Arguments ring {Time} _.
Arguments middle {Time} _.
Arguments index {Time} _.
Arguments thumb {Time} _.
Arguments palm {Time} _.

(** The table [tactile_sensors] of [get_all_tactile_data], in its order. *)
Definition tactile_sensors : list (string * (string * option string)) :=
  [ ("PINKY_TOP_TAC", ("pinky", Some "top"));
    ("PINKY_TIP_TAC", ("pinky", Some "tip"));
    ("PINKY_BASE_TAC", ("pinky", Some "base"));
    ("RING_TOP_TAC", ("ring", Some "top"));
    ("RING_TIP_TAC", ("ring", Some "tip"));
    ("RING_BASE_TAC", ("ring", Some "base"));
    ("MIDDLE_TOP_TAC", ("middle", Some "top"));
    ("MIDDLE_TIP_TAC", ("middle", Some "tip"));
    ("MIDDLE_BASE_TAC", ("middle", Some "base"));
    ("INDEX_TOP_TAC", ("index", Some "top"));
    ("INDEX_TIP_TAC", ("index", Some "tip"));
    ("INDEX_BASE_TAC", ("index", Some "base"));
    ("THUMB_TOP_TAC", ("thumb", Some "top"));
    ("THUMB_TIP_TAC", ("thumb", Some "tip"));
    ("THUMB_MID_TAC", ("thumb", Some "mid"));
    ("THUMB_BASE_TAC", ("thumb", Some "base"));
    ("PALM_TAC", ("palm", None)) ]%string.

Section Engine.

Context {Dev Time : Type}.

(** The transport: the device's state before the call, the address and the
    count give its state after the call and the reply. *)
Variable read_holding_registers : Dev -> Z -> Z -> Dev * reply.

Definition call_read (c : client Dev) (address count : Z) : client Dev * reply :=
  let '(d, r) := read_holding_registers (device c) address count in
  (mk_client d (requests c ++ [(address, count)]), r).

Definition _regdict (h : hand Dev) : gmap string reg_entry :=
  get_registers (generation h).

Definition set_client (h : hand Dev) (c : client Dev) : hand Dev :=
  mk_hand (generation h) (connected h) (Some c).

Definition is_connected (h : hand Dev) : bool :=
  connected h && match _client h with
                 | Some _ => true
                 | None => false
                 end.

(** The [while remaining_count > 0] loop of the segmented read. An error
    response raises [CommunicationError] inside the [try]; that exception,
    like any exception of the transport, is caught by [except Exception] and
    raised again as [CommunicationError]. *)
Equations? read_segments (c : client Dev) (all_results : list Z)
    (remaining_count current_address : Z) : client Dev * result (list Z)
    by wf (Z.to_nat remaining_count) lt :=
  read_segments c all_results remaining_count current_address
    with Z_gt_dec remaining_count 0 := {
    | left _ =>
        let segment_count := Z.min remaining_count MODBUS_MAX_REGISTERS_PER_READ in
        match call_read c current_address segment_count with
        | (c', Registers segment_results) =>
            read_segments c' (all_results ++ segment_results)
                          (remaining_count - segment_count)
                          (current_address + segment_count)
        | (c', ErrorResponse) => (c', Raise CommunicationError)
        | (c', TransportError) => (c', Raise CommunicationError)
        end
    | right _ => (c, Ok all_results) }.
Proof. subst segment_count. unfold MODBUS_MAX_REGISTERS_PER_READ. lia. Qed.

(** [address] is the object taken from the register dictionary. A tuple
    cannot be encoded as an address: the client raises inside the [try], and
    the caller sees [CommunicationError]. *)
Definition _read_register (h : hand Dev) (address : reg_entry) (count : Z)
  : hand Dev * result (list Z) :=
  if negb (is_connected h) then (h, Raise CommunicationError)
  else
    match _client h, address with
    | None, _ => (h, Raise CommunicationError)
    | Some c, Tactile _ _ _ => (h, Raise CommunicationError)
    | Some c, Plain address =>
        if count <=? MODBUS_MAX_REGISTERS_PER_READ then
          match call_read c address count with
          | (c', Registers result) => (set_client h c', Ok result)
          | (c', ErrorResponse) => (set_client h c', Raise CommunicationError)
          | (c', TransportError) => (set_client h c', Raise CommunicationError)
          end
        else
          let '(c', r) := read_segments c [] count address in
          (set_client h c', r)
    end.

Definition _read6_16bit (h : hand Dev) (reg_name : string)
  : hand Dev * result (list Z) :=
  match _regdict h !! reg_name with
  | None => (h, Raise ValidationError)
  | Some entry =>
      match _read_register h entry 6 with
      | (h, Raise e) => (h, Raise e)
      | (h, Ok val) => if len val <? 6 then (h, Ok []) else (h, Ok val)
      end
  end.

Definition _read6_8bit (h : hand Dev) (reg_name : string)
  : hand Dev * result (list Z) :=
  match _regdict h !! reg_name with
  | None => (h, Raise ValidationError)
  | Some entry =>
      match _read_register h entry 3 with
      | (h, Raise e) => (h, Raise e)
      | (h, Ok val_act) =>
          if len val_act <? 3 then (h, Ok [])
          else
            (h, Ok (fold_left
                      (fun results val =>
                         let low_byte := Z.land val 0xFF in
                         let high_byte := Z.land (Z.shiftr val 8) 0xFF in
                         (results ++ [low_byte]) ++ [high_byte])
                      val_act []))
      end
  end.

(** The [for reg_name, (finger, position) in tactile_sensors.items()] loop.
    [sensor_data] is the dictionary of dictionaries the loop fills,
    [palm_data] is [None] until the palm has been read. *)
Fixpoint read_sensors (sensors : list (string * (string * option string)))
    (h : hand Dev) (sensor_data : gmap string (gmap (option string) ndarray))
    (palm_data : option ndarray)
  : hand Dev * result (gmap string (gmap (option string) ndarray) * option ndarray) :=
  match sensors with
  | [] => (h, Ok (sensor_data, palm_data))
  | (reg_name, (finger, position)) :: rest =>
      match _regdict h !! reg_name with
      | None => read_sensors rest h sensor_data palm_data
      | Some (Plain _) => (h, Raise TypeError)
      | Some (Tactile address rows cols) =>
          let total_elements := (rows * cols)%nat in
          match _read_register h (Plain address) (Z.of_nat total_elements) with
          | (h, Raise e) => (h, Raise e)
          | (h, Ok raw_data) =>
              if negb (length raw_data =? total_elements)%nat
              then read_sensors rest h sensor_data palm_data
              else
                let is_palm := bool_decide (finger = "palm"%string) in
                match reshape_tactile_data raw_data rows cols is_palm with
                | Raise e => (h, Raise e)
                | Ok matrix =>
                    if is_palm then read_sensors rest h sensor_data (Some matrix)
                    else
                      let inner := default ∅ (sensor_data !! finger) in
                      read_sensors rest h
                        (<[finger := <[position := matrix]> inner]> sensor_data)
                        palm_data
                end
          end
      end
  end.

Definition empty_frame : ndarray := Array1 [].

(** [d.get(position, np.array([], dtype=np.int32))] *)
Definition get_frame (d : gmap (option string) ndarray) (position : string) : ndarray :=
  default empty_frame (d !! Some position).

Definition finger_object (d : gmap (option string) ndarray) : FingerSensorData :=
  mk_finger (get_frame d "top") (get_frame d "tip") (get_frame d "base").

Definition get_all_tactile_data (now : Time) (h : hand Dev)
  : hand Dev * result (TactileData Time) :=
  match generation h with
  | GEN3 => (h, Raise GenerationError)
  | GEN4 =>
      let timestamp := now in
      match read_sensors tactile_sensors h ∅ None with
      | (h, Raise e) => (h, Raise e)
      | (h, Ok (sensor_data, palm_data)) =>
          let finger_objects : gmap string FingerSensorData :=
            fold_left
              (fun finger_objects finger_name =>
                 match sensor_data !! finger_name with
                 | Some d => <[finger_name := finger_object d]> finger_objects
                 | None => finger_objects
                 end)
              ["pinky"; "ring"; "middle"; "index"]%string ∅ in
          let thumb_d := default ∅ (sensor_data !! "thumb"%string) in
          let thumb_data :=
            mk_thumb (get_frame thumb_d "top") (get_frame thumb_d "tip")
                     (get_frame thumb_d "mid") (get_frame thumb_d "base") in
          let empty_finger := mk_finger empty_frame empty_frame empty_frame in
          (h, Ok (mk_tactile timestamp
                    (default empty_finger (finger_objects !! "pinky"%string))
                    (default empty_finger (finger_objects !! "ring"%string))
                    (default empty_finger (finger_objects !! "middle"%string))
                    (default empty_finger (finger_objects !! "index"%string))
                    thumb_data
                    (default empty_frame palm_data)))
      end
  end.

End Engine.

End Modbus.

(** ** Vocabulary of the specification *)

(** A joint value: the sentinel [-1] or a value in [0, 1000]. *)
Definition valid_joint (x : Z) : Prop := x = -1 \/ 0 <= x <= 1000.

(** A valid JointVector: exactly six joint values. *)
Definition JointVector (v : list Z) : Prop :=
  length v = 6%nat /\ Forall valid_joint v.

(** The sum of a list of bytes. *)
Definition additive_sum (l : list Z) : Z := foldr Z.add 0 l.

(** [data] with the elements at positions [i] and [j] exchanged. *)
Definition swap (data : list Z) (i j : nat) : list Z :=
  match data !! i, data !! j with
  | Some x, Some y => <[j := x]> (<[i := y]> data)
  | _, _ => data
  end.

(** Element [[r][c]] of a two-dimensional array given by its rows. *)
Definition element (m : list (list Z)) (r c : nat) : option Z :=
  row ← m !! r; row !! c.

(** The word a 16-bit encoding of [x] decodes to. *)
Definition unsigned16 (x : Z) : Z := if x =? -1 then 0xFFFF else x.

(** The write frame for the angles [500,500,500,500,500,0] at register
    1486, without its checksum. *)
Definition angle_frame : list Z :=
  [0xEB; 0x90; 0x01; 0x0F; 0x12; 0xCE; 0x05; 0xF4; 0x01; 0xF4; 0x01;
   0xF4; 0x01; 0xF4; 0x01; 0xF4; 0x01; 0x00; 0x00].

(** The same frame with the address bytes [AE 05]. *)
Definition claimed_angle_frame : list Z :=
  [0xEB; 0x90; 0x01; 0x0F; 0x12; 0xAE; 0x05; 0xF4; 0x01; 0xF4; 0x01;
   0xF4; 0x01; 0xF4; 0x01; 0xF4; 0x01; 0x00; 0x00].

(** An element passes the range test of the validator: it is the sentinel
    or within [[min_val, max_val]]. *)
Definition in_range (min_val max_val x : Z) : Prop :=
  x = -1 \/ min_val <= x <= max_val.


(** The bytes [read_all] returns after the turnaround sleep. *)
Definition received (p : Serial.port) : list Z :=
  Serial.in_buffer (Serial.sleep p).

(** A connected Gen3 hand whose device answers the next request with a
    frame that declares six data bytes and carries four. *)
Definition short_reply_port : Serial.port :=
  Serial.mk_port true [] [] [[0xEB; 0x90; 1; 9; 0x11; 0x0A; 0x06; 1; 2; 3; 4]].

Definition short_reply_hand : Serial.hand :=
  Serial.mk_hand GEN3 true (Some short_reply_port).

Definition short_reply_hand_after : Serial.hand :=
  Serial.mk_hand GEN3 true
    (Some (Serial.mk_port true [[0xEB; 0x90; 1; 4; 0x11; 0x0A; 0x06; 6; 0x2C]] [] [])).

(** *** Modbus reads *)

Definition is_registers (r : Modbus.reply) : Prop :=
  match r with
  | Modbus.Registers _ => True
  | _ => False
  end.

(** An error response or an exception of the transport. *)
Definition is_failure (r : Modbus.reply) : Prop := ~ is_registers r.

Definition registers_of (r : Modbus.reply) : list Z :=
  match r with
  | Modbus.Registers registers => registers
  | _ => []
  end.

(** Consecutive segments of at most 125 registers: segment [k] starts at
    [address + 125 * k]; there are [ceil(count / 125)] of them. *)
Definition segments (address count : Z) : list (Z * Z) :=
  map (fun k => (address + 125 * k, Z.min 125 (count - 125 * k)))
      (py_range ((count + 124) / 125)).

(** The requests a read of [count] registers at [address] is to issue. *)
Definition read_plan (address count : Z) : list (Z * Z) :=
  if count <=? 125 then [(address, count)] else segments address count.

Section Transport.

Context {Dev : Type}.
Variable read_holding_registers : Dev -> Z -> Z -> Dev * Modbus.reply.

(** The replies the device gives to a list of requests served in order. *)
Fixpoint serve (d : Dev) (reqs : list (Z * Z)) : list Modbus.reply :=
  match reqs with
  | [] => []
  | (address, count) :: rest =>
      let '(d', r) := read_holding_registers d address count in
      r :: serve d' rest
  end.

(** The requests of a plan issued one after the other through the client,
    the registers of each reply appended to [acc], stopping at the first
    failure. *)
Fixpoint run_requests (c : Modbus.client Dev) (acc : list Z)
    (reqs : list (Z * Z)) : Modbus.client Dev * result (list Z) :=
  match reqs with
  | [] => (c, Ok acc)
  | (address, count) :: rest =>
      match Modbus.call_read read_holding_registers c address count with
      | (c', Modbus.Registers registers) => run_requests c' (acc ++ registers) rest
      | (c', _) => (c', Raise CommunicationError)
      end
  end.

End Transport.

(** A device whose register at address [a] holds [a]; its state counts the
    requests served. *)
Definition echo_device (d : nat) (address count : Z) : nat * Modbus.reply :=
  (S d, Modbus.Registers (map (fun i => address + i) (py_range count))).

(** The same device, except that its second reply is an error response. *)
Definition flaky_device (d : nat) (address count : Z) : nat * Modbus.reply :=
  (S d, if (d =? 1)%nat then Modbus.ErrorResponse
        else Modbus.Registers (map (fun i => address + i) (py_range count))).

(** *** Tactile snapshots *)

(** A register word: 16 bits, unsigned. *)
Definition is_word (w : Z) : Prop := 0 <= w < 65536.

(** The tactile sensors with what the Gen4 register map says of each:
    finger, position, address, rows, columns. *)
Definition tactile_shapes : list (string * option string * Z * nat * nat) :=
  omap (fun '(reg_name, (finger, position)) =>
          match REGISTERS_GEN4 !! reg_name with
          | Some (Tactile address rows cols) => Some (finger, position, address, rows, cols)
          | _ => None
          end)
       Modbus.tactile_sensors.

Definition shape_request (sh : string * option string * Z * nat * nat) : Z * Z :=
  let '(_, _, address, rows, cols) := sh in (address, Z.of_nat (rows * cols)).

(** The place of a sensor in the snapshot: all palm entries share one. *)
Definition slot_key (key : string * option string) : string * option string :=
  if decide (key.1 = "palm"%string) then ("palm"%string, None) else key.

Definition shape_key (sh : string * option string * Z * nat * nat)
  : string * option string :=
  let '(finger, position, _, _, _) := sh in slot_key (finger, position).

(** What a sensor contributes: the reshaped frame when the reply carries
    exactly [rows * cols] words, nothing otherwise. *)
Definition full_frame (finger : string) (rows cols : nat) (r : Modbus.reply)
  : option Utils.ndarray :=
  match r with
  | Modbus.Registers regs =>
      if (length regs =? rows * cols)%nat then
        match Utils.reshape_tactile_data regs rows cols (bool_decide (finger = "palm"%string)) with
        | Ok matrix => Some matrix
        | Raise _ => None
        end
      else None
  | _ => None
  end.

(** The contents of the loop's two variables at a key. *)
Definition slot (sensor_data : gmap string (gmap (option string) Utils.ndarray))
    (palm_data : option Utils.ndarray) (key : string * option string)
  : option Utils.ndarray :=
  if decide (key.1 = "palm"%string) then palm_data
  else d ← sensor_data !! key.1; d !! key.2.

(** One pass of the loop body on a reply that carries registers. *)
Definition store_frame (sensor_data : gmap string (gmap (option string) Utils.ndarray))
    (palm_data : option Utils.ndarray) (finger : string) (position : option string)
    (rows cols : nat) (regs : list Z)
  : gmap string (gmap (option string) Utils.ndarray) * option Utils.ndarray :=
  match full_frame finger rows cols (Modbus.Registers regs) with
  | Some matrix =>
      if bool_decide (finger = "palm"%string) then (sensor_data, Some matrix)
      else (<[finger := <[position := matrix]> (default ∅ (sensor_data !! finger))]>
              sensor_data, palm_data)
  | None => (sensor_data, palm_data)
  end.

Definition finger_frame (f : Modbus.FingerSensorData) (position : string) : Utils.ndarray :=
  if String.eqb position "top" then Modbus.f_top f
  else if String.eqb position "tip" then Modbus.f_tip f
  else if String.eqb position "base" then Modbus.f_base f
  else Modbus.empty_frame.

Definition thumb_frame (t : Modbus.ThumbSensorData) (position : string) : Utils.ndarray :=
  if String.eqb position "top" then Modbus.t_top t
  else if String.eqb position "tip" then Modbus.t_tip t
  else if String.eqb position "mid" then Modbus.t_mid t
  else if String.eqb position "base" then Modbus.t_base t
  else Modbus.empty_frame.

(** The frame of a sensor in a snapshot. *)
Definition frame_of {Time : Type} (snap : Modbus.TactileData Time)
    (finger : string) (position : option string) : Utils.ndarray :=
  if String.eqb finger "palm" then Modbus.palm snap
  else match position with
       | None => Modbus.empty_frame
       | Some pos =>
           if String.eqb finger "pinky" then finger_frame (Modbus.pinky snap) pos
           else if String.eqb finger "ring" then finger_frame (Modbus.ring snap) pos
           else if String.eqb finger "middle" then finger_frame (Modbus.middle snap) pos
           else if String.eqb finger "index" then finger_frame (Modbus.index snap) pos
           else if String.eqb finger "thumb" then thumb_frame (Modbus.thumb snap) pos
           else Modbus.empty_frame
       end.

(** A device that answers every read with an error response. *)
Definition dead_device (d : nat) (address count : Z) : nat * Modbus.reply :=
  (S d, Modbus.ErrorResponse).

(** A device that returns [count] zero words, except for the pinky tip
    segment at 3018, of which it returns five words only. *)
Definition short_tip_device (d : nat) (address count : Z) : nat * Modbus.reply :=
  (S d, Modbus.Registers
          (if address =? 3018 then [0; 0; 0; 0; 0]
           else map (fun _ => 0) (py_range count))).

(** A sensor of the table resolves to a shape: its register is a tactile
    entry of the Gen4 map and fits one Modbus transaction. *)
Definition resolves (s : string * (string * option string))
    (sh : string * option string * Z * nat * nat) : Prop :=
  let '(reg_name, (finger, position)) := s in
  let '(f, p, address, rows, cols) := sh in
  f = finger /\ p = position /\
  REGISTERS_GEN4 !! reg_name = Some (Tactile address rows cols) /\
  (rows * cols <= 125)%nat.

#[global] Instance is_word_dec (w : Z) : Decision (is_word w).
Proof. unfold is_word. apply _. Defined.

#[global] Instance is_registers_dec (r : Modbus.reply) : Decision (is_registers r).
Proof. destruct r; simpl; apply _. Defined.

(** A connected Gen4 hand on a device in state 0 that has served nothing. *)
Definition fresh_hand : Modbus.hand nat :=
  Modbus.mk_hand GEN4 true (Some (Modbus.mk_client 0%nat [])).

(** ** Further operations of the source *)

(** *** registers.py, the lookups by generation number and the categories *)

Module Registers.

Definition get_registers (generation : Z) : result (gmap string reg_entry) :=
  if generation =? 3 then Ok REGISTERS_GEN3
  else if generation =? 4 then Ok REGISTERS_GEN4
  else Raise ValueError.

Definition validate_register_address (reg_name : string) (generation : Z)
  : result reg_entry :=
  registers ← get_registers generation;
  match registers !! reg_name with
  | None => Raise ValueError
  | Some entry => Ok entry
  end.

(** [s.startswith(p)] and [s.endswith(p)]. *)
Definition startswith (s p : string) : bool := String.prefix p s.

Definition endswith (s p : string) : bool :=
  let n := String.length s in
  let k := String.length p in
  (k <=? n)%nat && String.eqb (String.substring (n - k) k s) p.

(** [x in l] on a list of strings. *)
Definition str_in (x : string) (l : list string) : bool :=
  existsb (String.eqb x) l.

Definition categorize_register (reg_name : string) : string :=
  if str_in reg_name ["HAND_ID"; "REDU_RATIO"; "CLEAR_ERROR"; "SAVE"; "RESET_PARA"]
  then "system_control"
  else if str_in reg_name ["ANGLE_SET"; "POS_SET"; "FORCE_SET"; "SPEED_SET"]
  then "actuator_commands"
  else if str_in reg_name
            ["ANGLE_ACT"; "POS_ACT"; "FORCE_ACT"; "CURRENT"; "ERROR"; "STATUS"; "TEMP"]
  then "sensor_readings"
  else if startswith reg_name "ACTION_SEQ" then "action_sequences"
  else if endswith reg_name "_TAC" then "touch_sensors"
  else if startswith reg_name "IP_" then "network_config"
  else "other".

End Registers.

(** *** utils.py, the strict response parser and the other validators *)

Module UtilsMore.
Import Utils.

Definition MIN_SPEED : Z := 0.
Definition MAX_SPEED : Z := 1000.
Definition MIN_FORCE : Z := 0.
Definition MAX_FORCE : Z := 1000.

Definition validate_speeds (speeds : pyarg) : result (list Z) :=
  validate_joint_values speeds MIN_SPEED MAX_SPEED.

Definition validate_forces (forces : pyarg) : result (list Z) :=
  validate_joint_values forces MIN_FORCE MAX_FORCE.

Definition parse_serial_response (data : list Z) (expected_length : Z)
  : result (list Z) :=
  if len data <? 7 then Raise ValidationError
  else
    b ← getitem data 3;
    let num_received := Z.land b BYTE_MASK - 3 in
    if negb (num_received =? expected_length) then Raise ValidationError
    else
      let actual_data_len := Z.min num_received (len data - 7) in
      collect (fun i => getitem data (7 + i)) (py_range actual_data_len).

End UtilsMore.

(** *** serial.py, the commands and getters built on the register
    primitives *)

Module SerialOps.
Import Utils UtilsMore Serial.

(** [self._regdict[name]]: a missing key raises [KeyError]. *)
Definition regdict_getitem (h : hand) (name : string) : result reg_entry :=
  match _regdict h !! name with
  | Some entry => Ok entry
  | None => Raise KeyError
  end.

Definition reset_error (h : hand) : hand * result bool :=
  match regdict_getitem h "CLEAR_ERROR" with
  | Raise e => (h, Raise e)
  | Ok addr => _write_register h DEFAULT_HAND_ID addr 1 [0x01]
  end.

Definition set_pos (h : hand) (positions : pyarg) (hand_id : Z)
  : hand * result bool :=
  match validate_angles positions with
  | Raise e => (h, Raise e)
  | Ok positions_validated =>
      let val_bytes := convert_to_serial_bytes positions_validated in
      match regdict_getitem h "POS_SET" with
      | Raise e => (h, Raise e)
      | Ok addr => _write_register h hand_id addr 12 val_bytes
      end
  end.

Definition set_speed (h : hand) (speeds : pyarg) (hand_id : Z)
  : hand * result bool :=
  match validate_speeds speeds with
  | Raise e => (h, Raise e)
  | Ok speeds_validated =>
      let val_bytes := convert_to_serial_bytes speeds_validated in
      match regdict_getitem h "SPEED_SET" with
      | Raise e => (h, Raise e)
      | Ok addr => _write_register h hand_id addr 12 val_bytes
      end
  end.

Definition set_force (h : hand) (forces : pyarg) (hand_id : Z)
  : hand * result bool :=
  match validate_forces forces with
  | Raise e => (h, Raise e)
  | Ok forces_validated =>
      let val_bytes := convert_to_serial_bytes forces_validated in
      match regdict_getitem h "FORCE_SET" with
      | Raise e => (h, Raise e)
      | Ok addr => _write_register h hand_id addr 12 val_bytes
      end
  end.

Definition set_action_sequence (h : hand) (hand_id sequence_id : Z)
  : hand * result bool :=
  match regdict_getitem h "ACTION_SEQ_INDEX" with
  | Raise e => (h, Raise e)
  | Ok addr => _write_register h hand_id addr 1 [sequence_id]
  end.

Definition run_action_sequence (h : hand) (hand_id : Z) : hand * result bool :=
  match regdict_getitem h "ACTION_SEQ_RUN" with
  | Raise e => (h, Raise e)
  | Ok addr => _write_register h hand_id addr 1 [1]
  end.

(** [np.array(result, dtype=np.int32)] of a getter. *)
Definition to_array (r : hand * result (list Z)) : hand * result ndarray :=
  match r with
  | (h, Raise e) => (h, Raise e)
  | (h, Ok result) => (h, a ← np_array_int32 result; Ok (Array1 a))
  end.

Definition get_angle_actual (h : hand) (hand_id : Z) : hand * result ndarray :=
  to_array (_read12 h hand_id "ANGLE_ACT").

Definition get_angle_set (h : hand) (hand_id : Z) : hand * result ndarray :=
  to_array (_read12 h hand_id "ANGLE_SET").

Definition get_error (h : hand) (hand_id : Z) : hand * result ndarray :=
  to_array (_read6 h hand_id "ERROR").

End SerialOps.

(** *** modbus.py, writes, commands, getters and the single-sensor read *)

Module ModbusOps.
Import Utils UtilsMore Modbus.

(** What one call of [client.write_registers] can do: return a response
    (whose [isError()] the engine never looks at), or raise. *)
Inductive write_reply : Type :=
| WriteResponse (is_error : bool)
| WriteRaises.

(** [c.upper()] on an ASCII character. *)
Definition upper_ascii (c : Ascii.ascii) : Ascii.ascii :=
  let n := Ascii.nat_of_ascii c in
  if (97 <=? n)%nat && (n <=? 122)%nat then Ascii.ascii_of_nat (n - 32) else c.

(** [s.upper()] on an ASCII string. *)
Fixpoint upper (s : string) : string :=
  match s with
  | EmptyString => EmptyString
  | String c s' => String (upper_ascii c) (upper s')
  end.

Section Engine.

Context {Dev : Type}.

Variable read_holding_registers : Dev -> Z -> Z -> Dev * reply.
Variable write_registers : Dev -> Z -> list Z -> Dev * write_reply.

Definition regdict_getitem (h : hand Dev) (name : string) : result reg_entry :=
  match _regdict h !! name with
  | Some entry => Ok entry
  | None => Raise KeyError
  end.

(** A tuple cannot be encoded as an address: the client raises inside the
    [try], and the caller sees [CommunicationError]. The response of the
    client is not inspected. *)
Definition _write_register (h : hand Dev) (address : reg_entry) (values : list Z)
  : hand Dev * result bool :=
  if negb (is_connected h) then (h, Raise CommunicationError)
  else
    match _client h, address with
    | None, _ => (h, Raise CommunicationError)
    | Some c, Tactile _ _ _ => (h, Raise CommunicationError)
    | Some c, Plain address =>
        match write_registers (device c) address values with
        | (d', WriteResponse _) => (set_client h (mk_client d' (requests c)), Ok true)
        | (d', WriteRaises) =>
            (set_client h (mk_client d' (requests c)), Raise CommunicationError)
        end
    end.

Definition reset_error (h : hand Dev) : hand Dev * result bool :=
  match regdict_getitem h "CLEAR_ERROR" with
  | Raise e => (h, Raise e)
  | Ok addr => _write_register h addr [1]
  end.

Definition set_angle (h : hand Dev) (angles : pyarg) : hand Dev * result bool :=
  match validate_angles angles with
  | Raise e => (h, Raise e)
  | Ok angles_validated =>
      let val_reg := convert_to_modbus_values angles_validated in
      match regdict_getitem h "ANGLE_SET" with
      | Raise e => (h, Raise e)
      | Ok addr => _write_register h addr val_reg
      end
  end.

Definition set_pos (h : hand Dev) (positions : pyarg) : hand Dev * result bool :=
  set_angle h positions.

Definition set_speed (h : hand Dev) (speeds : pyarg) : hand Dev * result bool :=
  match validate_speeds speeds with
  | Raise e => (h, Raise e)
  | Ok speeds_validated =>
      let val_reg := convert_to_modbus_values speeds_validated in
      match regdict_getitem h "SPEED_SET" with
      | Raise e => (h, Raise e)
      | Ok addr => _write_register h addr val_reg
      end
  end.

Definition set_force (h : hand Dev) (forces : pyarg) : hand Dev * result bool :=
  match validate_forces forces with
  | Raise e => (h, Raise e)
  | Ok forces_validated =>
      let val_reg := convert_to_modbus_values forces_validated in
      match regdict_getitem h "FORCE_SET" with
      | Raise e => (h, Raise e)
      | Ok addr => _write_register h addr val_reg
      end
  end.

Definition set_action_sequence (h : hand Dev) (sequence_id : Z)
  : hand Dev * result bool :=
  match regdict_getitem h "ACTION_SEQ_INDEX" with
  | Raise e => (h, Raise e)
  | Ok addr => _write_register h addr [sequence_id]
  end.

Definition run_action_sequence (h : hand Dev) : hand Dev * result bool :=
  match regdict_getitem h "ACTION_SEQ_RUN" with
  | Raise e => (h, Raise e)
  | Ok addr => _write_register h addr [1]
  end.

(** [np.array(result, dtype=np.int32)] of a getter. *)
Definition to_array (r : hand Dev * result (list Z)) : hand Dev * result ndarray :=
  match r with
  | (h, Raise e) => (h, Raise e)
  | (h, Ok result) => (h, a ← np_array_int32 result; Ok (Array1 a))
  end.

Definition get_angle_set (h : hand Dev) : hand Dev * result ndarray :=
  to_array (_read6_16bit read_holding_registers h "ANGLE_SET").

Definition get_speed_set (h : hand Dev) : hand Dev * result ndarray :=
  to_array (_read6_16bit read_holding_registers h "SPEED_SET").

Definition get_force_set (h : hand Dev) : hand Dev * result ndarray :=
  to_array (_read6_16bit read_holding_registers h "FORCE_SET").

Definition get_error (h : hand Dev) : hand Dev * result ndarray :=
  to_array (_read6_8bit read_holding_registers h "ERROR").

(** The read, length test and reshape shared by the two branches of
    [get_tactile_data]; the entry is unpacked as [address, shape]. *)
Definition read_frame (h : hand Dev) (entry : reg_entry) (is_palm : bool)
  : hand Dev * result ndarray :=
  match entry with
  | Plain _ => (h, Raise TypeError)
  | Tactile address rows cols =>
      let total_elements := (rows * cols)%nat in
      match _read_register read_holding_registers h (Plain address)
              (Z.of_nat total_elements) with
      | (h, Raise e) => (h, Raise e)
      | (h, Ok raw_data) =>
          if negb (length raw_data =? total_elements)%nat then (h, Ok empty_frame)
          else (h, reshape_tactile_data raw_data rows cols is_palm)
      end
  end.

Definition get_tactile_data (h : hand Dev) (finger position : string)
  : hand Dev * result ndarray :=
  match generation h with
  | GEN3 => (h, Raise GenerationError)
  | GEN4 =>
      if String.eqb finger "palm" then
        match _regdict h !! "PALM_TAC"%string with
        | None => (h, Raise ValidationError)
        | Some entry => read_frame h entry true
        end
      else if negb (Registers.str_in finger ["pinky"; "ring"; "middle"; "index"; "thumb"])
      then (h, Raise ValidationError)
      else if negb (Registers.str_in position
                      (if String.eqb finger "thumb" then ["top"; "tip"; "mid"; "base"]
                       else ["top"; "tip"; "base"]))
      then (h, Raise ValidationError)
      else
        let reg_name := (upper finger ++ "_" ++ upper position ++ "_TAC")%string in
        match _regdict h !! reg_name with
        | None => (h, Raise ValidationError)
        | Some entry => read_frame h entry false
        end
  end.

End Engine.

End ModbusOps.

(** A device that is a file of 16-bit registers: a read returns the stored
    words (0 where nothing was stored), a write of words stores them at
    consecutive addresses, a write of anything else makes the client
    raise. *)
Fixpoint store_words (d : gmap Z Z) (address : Z) (values : list Z) : gmap Z Z :=
  match values with
  | [] => d
  | v :: values' => store_words (<[address := v]> d) (address + 1) values'
  end.

Definition memory_read (d : gmap Z Z) (address count : Z) : gmap Z Z * Modbus.reply :=
  (d, Modbus.Registers (map (fun i => default 0 (d !! (address + i))) (py_range count))).

Definition memory_write (d : gmap Z Z) (address : Z) (values : list Z)
  : gmap Z Z * ModbusOps.write_reply :=
  if forallb (fun v => (0 <=? v) && (v <? 65536)) values
  then (store_words d address values, ModbusOps.WriteResponse false)
  else (d, ModbusOps.WriteRaises).

(** The valid arguments of [get_tactile_data] for a finger sensor. *)
Definition valid_sensor (finger position : string) : Prop :=
  (finger, Some position) ∈
    [ ("pinky", Some "top"); ("pinky", Some "tip"); ("pinky", Some "base");
      ("ring", Some "top"); ("ring", Some "tip"); ("ring", Some "base");
      ("middle", Some "top"); ("middle", Some "tip"); ("middle", Some "base");
      ("index", Some "top"); ("index", Some "tip"); ("index", Some "base");
      ("thumb", Some "top"); ("thumb", Some "tip"); ("thumb", Some "mid");
      ("thumb", Some "base") ]%string.

(** *** Register tables as data *)

#[global] Instance reg_entry_eq_dec : EqDecision reg_entry.
Proof. solve_decision. Defined.

Definition is_tuple (entry : reg_entry) : bool :=
  match entry with
  | Plain _ => false
  | Tactile _ _ _ => true
  end.

(** The number of registers an entry occupies as far as the map says: the
    [rows * cols] words of a tactile block, one for a plain address. *)
Definition entry_size (entry : reg_entry) : Z :=
  match entry with
  | Plain _ => 1
  | Tactile _ rows cols => Z.of_nat (rows * cols)
  end.

(** The address of [e2] lies in the block of [e1]. *)
Definition in_block (e1 e2 : reg_entry) : bool :=
  (Serial.entry_address e1 <=? Serial.entry_address e2)
  && (Serial.entry_address e2 <? Serial.entry_address e1 + entry_size e1).

(** *** Devices for the examples *)

(** A connected Gen3 hand whose device answers the next request with a
    complete frame of six data bytes and a checksum byte. *)
Definition full_reply_port : Serial.port :=
  Serial.mk_port true [] []
    [[0xEB; 0x90; 1; 9; 0x11; 0x0A; 0x06; 1; 2; 3; 4; 5; 6; 0x40]].

Definition full_reply_hand : Serial.hand :=
  Serial.mk_hand GEN3 true (Some full_reply_port).

(** A connected Gen3 hand whose device answers the next request with the
    twelve bytes that encode [500, -1, 0, 1000, 7, 8], followed by two bytes
    that are not their checksum. *)
Definition echo_reply_port : Serial.port :=
  Serial.mk_port true [] []
    [[0xEB; 0x90; 1; 15; 0x11; 0x0A; 0x06]
     ++ Utils.convert_to_serial_bytes [500; -1; 0; 1000; 7; 8] ++ [0xFF; 0xFF]].

Definition echo_reply_hand : Serial.hand :=
  Serial.mk_hand GEN3 true (Some echo_reply_port).

(** The same hand once a request for the twelve bytes at 1546 has been
    sent and the reply read. *)
Definition echo_reply_hand_after : Serial.hand :=
  Serial.mk_hand GEN3 true
    (Some (Serial.mk_port true [[0xEB; 0x90; 1; 4; 0x11; 0x0A; 0x06; 12; 0x32]] [] [])).

(** A write transport on the counting devices: it accepts everything. *)
Definition memory_write_nat (d : nat) (address : Z) (values : list Z)
  : nat * ModbusOps.write_reply :=
  (S d, ModbusOps.WriteResponse false).

(** * Properties *)

(** ** Loops that append are maps *)

Lemma fold_left_append {A B : Type} (f : list B -> A -> list B)
    (g : A -> list B) (l : list A) (init : list B) :
  (forall acc x, f acc x = acc ++ g x) ->
  fold_left f l init = init ++ (l ≫= g).
Proof.
  intros Hf. revert init.
  induction l as [|x l IH]; intros init; simpl.
  - by rewrite app_nil_r.
  - rewrite IH, Hf, <- app_assoc. reflexivity.
Qed.

Lemma collect_ok {A B : Type} (f : A -> result B) (g : A -> B) (l : list A) :
  Forall (fun x => f x = Ok (g x)) l -> collect f l = Ok (map g l).
Proof.
  induction 1 as [|x l Hx _ IH]; simpl; [done|].
  rewrite Hx. simpl. rewrite IH. reflexivity.
Qed.

Lemma getitem_lookup (l : list Z) (i : nat) (x : Z) :
  l !! i = Some x -> getitem l (Z.of_nat i) = Ok x.
Proof.
  intros H. unfold getitem.
  destruct (Z.ltb_spec (Z.of_nat i) 0) as [?|_]; [lia|].
  destruct (Z.ltb_spec (Z.of_nat i) 0) as [?|_]; [lia|].
  by rewrite Nat2Z.id, H.
Qed.

Module UtilsFacts.
Import Utils.

Lemma convert_to_modbus_values_map (values : list Z) :
  convert_to_modbus_values values
  = map (fun value => if value =? PLACEHOLDER_VALUE then 0xFFFF
                      else Z.land value WORD_MASK) values.
Proof.
  unfold convert_to_modbus_values.
  rewrite fold_left_append
    with (g := fun value => [if value =? PLACEHOLDER_VALUE then 0xFFFF
                             else Z.land value WORD_MASK]).
  - rewrite app_nil_l. induction values as [|x l IH]; [done|].
    rewrite bind_cons, IH. reflexivity.
  - intros acc x. by destruct (x =? PLACEHOLDER_VALUE).
Qed.

Lemma convert_to_serial_bytes_bind (values : list Z) :
  convert_to_serial_bytes values
  = values ≫= (fun value => [fst (int16_to_bytes value); snd (int16_to_bytes value)]).
Proof.
  unfold convert_to_serial_bytes.
  rewrite fold_left_append
    with (g := fun value => [fst (int16_to_bytes value); snd (int16_to_bytes value)]).
  - reflexivity.
  - intros acc x. simpl. by rewrite <- app_assoc.
Qed.

Lemma land_word_small (x : Z) : 0 <= x < 65536 -> Z.land x WORD_MASK = x.
Proof.
  intros H. unfold WORD_MASK. change 0xFFFF with (Z.ones 16).
  rewrite Z.land_ones by lia. apply Z.mod_small. lia.
Qed.

(** Little-endian split and join of a 16-bit word. *)
Lemma bytes_to_int16_of_word (x : Z) :
  0 <= x < 65536 ->
  bytes_to_int16 (fst (int16_to_bytes x)) (snd (int16_to_bytes x)) = x.
Proof.
  intros H. unfold bytes_to_int16, int16_to_bytes, BYTE_MASK, BITS_PER_BYTE. simpl.
  change 0xFF with (Z.ones 8).
  rewrite !Z.land_ones, Z.shiftr_div_pow2, Z.shiftl_mul_pow2 by lia.
  rewrite !Z.mod_mod by lia.
  change (2 ^ 8) with 256.
  assert (0 <= x / 256 < 256) by (split; [apply Z.div_pos|apply Z.div_lt_upper_bound]; lia).
  rewrite (Z.mod_small (x / 256)) by lia.
  pose proof (Z.div_mod x 256). lia.
Qed.

Lemma bytes_to_int16_of_joint (x : Z) :
  valid_joint x ->
  bytes_to_int16 (fst (int16_to_bytes x)) (snd (int16_to_bytes x)) = unsigned16 x.
Proof.
  intros [->|H]; [reflexivity|].
  unfold unsigned16. destruct (Z.eqb_spec x (-1)); [lia|].
  apply bytes_to_int16_of_word. lia.
Qed.

Lemma convert_12bytes_of_serial_bytes (a b c d e f : Z) :
  convert_12bytes_to_6values (convert_to_serial_bytes [a; b; c; d; e; f])
  = Ok (map (fun x => bytes_to_int16 (fst (int16_to_bytes x)) (snd (int16_to_bytes x)))
            [a; b; c; d; e; f]).
Proof. rewrite convert_to_serial_bytes_bind. reflexivity. Qed.

(** *** Modbus word encoding *)

(** C5: for every valid JointVector [v], the word at position [i] of
    [convert_to_modbus_values v] is [0xFFFF] if and only if [v[i]] is the
    sentinel [-1]; every other element passes through masked to 16 bits,
    which for a value in [0, 1000] is the value itself. *)
Theorem C5_modbus_sentinel (v : list Z) :
  JointVector v ->
  length (convert_to_modbus_values v) = 6%nat /\
  forall (i : nat) (x : Z), v !! i = Some x ->
    exists w, convert_to_modbus_values v !! i = Some w /\
      (w = 0xFFFF <-> x = -1) /\
      (x <> -1 -> w = Z.land x WORD_MASK /\ w = x).
Proof.
  intros [Hlen Hv]. rewrite convert_to_modbus_values_map. split.
  - by rewrite length_map.
  - intros i x Hi. rewrite list_lookup_fmap, Hi. simpl.
    eexists; split; [reflexivity|].
    assert (Hx : valid_joint x) by (eapply Forall_lookup_1; eauto).
    unfold PLACEHOLDER_VALUE. destruct (Z.eqb_spec x (-1)) as [->|Hne].
    + split; [done|]. intros; lia.
    + destruct Hx as [?|Hx]; [lia|].
      rewrite land_word_small by lia. split; [lia|done].
Qed.

Lemma C5_modbus_sentinel_witness :
  JointVector [-1; 500; 500; 500; 500; 0] /\
  length (convert_to_modbus_values [-1; 500; 500; 500; 500; 0]) = 6%nat.
Proof.
  assert (H : JointVector [-1; 500; 500; 500; 500; 0]).
  { split; [reflexivity|]. repeat constructor; unfold valid_joint; lia. }
  split; [exact H|].
  exact (proj1 (C5_modbus_sentinel [-1; 500; 500; 500; 500; 0] H)).
Defined.

(** *** Serial byte encoding *)

(** C2, as the code has it: for every valid JointVector [v], decoding the
    twelve serial bytes of [v] returns [v] with every sentinel [-1] replaced
    by 65535 ([0xFFFF]); the round trip returns [v] itself when [v] holds no
    sentinel. *)
Theorem C2_serial_round_trip (v : list Z) :
  JointVector v ->
  convert_12bytes_to_6values (convert_to_serial_bytes v) = Ok (map unsigned16 v) /\
  (Forall (fun x => x <> -1) v ->
   convert_12bytes_to_6values (convert_to_serial_bytes v) = Ok v).
Proof.
  intros [Hlen Hv].
  assert (Hdec : convert_12bytes_to_6values (convert_to_serial_bytes v)
                 = Ok (map unsigned16 v)).
  { destruct v as [|a [|b [|c [|d [|e [|f [|g v]]]]]]]; try discriminate Hlen.
    rewrite convert_12bytes_of_serial_bytes. f_equal.
    apply map_ext_Forall. eapply Forall_impl; [exact Hv|].
    intros x Hx. by apply bytes_to_int16_of_joint. }
  split; [exact Hdec|].
  intros Hns. rewrite Hdec. f_equal.
  rewrite <- (map_id v) at 2. apply map_ext_Forall.
  eapply Forall_impl; [exact Hns|]. intros x Hx. simpl in Hx. unfold unsigned16.
  destruct (Z.eqb_spec x (-1)); [lia|done].
Qed.

Lemma C2_serial_round_trip_witness :
  JointVector [500; 500; 500; 500; 500; 0] /\
  convert_12bytes_to_6values (convert_to_serial_bytes [500; 500; 500; 500; 500; 0])
  = Ok (map unsigned16 [500; 500; 500; 500; 500; 0]).
Proof.
  assert (H : JointVector [500; 500; 500; 500; 500; 0]).
  { split; [reflexivity|]. repeat constructor; unfold valid_joint; lia. }
  split; [exact H|].
  exact (proj1 (C2_serial_round_trip [500; 500; 500; 500; 500; 0] H)).
Defined.

(** The round trip does not restore a sentinel: [-1] is sent as [FF FF] and
    read back as 65535. *)
Lemma C2_sentinel_not_restored :
  JointVector [-1; 500; 500; 500; 500; 0] /\
  convert_12bytes_to_6values (convert_to_serial_bytes [-1; 500; 500; 500; 500; 0])
  = Ok [65535; 500; 500; 500; 500; 0] /\
  convert_12bytes_to_6values (convert_to_serial_bytes [-1; 500; 500; 500; 500; 0])
  <> Ok [-1; 500; 500; 500; 500; 0].
Proof.
  split; [|split].
  - split; [reflexivity|]. repeat constructor; unfold valid_joint; lia.
  - reflexivity.
  - discriminate.
Qed.

(** *** Checksum *)

Lemma fold_left_add_sum (l : list Z) (a : Z) :
  fold_left (fun checksum byte => checksum + byte) l a = a + additive_sum l.
Proof.
  unfold additive_sum.
  revert a. induction l as [|x l IH]; intros a; simpl; [lia|].
  rewrite IH. lia.
Qed.

Lemma calculate_checksum_sum (data : list Z) :
  calculate_checksum data = additive_sum (drop 2 data) mod 256.
Proof.
  unfold calculate_checksum, BYTE_MASK. rewrite fold_left_add_sum.
  change 0xFF with (Z.ones 8). rewrite Z.land_ones by lia. reflexivity.
Qed.

Lemma additive_sum_insert (l : list Z) (i : nat) (x y : Z) :
  l !! i = Some y -> additive_sum (<[i := x]> l) = additive_sum l - y + x.
Proof.
  unfold additive_sum.
  revert i. induction l as [|z l IH]; intros [|i] H; simplify_eq/=; [lia|].
  rewrite (IH i) by done. lia.
Qed.

Lemma additive_sum_swap (data : list Z) (i j : nat) :
  (2 <= i)%nat -> (2 <= j)%nat ->
  additive_sum (drop 2 (swap data i j)) = additive_sum (drop 2 data).
Proof.
  intros Hi Hj. unfold swap.
  destruct (data !! i) as [x|] eqn:Ex; [|done].
  destruct (data !! j) as [y|] eqn:Ey; [|done].
  rewrite !drop_insert_ge by lia.
  assert (Hx : drop 2 data !! (i - 2)%nat = Some x).
  { rewrite lookup_drop. by replace (2 + (i - 2))%nat with i by lia. }
  assert (Hy : <[(i - 2)%nat := y]> (drop 2 data) !! (j - 2)%nat = Some y).
  { destruct (decide (i = j)) as [->|Hne].
    - apply list_lookup_insert_eq. by eapply lookup_lt_Some.
    - rewrite list_lookup_insert_ne by lia.
      rewrite lookup_drop. by replace (2 + (j - 2))%nat with j by lia. }
  rewrite (additive_sum_insert _ _ x y Hy), (additive_sum_insert _ _ y x Hx). lia.
Qed.

(** C6, as the code has it: [calculate_checksum] is deterministic, and it is
    not sensitive to order: exchanging the bytes at any two positions at or
    after index 2 leaves the checksum unchanged, whether or not the two bytes
    are equal. *)
Theorem C6_checksum_order_insensitive (data : list Z) (i j : nat) :
  (2 <= i < length data)%nat -> (2 <= j < length data)%nat ->
  (forall data', data = data' -> calculate_checksum data = calculate_checksum data') /\
  calculate_checksum (swap data i j) = calculate_checksum data.
Proof.
  intros [Hi _] [Hj _]. split.
  - by intros data' <-.
  - by rewrite !calculate_checksum_sum, additive_sum_swap.
Qed.

Lemma C6_checksum_order_insensitive_witness :
  (2 <= 2 < length [0xEB; 0x90; 1; 2])%nat /\
  (2 <= 3 < length [0xEB; 0x90; 1; 2])%nat /\
  calculate_checksum (swap [0xEB; 0x90; 1; 2] 2 3) = calculate_checksum [0xEB; 0x90; 1; 2].
Proof.
  assert (H2 : (2 <= 2 < length [0xEB; 0x90; 1; 2])%nat) by (simpl; lia).
  assert (H3 : (2 <= 3 < length [0xEB; 0x90; 1; 2])%nat) by (simpl; lia).
  split; [exact H2|]. split; [exact H3|].
  exact (proj2 (C6_checksum_order_insensitive [0xEB; 0x90; 1; 2] 2 3 H2 H3)).
Defined.

(** Positions 2 and 3 hold the unequal bytes 1 and 2, and exchanging them
    does not change the checksum. *)
Lemma C6_swap_keeps_checksum :
  [0xEB; 0x90; 1; 2] !! 2%nat = Some 1 /\
  [0xEB; 0x90; 1; 2] !! 3%nat = Some 2 /\
  (1 : Z) <> 2 /\
  swap [0xEB; 0x90; 1; 2] 2 3 = [0xEB; 0x90; 2; 1] /\
  calculate_checksum (swap [0xEB; 0x90; 1; 2] 2 3) = calculate_checksum [0xEB; 0x90; 1; 2].
Proof. repeat split; try reflexivity; lia. Qed.

(** *** Validation *)

Lemma wrap_int32_id (z : Z) : is_int32 z = true -> wrap_int32 z = z.
Proof.
  unfold is_int32, wrap_int32. intros H.
  apply andb_true_iff in H as [H1 H2].
  apply Z.leb_le in H1. apply Z.ltb_lt in H2.
  rewrite Z.mod_small by lia. lia.
Qed.

Lemma map_wrap_int32_id (elems : list Z) :
  Forall (fun z => is_int32 z = true) elems -> map wrap_int32 elems = elems.
Proof.
  intros H. rewrite <- (map_id elems) at 2. apply map_ext_Forall.
  eapply Forall_impl; [exact H|]. intros z Hz. by apply wrap_int32_id.
Qed.

Lemma check_range_ok (l : list Z) (min_val max_val : Z) :
  Forall (in_range min_val max_val) l -> check_range l min_val max_val = Ok ().
Proof.
  induction 1 as [|x l Hx _ IH]; simpl; [done|].
  unfold PLACEHOLDER_VALUE.
  destruct (Z.eqb_spec x (-1)); simpl; [done|].
  destruct Hx as [?|Hx]; [lia|].
  destruct (Z.ltb_spec x min_val); [lia|].
  destruct (Z.gtb_spec x max_val); [lia|]. exact IH.
Qed.

Lemma check_range_raises (l : list Z) (min_val max_val : Z) :
  ~ Forall (in_range min_val max_val) l ->
  check_range l min_val max_val = Raise ValidationError.
Proof.
  induction l as [|x l IH]; intros H; simpl.
  - destruct H. constructor.
  - unfold PLACEHOLDER_VALUE.
    destruct (Z.eqb_spec x (-1)) as [Hx|Hx]; simpl.
    + apply IH. intros Hl. apply H. constructor; [by left|done].
    + destruct (Z.ltb_spec x min_val); simpl; [done|].
      destruct (Z.gtb_spec x max_val); simpl; [done|].
      apply IH. intros Hl. apply H. constructor; [right; lia|done].
Qed.

(** An input that is no array, or whose element count is not six, is
    rejected. *)
Lemma validate_rejects_length (values : pyarg) (min_val max_val : Z) :
  (forall elems, values = Ndarray elems -> length elems <> 6%nat) ->
  validate_joint_values values min_val max_val = Raise ValidationError.
Proof.
  intros H. destruct values as [elems|]; [|done]. simpl.
  specialize (H elems eq_refl).
  unfold len, NUM_JOINTS. rewrite length_map.
  destruct (Z.eqb_spec (Z.of_nat (length elems)) 6); [lia|done].
Qed.

(** On elements that are [int32] values the validator does what its
    documentation says: it returns the six values unchanged when each is the
    sentinel or in range, and raises [ValidationError] otherwise. *)
Lemma validate_int32 (elems : list Z) (min_val max_val : Z) :
  Forall (fun z => is_int32 z = true) elems ->
  length elems = 6%nat ->
  (Forall (in_range min_val max_val) elems ->
   validate_joint_values (Ndarray elems) min_val max_val = Ok elems) /\
  (~ Forall (in_range min_val max_val) elems ->
   validate_joint_values (Ndarray elems) min_val max_val = Raise ValidationError).
Proof.
  intros H32 Hlen. unfold validate_joint_values.
  rewrite map_wrap_int32_id by done.
  unfold len, NUM_JOINTS. rewrite Hlen. simpl. split; intros H.
  - by rewrite check_range_ok.
  - by rewrite check_range_raises.
Qed.

Lemma validate_accepts_all_placeholders :
  validate_joint_values (Ndarray [-1; -1; -1; -1; -1; -1]) MIN_ANGLE MAX_ANGLE
  = Ok [-1; -1; -1; -1; -1; -1].
Proof. reflexivity. Qed.

(** C7 at the input [np.array([4294967796, 500, 500, 500, 500, 0])], an
    [int64] array: the first element is neither the sentinel nor within
    [0, 1000], and yet the validator accepts the array, because it tests the
    values after the conversion to [int32], which turns 4294967796 into
    500. *)
Theorem C7_validate_wraps_before_checking :
  ~ in_range MIN_ANGLE MAX_ANGLE 4294967796 /\
  validate_joint_values (Ndarray [4294967796; 500; 500; 500; 500; 0]) MIN_ANGLE MAX_ANGLE
  = Ok [500; 500; 500; 500; 500; 0].
Proof.
  split; [|reflexivity].
  unfold in_range, MIN_ANGLE, MAX_ANGLE. lia.
Qed.

(** *** Tactile reshape *)

Lemma np_array_int32_ok (raw_data : list Z) :
  Forall (fun x => is_int32 x = true) raw_data -> np_array_int32 raw_data = Ok raw_data.
Proof.
  intros H. unfold np_array_int32.
  by rewrite (proj2 (forallb_forall _ _) (proj1 (List.Forall_forall _ _) H)).
Qed.

Lemma reshape_C_length (data : list Z) (rows cols : nat) :
  length (reshape_C data rows cols) = rows.
Proof. revert data. induction rows as [|rows IH]; intros data; simpl; [done|]. by rewrite IH. Qed.

Lemma reshape_C_row_length (data : list Z) (rows cols : nat) :
  (rows * cols <= length data)%nat ->
  Forall (fun row => length row = cols) (reshape_C data rows cols).
Proof.
  revert data. induction rows as [|rows IH]; intros data H; simpl; constructor.
  - rewrite length_take. lia.
  - apply IH. rewrite length_drop. lia.
Qed.


Lemma transpose_length (ncols : nat) (m : list (list Z)) :
  Forall (fun row => length row = ncols) m -> length (transpose ncols m) = ncols.
Proof.
  induction 1 as [|row m Hrow _ IH]; simpl.
  - apply length_replicate.
  - rewrite length_zip_with. lia.
Qed.

Lemma transpose_row_length (ncols : nat) (m : list (list Z)) :
  Forall (fun col => length col = length m) (transpose ncols m).
Proof.
  induction m as [|row m IH]; simpl.
  - apply Forall_replicate. reflexivity.
  - revert IH. generalize (transpose ncols m). intros t. revert row.
    induction t as [|col t IHt]; intros [|x row] H; simpl; try constructor.
    + simpl. f_equal. by apply Forall_inv in H.
    + apply IHt. by apply Forall_inv_tail in H.
Qed.

(** Element [[c][r]] of the transpose is element [[r][c]] of the array. *)
Lemma transpose_element (ncols : nat) (m : list (list Z)) (r c : nat) :
  Forall (fun row => length row = ncols) m -> (c < ncols)%nat ->
  element (transpose ncols m) c r = element m r c.
Proof.
  intros Hm Hc. revert r.
  induction Hm as [|row m Hrow Hm IH]; intros r; simpl.
  - unfold element. rewrite lookup_replicate_2 by done. simpl.
    by rewrite !lookup_nil.
  - destruct (lookup_lt_is_Some_2 row c) as [x Hx]; [lia|].
    destruct (lookup_lt_is_Some_2 (transpose ncols m) c) as [col Hcol].
    { rewrite transpose_length by done. lia. }
    unfold element in *. rewrite lookup_zip_with, Hx, Hcol. simpl.
    destruct r as [|r]; simpl; [done|].
    specialize (IH r). rewrite Hcol in IH. exact IH.
Qed.




End UtilsFacts.

Module SerialFacts.
Import Utils Serial.

Lemma drain_keeps (p : port) :
  written (drain p) = written p /\ is_open (drain p) = is_open p.
Proof.
  funelim (drain p).
  - destruct H as [H1 H2]. rewrite H1, H2. unfold sleep, read_all. simpl.
    by destruct (incoming p).
  - done.
Qed.

Lemma calculate_checksum_is_byte (data : list Z) :
  is_byte (calculate_checksum data) = true.
Proof.
  rewrite UtilsFacts.calculate_checksum_sum. unfold is_byte.
  pose proof (Z.mod_pos_bound (additive_sum (drop 2 data)) 256).
  apply andb_true_iff. split; [apply Z.leb_le|apply Z.ltb_lt]; lia.
Qed.

Lemma to_bytes_ok (frame : list Z) :
  forallb is_byte frame = true -> to_bytes frame = Ok frame.
Proof. intros H. unfold to_bytes. by rewrite H. Qed.

Lemma to_bytes_with_checksum (frame : list Z) :
  forallb is_byte frame = true ->
  to_bytes (frame ++ [calculate_checksum frame]) = Ok (frame ++ [calculate_checksum frame]).
Proof.
  intros H. apply to_bytes_ok. rewrite forallb_app, H. simpl.
  by rewrite calculate_checksum_is_byte.
Qed.

(** The write frame: start bytes, hand id, length, command, address low and
    high, payload, checksum; it is handed to the port once. *)
Lemma write_register_frame (h : hand) (p : port) (hand_id a num : Z) (val : list Z) :
  ser h = Some p -> is_connected h = true ->
  addr_in (Plain a) (valid_addrs (_regdict h)) = true ->
  forallb is_byte
    ([SERIAL_START_BYTE_1; SERIAL_START_BYTE_2; hand_id; num + 3; SERIAL_CMD_WRITE;
      Z.land a 0xFF; Z.land (Z.shiftr a 8) 0xFF] ++ val) = true ->
  exists p',
    _write_register h hand_id (Plain a) num val = (set_ser h p', Ok true) /\
    written p' = written p ++
      [([SERIAL_START_BYTE_1; SERIAL_START_BYTE_2; hand_id; num + 3; SERIAL_CMD_WRITE;
         Z.land a 0xFF; Z.land (Z.shiftr a 8) 0xFF] ++ val)
       ++ [calculate_checksum
             ([SERIAL_START_BYTE_1; SERIAL_START_BYTE_2; hand_id; num + 3;
               SERIAL_CMD_WRITE; Z.land a 0xFF; Z.land (Z.shiftr a 8) 0xFF] ++ val)]].
Proof.
  intros Hser Hconn Haddr Hbytes.
  unfold _write_register. rewrite Hser, Hconn, Haddr. cbn [negb].
  match goal with |- context [to_bytes ?f] => set (frame := f) end.
  assert (Hb : forallb is_byte frame = true) by exact Hbytes.
  rewrite (to_bytes_ok _ Hb). cbv beta iota zeta.
  rewrite (to_bytes_with_checksum _ Hb).
  eexists. split; [reflexivity|].
  rewrite (proj1 (drain_keeps _)). unfold sleep, write. simpl.
  by destruct (incoming p).
Qed.

(** C1, as the code has it: writing the angles [500,500,500,500,500,0] to
    hand 1 on a connected Gen3 hand resolves [ANGLE_SET] to address 1486 and
    hands the port exactly one frame, [EB 90 01 0F 12 CE 05 F4 01 F4 01 F4
    01 F4 01 F4 01 00 00] followed by the checksum byte, which is the sum
    modulo 256 of the bytes from index 2 onward ([BE]): 1486 is [0x05CE], so
    the address bytes are [CE 05]. *)
Theorem C1_angle_frame (p : port) :
  is_open p = true ->
  let h := mk_hand GEN3 true (Some p) in
  _regdict h !! "ANGLE_SET"%string = Some (Plain 1486) /\
  exists p',
    set_angle h (Ndarray [500; 500; 500; 500; 500; 0]) 1 = (set_ser h p', Ok true) /\
    _write_register h 1 (Plain 1486) 12
      (convert_to_serial_bytes [500; 500; 500; 500; 500; 0]) = (set_ser h p', Ok true) /\
    written p' = written p ++ [angle_frame ++ [calculate_checksum angle_frame]] /\
    calculate_checksum angle_frame = additive_sum (drop 2 angle_frame) mod 256 /\
    calculate_checksum angle_frame = 0xBE.
Proof.
  intros Hopen h.
  assert (Hreg : _regdict h !! "ANGLE_SET"%string = Some (Plain 1486)) by reflexivity.
  split; [exact Hreg|].
  destruct (write_register_frame h p 1 1486 12
              (convert_to_serial_bytes [500; 500; 500; 500; 500; 0]))
    as (p' & Hw & Hp'); try reflexivity.
  { unfold is_connected. simpl. by rewrite Hopen. }
  exists p'. split; [|split; [exact Hw|split; [exact Hp'|split; reflexivity]]].
  unfold set_angle.
  replace (validate_angles (Ndarray [500; 500; 500; 500; 500; 0]))
    with (Ok [500; 500; 500; 500; 500; 0]) by reflexivity.
  cbv beta iota. rewrite Hreg. exact Hw.
Qed.

Lemma C1_angle_frame_witness :
  is_open (mk_port true [] [] []) = true /\
  _regdict (mk_hand GEN3 true (Some (mk_port true [] [] []))) !! "ANGLE_SET"%string
  = Some (Plain 1486).
Proof.
  split; [reflexivity|].
  exact (proj1 (C1_angle_frame (mk_port true [] [] []) eq_refl)).
Defined.

(** The frame of the claim, with address bytes [AE 05], is not the frame
    the code sends: the low byte of 1486 is [CE]. *)
Lemma C1_claimed_frame_not_sent :
  Z.land 1486 0xFF = 0xCE /\
  set_angle (mk_hand GEN3 true (Some (mk_port true [] [] [])))
            (Ndarray [500; 500; 500; 500; 500; 0]) 1
  = (mk_hand GEN3 true (Some (mk_port true [angle_frame ++ [0xBE]] [] [])), Ok true) /\
  angle_frame ++ [0xBE] <> claimed_angle_frame ++ [calculate_checksum claimed_angle_frame].
Proof. split; [reflexivity|]. split; [vm_compute; reflexivity|discriminate]. Qed.

(** *** Reading *)

Lemma length_py_range (n : Z) : len (py_range n) = Z.max 0 n.
Proof. unfold len, py_range. rewrite length_map, length_seq. lia. Qed.

Lemma lookup_py_range (n : Z) (i : nat) :
  (Z.of_nat i < n) -> py_range n !! i = Some (Z.of_nat i).
Proof.
  intros H. unfold py_range. rewrite list_lookup_fmap.
  rewrite lookup_seq_lt by lia. reflexivity.
Qed.

(** The extraction loop [for i in range(n): val.append(recv[7 + i])] stays
    inside [recv] when [n] is at most [len(recv) - 7]. *)
Lemma extract_in_bounds (recv : list Z) (n : Z) :
  n <= len recv - 7 ->
  exists val,
    collect (fun i => getitem recv (7 + i)) (py_range n) = Ok val /\
    len val = Z.max 0 n /\
    forall i : nat, (i < length val)%nat ->
      (7 + i < length recv)%nat /\ val !! i = recv !! (7 + i)%nat.
Proof.
  intros Hn. unfold len in *.
  exists (map (fun i => default 0 (recv !! Z.to_nat (7 + i))) (py_range n)).
  split; [|split].
  - apply collect_ok. apply Forall_forall. intros i Hi.
    apply list_elem_of_fmap in Hi as (k & -> & Hk).
    apply elem_of_seq in Hk.
    destruct (lookup_lt_is_Some_2 recv (7 + k)) as [x Hx]; [lia|].
    replace (7 + Z.of_nat k) with (Z.of_nat (7 + k)) by lia.
    rewrite Nat2Z.id, Hx. simpl. by apply getitem_lookup.
  - rewrite length_map. apply length_py_range.
  - intros i Hi. rewrite length_map in Hi.
    pose proof (length_py_range n) as Hl. unfold len in Hl.
    split; [lia|].
    rewrite list_lookup_fmap, lookup_py_range by lia. simpl.
    replace (7 + Z.of_nat i) with (Z.of_nat (7 + i)) by lia.
    rewrite Nat2Z.id.
    destruct (lookup_lt_is_Some_2 recv (7 + i)) as [x Hx]; [lia|].
    by rewrite Hx.
Qed.

(** C10: on a received buffer [recv] of at least seven bytes, the serial
    [_read_register] returns a list and raises nothing; the list has length
    [max(0, min((recv[3] & 0xFF) - 3, len(recv) - 7))]; its element [i] is
    [recv[7 + i]] with [7 + i] below [len(recv)]; and it is empty when the
    length field [recv[3]] is below 3. *)
Theorem C10_extraction_in_bounds (h : hand) (p : port) (hand_id a num : Z) :
  ser h = Some p -> is_connected h = true ->
  is_byte hand_id = true -> is_byte num = true ->
  7 <= len (received p) ->
  exists h' val b3,
    received p !! 3%nat = Some b3 /\
    _read_register h hand_id (Plain a) num = (h', Ok val) /\
    len val = Z.max 0 (Z.min (Z.land b3 0xFF - 3) (len (received p) - 7)) /\
    (forall i : nat, (i < length val)%nat ->
       (7 + i < length (received p))%nat /\ val !! i = received p !! (7 + i)%nat) /\
    (Z.land b3 0xFF < 3 -> val = []).
Proof.
  intros Hser Hconn Hid Hnum Hlen.
  destruct (lookup_lt_is_Some_2 (received p) 3) as [b3 Hb3].
  { unfold len in Hlen. lia. }
  destruct (extract_in_bounds (received p)
              (Z.min (Z.land b3 0xFF - 3) (len (received p) - 7)))
    as (val & Hval & Hvlen & Hvel); [lia|].
  unfold _read_register. rewrite Hser, Hconn. cbn [negb].
  match goal with |- context [to_bytes ?f] => set (frame := f) end.
  assert (Hb : forallb is_byte frame = true).
  { subst frame. simpl. rewrite Hid, Hnum. simpl.
    change 255 with (Z.ones 8). rewrite !Z.land_ones by lia.
    unfold is_byte.
    pose proof (Z.mod_pos_bound a (2 ^ 8)).
    pose proof (Z.mod_pos_bound (Z.shiftr a 8) (2 ^ 8)).
    repeat (apply andb_true_iff; split); try apply Z.leb_le; try apply Z.ltb_lt; lia. }
  rewrite (to_bytes_ok _ Hb). cbv beta iota zeta.
  rewrite (to_bytes_with_checksum _ Hb).
  assert (Hrecv : in_buffer (sleep (write p (frame ++ [calculate_checksum frame])))
                  = received p).
  { unfold received, sleep, write. simpl. by destruct (incoming p). }
  unfold read_all. rewrite Hrecv.
  unfold SERIAL_MIN_FRAME_SIZE.
  destruct (Z.eqb_spec (len (received p)) 0); [lia|].
  destruct (Z.ltb_spec (len (received p)) 7); [lia|].
  assert (Hg : getitem (received p) 3 = Ok b3) by exact (getitem_lookup _ 3 b3 Hb3).
  rewrite Hg. simpl mbind.
  eexists _, val, b3. split; [done|]. split; [by rewrite <- Hval|].
  split; [exact Hvlen|]. split; [exact Hvel|].
  intros Hlow. apply length_zero_iff_nil. unfold len in Hvlen. lia.
Qed.

Lemma C10_extraction_in_bounds_witness :
  ser short_reply_hand = Some short_reply_port /\
  is_connected short_reply_hand = true /\
  is_byte 1 = true /\ is_byte 6 = true /\
  7 <= len (received short_reply_port) /\
  exists h' val b3,
    received short_reply_port !! 3%nat = Some b3 /\
    _read_register short_reply_hand 1 (Plain 1546) 6 = (h', Ok val).
Proof.
  assert (H7 : 7 <= len (received short_reply_port)) by (vm_compute; discriminate).
  repeat (split; [first [reflexivity | exact H7]|]).
  destruct (C10_extraction_in_bounds short_reply_hand short_reply_port 1 1546 6
              eq_refl eq_refl eq_refl eq_refl H7) as (h' & val & b3 & H1 & H2 & _).
  exists h', val, b3. split; [exact H1|exact H2].
Defined.

(** The serial helpers give back an empty list on a short read. *)
Lemma read6_short_or_full (h h' : hand) (hand_id : Z) (reg_name : string)
    (entry : reg_entry) (val : list Z) :
  _regdict h !! reg_name = Some entry ->
  _read_register h hand_id entry 6 = (h', Ok val) ->
  _read6 h hand_id reg_name = (h', Ok (if len val <? 6 then [] else val)).
Proof.
  intros Hreg Hread. unfold _read6. rewrite Hreg, Hread.
  by destruct (len val <? 6).
Qed.

Lemma convert_12bytes_total (val : list Z) :
  12 <= len val ->
  exists vals, convert_12bytes_to_6values val = Ok vals /\ length vals = 6%nat /\
    forall i lo hi, (i < 6)%nat -> val !! (2 * i)%nat = Some lo ->
      val !! (2 * i + 1)%nat = Some hi -> vals !! i = Some (bytes_to_int16 lo hi).
Proof.
  intros H. unfold len in H.
  destruct val as [|b0 [|b1 [|b2 [|b3 [|b4 [|b5 [|b6 [|b7 [|b8 [|b9 [|b10 [|b11 val]]]]]]]]]]]];
    simpl in H; try lia.
  unfold convert_12bytes_to_6values.
  match goal with |- context [len ?l <? 12] => destruct (Z.ltb_spec (len l) 12) as [Hl|_] end.
  { unfold len in Hl. simpl in Hl. lia. }
  eexists. split; [reflexivity|]. split; [reflexivity|].
  intros i lo hi Hi Hlo Hhi.
  do 6 (destruct i as [|i]; [cbn in Hlo, Hhi; cbn [lookup list_lookup]; congruence|]). lia.
Qed.

Lemma read12_short_or_full (h h' : hand) (hand_id : Z) (reg_name : string)
    (entry : reg_entry) (val : list Z) :
  _regdict h !! reg_name = Some entry ->
  _read_register h hand_id entry 12 = (h', Ok val) ->
  (len val < 12 -> _read12 h hand_id reg_name = (h', Ok [])) /\
  (12 <= len val ->
   exists vals, convert_12bytes_to_6values val = Ok vals /\ length vals = 6%nat /\
     _read12 h hand_id reg_name = (h', Ok vals) /\
     forall i lo hi, (i < 6)%nat -> val !! (2 * i)%nat = Some lo ->
       val !! (2 * i + 1)%nat = Some hi ->
       vals !! i = Some (Z.land lo 0xFF + Z.shiftl (Z.land hi 0xFF) 8)).
Proof.
  intros Hreg Hread. unfold _read12. rewrite Hreg, Hread. split; intros H.
  - destruct (Z.ltb_spec (len val) 12); [done|lia].
  - destruct (Z.ltb_spec (len val) 12); [lia|].
    destruct (convert_12bytes_total val H) as (vals & Hv & Hl & Hc).
    exists vals. rewrite Hv. split; [done|]. split; [done|]. split; [done|].
    intros i lo hi Hi Hlo Hhi. exact (Hc i lo hi Hi Hlo Hhi).
Qed.

End SerialFacts.

Module ModbusFacts.
Import Utils Modbus.

(** *** The segments of a long read *)

Lemma py_range_succ (n : Z) :
  0 <= n -> py_range (n + 1) = 0 :: map Z.succ (py_range n).
Proof.
  intros H. unfold py_range.
  replace (Z.to_nat (n + 1)) with (S (Z.to_nat n)) by lia.
  simpl. f_equal. rewrite <- fmap_S_seq.
  rewrite map_map. rewrite <- list_fmap_compose. apply map_ext.
  intros k. simpl. lia.
Qed.

Lemma py_range_nonpos (n : Z) : n <= 0 -> py_range n = [].
Proof. intros H. unfold py_range. by replace (Z.to_nat n) with 0%nat by lia. Qed.

Lemma segments_nonpos (address count : Z) :
  count <= 0 -> segments address count = [].
Proof.
  intros H. unfold segments. rewrite py_range_nonpos; [done|].
  apply Z.lt_succ_r. apply Z.div_lt_upper_bound; lia.
Qed.

(** The first segment, then the segments of what remains. *)
Lemma segments_unfold (address count : Z) :
  0 < count ->
  segments address count
  = (address, Z.min count 125)
      :: segments (address + Z.min count 125) (count - Z.min count 125).
Proof.
  intros H. destruct (Z.le_gt_cases count 125) as [Hle|Hgt].
  - rewrite (segments_nonpos _ (count - Z.min count 125)) by lia.
    unfold segments.
    replace ((count + 124) / 125) with 1.
    + simpl. do 2 f_equal; lia.
    + apply Z.div_unique with (r := count - 1); lia.
  - rewrite (Z.min_r count 125) by lia. unfold segments.
    replace ((count + 124) / 125) with ((count - 125 + 124) / 125 + 1).
    + rewrite py_range_succ by (apply Z.div_pos; lia).
      simpl. f_equal; [f_equal; lia|].
      rewrite map_map. apply map_ext. intros k. f_equal; lia.
    + rewrite <- Z.div_add by lia. f_equal. lia.
Qed.

Lemma segments_lookup (address count : Z) (i : nat) (a n : Z) :
  segments address count !! i = Some (a, n) ->
  a = address + 125 * Z.of_nat i /\ n = Z.min 125 (count - 125 * Z.of_nat i) /\
  1 <= n <= 125.
Proof.
  unfold segments. rewrite list_lookup_fmap. intros H.
  destruct (py_range ((count + 124) / 125) !! i) as [k|] eqn:Hk; [|done].
  simpl in H. unfold py_range in Hk. rewrite list_lookup_fmap in Hk.
  destruct (seq 0 (Z.to_nat ((count + 124) / 125)) !! i) as [j|] eqn:Hj; [|done].
  apply lookup_seq in Hj as [-> Hi]. simpl in Hk.
  injection Hk as <-. injection H as <- <-.
  split; [lia|]. split; [lia|].
  assert (Z.of_nat i < (count + 124) / 125) by lia.
  pose proof (Z.mul_div_le (count + 124) 125). lia.
Qed.

(** Each segment starts where the one before it ends. *)
Lemma segments_consecutive (address count : Z) (i : nat) (a n a' n' : Z) :
  segments address count !! i = Some (a, n) ->
  segments address count !! S i = Some (a', n') ->
  a' = a + n.
Proof.
  intros H H'.
  apply segments_lookup in H as (-> & -> & _).
  apply segments_lookup in H' as (-> & -> & ?). lia.
Qed.

Lemma segments_total (address count : Z) :
  0 <= count -> foldr Z.add 0 (map snd (segments address count)) = count.
Proof.
  intros H.
  assert (Hn : forall (k : nat) a c, 0 <= c -> (Z.to_nat c <= k)%nat ->
            foldr Z.add 0 (map snd (segments a c)) = c).
  { induction k as [|k IH]; intros a c Hc Hk.
    - rewrite segments_nonpos by lia. simpl. lia.
    - destruct (Z.eq_dec c 0) as [->|Hc0]; [by rewrite segments_nonpos|].
      rewrite segments_unfold by lia. simpl. rewrite IH by lia. lia. }
  by apply (Hn (Z.to_nat count)).
Qed.

Section Engine.

Context {Dev : Type}.
Variable rd : Dev -> Z -> Z -> Dev * reply.

(** The loop of the segmented read issues the segments one after the
    other. *)
Lemma read_segments_run (c : client Dev) (acc : list Z) (remaining cur : Z) :
  read_segments rd c acc remaining cur
  = run_requests rd c acc (segments cur remaining).
Proof.
  assert (Hn : forall (k : nat) c acc remaining cur, (Z.to_nat remaining <= k)%nat ->
            read_segments rd c acc remaining cur
            = run_requests rd c acc (segments cur remaining)).
  { clear. induction k as [|k IH]; intros c acc remaining cur Hk.
    - simp read_segments. destruct (Z_gt_dec remaining 0); [lia|].
      simpl. by rewrite segments_nonpos by lia.
    - simp read_segments. destruct (Z_gt_dec remaining 0) as [Hpos|Hnpos]; simpl.
      + rewrite segments_unfold by lia. simpl.
        unfold MODBUS_MAX_REGISTERS_PER_READ.
        destruct (call_read rd c cur (remaining `min` 125)) as [c' [regs| |]]; try done.
        apply IH. lia.
      + by rewrite segments_nonpos by lia. }
  by apply (Hn (Z.to_nat remaining)).
Qed.

Lemma run_requests_ok (c : client Dev) (acc : list Z) (reqs : list (Z * Z)) :
  Forall is_registers (serve rd (device c) reqs) ->
  requests (fst (run_requests rd c acc reqs)) = requests c ++ reqs /\
  snd (run_requests rd c acc reqs)
  = Ok (acc ++ concat (map registers_of (serve rd (device c) reqs))).
Proof.
  revert c acc. induction reqs as [|[a n] reqs IH]; intros c acc H; simpl in *.
  - by rewrite !app_nil_r.
  - unfold call_read. destruct (rd (device c) a n) as [d' r].
    apply Forall_cons in H as [Hr H]. destruct r; try done. simpl in *.
    destruct (IH (mk_client d' (requests c ++ [(a, n)])) (acc ++ registers) H)
      as [IH1 IH2].
    rewrite IH1, IH2. simpl. by rewrite <- !app_assoc.
Qed.

Lemma run_requests_fail (c : client Dev) (acc : list Z) (reqs : list (Z * Z)) :
  Exists is_failure (serve rd (device c) reqs) ->
  snd (run_requests rd c acc reqs) = Raise CommunicationError /\
  exists k, (1 <= k <= length reqs)%nat /\
    requests (fst (run_requests rd c acc reqs)) = requests c ++ take k reqs.
Proof.
  revert c acc. induction reqs as [|[a n] reqs IH]; intros c acc H; simpl in *.
  - by apply Exists_nil in H.
  - unfold call_read. destruct (rd (device c) a n) as [d' r].
    apply Exists_cons in H. destruct r as [regs| |].
    + destruct H as [H|H]; [by destruct H|].
      destruct (IH (mk_client d' (requests c ++ [(a, n)])) (acc ++ regs) H)
        as (IH1 & k & Hk & IH2). simpl in IH2.
      split; [exact IH1|]. exists (S k). split; [lia|].
      rewrite IH2. simpl. by rewrite <- app_assoc.
    + split; [done|]. exists 1%nat. split; [lia|]. simpl. by rewrite take_0.
    + split; [done|]. exists 1%nat. split; [lia|]. simpl. by rewrite take_0.
Qed.

(** Both branches of [_read_register] issue their plan. *)
Lemma read_register_run (h : hand Dev) (c : client Dev) (address count : Z) :
  connected h = true -> _client h = Some c ->
  _read_register rd h (Plain address) count
  = (set_client h (fst (run_requests rd c [] (read_plan address count))),
     snd (run_requests rd c [] (read_plan address count))).
Proof.
  intros Hconn Hc. unfold _read_register, is_connected, read_plan.
  rewrite Hconn, Hc. simpl. unfold MODBUS_MAX_REGISTERS_PER_READ.
  destruct (count <=? 125).
  - simpl. by destruct (call_read rd c address count) as [c' [regs| |]].
  - rewrite read_segments_run.
    by destruct (run_requests rd c [] (segments address count)).
Qed.

(** C3: a connected read of [count] holding registers at [address] issues
    one request when [count <= 125]; when [count > 125] it issues consecutive
    segments of between 1 and 125 registers, the first at [address], each
    starting where the previous one ends, [count] registers in all (200
    registers at 1000: 125 at 1000, then 75 at 1125). When every reply
    carries registers the result is their concatenation in the order of the
    requests, and exactly the planned requests are issued; when a reply is an
    error response or the transport raises, the read raises
    [CommunicationError], after the requests up to the failing one. *)
Theorem C3_segmented_read (h : hand Dev) (c : client Dev) (address count : Z) :
  connected h = true -> _client h = Some c ->
  (count <= 125 -> read_plan address count = [(address, count)]) /\
  (125 < count ->
   read_plan address count = segments address count /\
   (exists n, segments address count !! 0%nat = Some (address, n)) /\
   (forall i a n, segments address count !! i = Some (a, n) -> 1 <= n <= 125) /\
   (forall i a n a' n', segments address count !! i = Some (a, n) ->
      segments address count !! S i = Some (a', n') -> a' = a + n) /\
   foldr Z.add 0 (map snd (segments address count)) = count) /\
  segments 1000 200 = [(1000, 125); (1125, 75)] /\
  exists c',
    fst (_read_register rd h (Plain address) count) = set_client h c' /\
    (count <= 125 -> requests c' = requests c ++ [(address, count)]) /\
    (Forall is_registers (serve rd (device c) (read_plan address count)) ->
     requests c' = requests c ++ read_plan address count /\
     snd (_read_register rd h (Plain address) count)
     = Ok (concat (map registers_of (serve rd (device c) (read_plan address count))))) /\
    (Exists is_failure (serve rd (device c) (read_plan address count)) ->
     snd (_read_register rd h (Plain address) count) = Raise CommunicationError /\
     exists k, (1 <= k <= length (read_plan address count))%nat /\
       requests c' = requests c ++ take k (read_plan address count)).
Proof.
  intros Hconn Hc.
  assert (Hsmall : count <= 125 -> read_plan address count = [(address, count)]).
  { intros H. unfold read_plan. by destruct (Z.leb_spec count 125); [|lia]. }
  split; [exact Hsmall|]. split; [|split; [reflexivity|]].
  - intros Hbig. split; [|split; [|split; [|split]]].
    + unfold read_plan. by destruct (Z.leb_spec count 125); [lia|].
    + rewrite segments_unfold by lia. eexists. reflexivity.
    + intros i a n H. by apply segments_lookup in H as (_ & _ & ?).
    + apply segments_consecutive.
    + apply segments_total. lia.
  - rewrite (read_register_run h c address count Hconn Hc). simpl.
    eexists. split; [reflexivity|]. split; [|split].
    + intros H. rewrite (Hsmall H). simpl. unfold call_read.
      by destruct (rd (device c) address count) as [d' [regs| |]].
    + intros H. by apply (run_requests_ok c []) in H as [-> ->].
    + intros H. by apply (run_requests_fail c []) in H.
Qed.

End Engine.

Lemma C3_segmented_read_witness :
  connected (mk_hand GEN4 true (Some (mk_client 0%nat []))) = true /\
  _client (mk_hand GEN4 true (Some (mk_client 0%nat []))) = Some (mk_client 0%nat []) /\
  segments 1000 200 = [(1000, 125); (1125, 75)].
Proof.
  split; [reflexivity|]. split; [reflexivity|].
  exact (proj1 (proj2 (proj2
    (C3_segmented_read echo_device (mk_hand GEN4 true (Some (mk_client 0%nat [])))
       (mk_client 0%nat []) 1000 200 eq_refl eq_refl)))).
Defined.

(** The read of 200 registers at 1000, run on two devices: the healthy one
    returns the 200 registers in address order after two requests; when the
    second reply is an error, the read raises and the 125 registers of the
    first segment are not returned. *)
Example read_200_at_1000 :
  _read_register echo_device (mk_hand GEN4 true (Some (mk_client 0%nat []))) (Plain 1000) 200
  = (mk_hand GEN4 true (Some (mk_client 2%nat [(1000, 125); (1125, 75)])),
     Ok (map (fun i => 1000 + i) (py_range 200))) /\
  _read_register flaky_device (mk_hand GEN4 true (Some (mk_client 0%nat []))) (Plain 1000) 200
  = (mk_hand GEN4 true (Some (mk_client 2%nat [(1000, 125); (1125, 75)])),
     Raise CommunicationError).
Proof. split; vm_compute; reflexivity. Qed.

End ModbusFacts.

(** ** The typed read helpers *)

Module HelperFacts.
Import Utils.

Lemma read6_16bit_short_or_full {Dev : Type} (rd : Dev -> Z -> Z -> Dev * Modbus.reply)
    (h h' : Modbus.hand Dev) (reg_name : string) (entry : reg_entry) (val : list Z) :
  Modbus._regdict h !! reg_name = Some entry ->
  Modbus._read_register rd h entry 6 = (h', Ok val) ->
  Modbus._read6_16bit rd h reg_name = (h', Ok (if len val <? 6 then [] else val)).
Proof.
  intros Hreg Hread. unfold Modbus._read6_16bit. rewrite Hreg, Hread.
  by destruct (len val <? 6).
Qed.

Lemma read6_8bit_short_or_full {Dev : Type} (rd : Dev -> Z -> Z -> Dev * Modbus.reply)
    (h h' : Modbus.hand Dev) (reg_name : string) (entry : reg_entry) (val_act : list Z) :
  Modbus._regdict h !! reg_name = Some entry ->
  Modbus._read_register rd h entry 3 = (h', Ok val_act) ->
  Modbus._read6_8bit rd h reg_name
  = (h', Ok (if len val_act <? 3 then []
             else val_act ≫= (fun val => [Z.land val 0xFF; Z.land (Z.shiftr val 8) 0xFF]))).
Proof.
  intros Hreg Hread. unfold Modbus._read6_8bit. rewrite Hreg, Hread.
  destruct (len val_act <? 3); [done|].
  rewrite fold_left_append
    with (g := fun val => [Z.land val 0xFF; Z.land (Z.shiftr val 8) 0xFF]).
  - reflexivity.
  - intros acc x. by rewrite <- app_assoc.
Qed.

(** C9: when the underlying register read succeeds, each typed helper
    returns the empty list, and raises nothing, if the read yielded fewer
    values than the helper needs (6 or 12 bytes over serial, 6 or 3 words
    over Modbus), and the whole converted sequence otherwise: the bytes as
    read for [_read6]; for [_read12] the six 16-bit values, value [i] being
    [(val[2i] & 0xFF) + ((val[2i+1] & 0xFF) << 8)]; the words as read for
    [_read6_16bit]; the low and high byte of every word for [_read6_8bit]. *)
Theorem C9_typed_helpers_short_read {Dev : Type}
    (rd : Dev -> Z -> Z -> Dev * Modbus.reply) :
  (forall (h h' : Serial.hand) hand_id reg_name entry val,
     Serial._regdict h !! reg_name = Some entry ->
     Serial._read_register h hand_id entry 6 = (h', Ok val) ->
     Serial._read6 h hand_id reg_name = (h', Ok (if len val <? 6 then [] else val))) /\
  (forall (h h' : Serial.hand) hand_id reg_name entry val,
     Serial._regdict h !! reg_name = Some entry ->
     Serial._read_register h hand_id entry 12 = (h', Ok val) ->
     (len val < 12 -> Serial._read12 h hand_id reg_name = (h', Ok [])) /\
     (12 <= len val ->
      exists vals, convert_12bytes_to_6values val = Ok vals /\ length vals = 6%nat /\
        Serial._read12 h hand_id reg_name = (h', Ok vals) /\
        forall i lo hi, (i < 6)%nat -> val !! (2 * i)%nat = Some lo ->
          val !! (2 * i + 1)%nat = Some hi ->
          vals !! i = Some (Z.land lo 0xFF + Z.shiftl (Z.land hi 0xFF) 8))) /\
  (forall (h h' : Modbus.hand Dev) reg_name entry val,
     Modbus._regdict h !! reg_name = Some entry ->
     Modbus._read_register rd h entry 6 = (h', Ok val) ->
     Modbus._read6_16bit rd h reg_name = (h', Ok (if len val <? 6 then [] else val))) /\
  (forall (h h' : Modbus.hand Dev) reg_name entry val_act,
     Modbus._regdict h !! reg_name = Some entry ->
     Modbus._read_register rd h entry 3 = (h', Ok val_act) ->
     Modbus._read6_8bit rd h reg_name
     = (h', Ok (if len val_act <? 3 then []
                else val_act ≫= (fun val => [Z.land val 0xFF; Z.land (Z.shiftr val 8) 0xFF])))).
Proof.
  split; [|split; [|split]].
  - intros. by eapply SerialFacts.read6_short_or_full.
  - intros. by eapply SerialFacts.read12_short_or_full.
  - intros. by eapply read6_16bit_short_or_full.
  - intros. by eapply read6_8bit_short_or_full.
Qed.

(** On the hand whose device sends four data bytes for six, [_read6]
    returns the empty list; on the hand whose device sends the twelve bytes
    [F4 01 FF FF 00 00 E8 03 07 00 08 00], [_read12] returns the six values
    [500, 65535, 0, 1000, 7, 8]. *)
Lemma C9_typed_helpers_short_read_witness :
  Serial._regdict short_reply_hand !! "ANGLE_ACT"%string = Some (Plain 1546) /\
  Serial._read_register short_reply_hand 1 (Plain 1546) 6
  = (short_reply_hand_after, Ok [1; 2; 3; 4]) /\
  Serial._read6 short_reply_hand 1 "ANGLE_ACT" = (short_reply_hand_after, Ok []) /\
  Serial._read_register echo_reply_hand 1 (Plain 1546) 12
  = (echo_reply_hand_after, Ok [0xF4; 0x01; 0xFF; 0xFF; 0; 0; 0xE8; 0x03; 7; 0; 8; 0]) /\
  12 <= len [0xF4; 0x01; 0xFF; 0xFF; 0; 0; 0xE8; 0x03; 7; 0; 8; 0] /\
  Serial._read12 echo_reply_hand 1 "ANGLE_ACT"
  = (echo_reply_hand_after, Ok [500; 65535; 0; 1000; 7; 8]).
Proof.
  assert (H1 : Serial._regdict short_reply_hand !! "ANGLE_ACT"%string = Some (Plain 1546))
    by reflexivity.
  assert (H2 : Serial._read_register short_reply_hand 1 (Plain 1546) 6
               = (short_reply_hand_after, Ok [1; 2; 3; 4])) by reflexivity.
  assert (H3 : Serial._regdict echo_reply_hand !! "ANGLE_ACT"%string = Some (Plain 1546))
    by reflexivity.
  assert (H4 : Serial._read_register echo_reply_hand 1 (Plain 1546) 12
               = (echo_reply_hand_after,
                  Ok [0xF4; 0x01; 0xFF; 0xFF; 0; 0; 0xE8; 0x03; 7; 0; 8; 0]))
    by reflexivity.
  assert (H5 : 12 <= len [0xF4; 0x01; 0xFF; 0xFF; 0; 0; 0xE8; 0x03; 7; 0; 8; 0])
    by (vm_compute; discriminate).
  split; [exact H1|]. split; [exact H2|]. split.
  { exact (proj1 (C9_typed_helpers_short_read echo_device)
             short_reply_hand short_reply_hand_after 1 "ANGLE_ACT"%string (Plain 1546)
             [1; 2; 3; 4] H1 H2). }
  split; [exact H4|]. split; [exact H5|].
  destruct (proj2 (proj1 (proj2 (C9_typed_helpers_short_read echo_device))
                     echo_reply_hand echo_reply_hand_after 1 "ANGLE_ACT"%string
                     (Plain 1546) _ H3 H4) H5) as (vals & _ & Hlen & Hread & Hc).
  rewrite Hread. do 2 f_equal.
  do 7 (destruct vals as [|? vals]; try discriminate Hlen).
  pose proof (Hc 0%nat _ _ ltac:(lia) eq_refl eq_refl) as E0.
  pose proof (Hc 1%nat _ _ ltac:(lia) eq_refl eq_refl) as E1.
  pose proof (Hc 2%nat _ _ ltac:(lia) eq_refl eq_refl) as E2.
  pose proof (Hc 3%nat _ _ ltac:(lia) eq_refl eq_refl) as E3.
  pose proof (Hc 4%nat _ _ ltac:(lia) eq_refl eq_refl) as E4.
  pose proof (Hc 5%nat _ _ ltac:(lia) eq_refl eq_refl) as E5.
  cbn in E0, E1, E2, E3, E4, E5.
  injection E0 as ->. injection E1 as ->. injection E2 as ->.
  injection E3 as ->. injection E4 as ->. injection E5 as ->. reflexivity.
Defined.

End HelperFacts.

(** ** The tactile snapshot *)

Module TactileFacts.
Import Utils Modbus.

Lemma is_word_int32 (w : Z) : is_word w -> is_int32 w = true.
Proof.
  unfold is_word, is_int32. intros H.
  apply andb_true_iff. split; [apply Z.leb_le|apply Z.ltb_lt]; lia.
Qed.

Lemma reshape_words_ok (regs : list Z) (rows cols : nat) (is_palm : bool) :
  length regs = (rows * cols)%nat -> Forall is_word regs ->
  exists m, reshape_tactile_data regs rows cols is_palm = Ok (Array2 m).
Proof.
  intros Hlen Hw. unfold reshape_tactile_data.
  rewrite Hlen, Nat.eqb_refl. simpl.
  rewrite UtilsFacts.np_array_int32_ok.
  - destruct is_palm; eexists; reflexivity.
  - eapply Forall_impl; [exact Hw|]. apply is_word_int32.
Qed.

Lemma tactile_shapes_eq :
  tactile_shapes
  = [ ("pinky", Some "top", 3000, 3%nat, 3%nat); ("pinky", Some "tip", 3018, 12%nat, 8%nat);
      ("pinky", Some "base", 3210, 10%nat, 8%nat); ("ring", Some "top", 3370, 3%nat, 3%nat);
      ("ring", Some "tip", 3388, 12%nat, 8%nat); ("ring", Some "base", 3580, 10%nat, 8%nat);
      ("middle", Some "top", 3740, 3%nat, 3%nat); ("middle", Some "tip", 3758, 12%nat, 8%nat);
      ("middle", Some "base", 3950, 10%nat, 8%nat); ("index", Some "top", 4110, 3%nat, 3%nat);
      ("index", Some "tip", 4128, 12%nat, 8%nat); ("index", Some "base", 4320, 10%nat, 8%nat);
      ("thumb", Some "top", 4480, 3%nat, 3%nat); ("thumb", Some "tip", 4498, 12%nat, 8%nat);
      ("thumb", Some "mid", 4690, 3%nat, 3%nat); ("thumb", Some "base", 4708, 10%nat, 8%nat);
      ("palm", None, 4900, 8%nat, 14%nat) ]%string.
Proof. vm_compute. reflexivity. Qed.

Lemma tactile_sensors_resolve : Forall2 resolves tactile_sensors tactile_shapes.
Proof.
  rewrite tactile_shapes_eq. unfold tactile_sensors.
  repeat constructor; try reflexivity; simpl; lia.
Qed.

Lemma tactile_keys_nodup : NoDup (map shape_key tactile_shapes).
Proof.
  assert (H : bool_decide (NoDup (map shape_key tactile_shapes)) = true)
    by (vm_compute; reflexivity).
  by apply bool_decide_eq_true in H.
Qed.

(** Reading a slot after one pass of the loop body. *)
Lemma slot_store_frame (sd : gmap string (gmap (option string) ndarray))
    (palm_data : option ndarray) (finger : string) (position : option string)
    (rows cols : nat) (regs : list Z) (key : string * option string) :
  slot (store_frame sd palm_data finger position rows cols regs).1
       (store_frame sd palm_data finger position rows cols regs).2 key
  = match full_frame finger rows cols (Registers regs) with
    | Some m => if decide (slot_key key = slot_key (finger, position)) then Some m
                else slot sd palm_data key
    | None => slot sd palm_data key
    end.
Proof.
  unfold store_frame.
  destruct (full_frame finger rows cols (Registers regs)) as [m|]; [|done].
  destruct key as [f p]. unfold slot, slot_key. simpl.
  destruct (bool_decide_reflect (finger = "palm"%string)) as [->|Hfinger]; simpl.
  - repeat case_decide; simplify_eq/=; done.
  - repeat case_decide; simplify_eq/=; try done.
    + rewrite lookup_insert_eq. simpl. by rewrite lookup_insert_eq.
    + destruct (decide (f = finger)) as [->|Hff].
      * rewrite lookup_insert_eq. simpl.
        rewrite lookup_insert_ne by congruence.
        by destruct (sd !! finger).
      * by rewrite lookup_insert_ne.
Qed.

Lemma get_frame_slot (sd : gmap string (gmap (option string) ndarray))
    (palm_data : option ndarray) (finger position : string) :
  finger <> "palm"%string ->
  get_frame (default ∅ (sd !! finger)) position
  = default empty_frame (slot sd palm_data (finger, Some position)).
Proof.
  intros Hf. unfold get_frame, slot. simpl. rewrite decide_False by done.
  destruct (sd !! finger); [done|]. simpl. by rewrite lookup_empty.
Qed.

Lemma finger_objects_lookup (sd : gmap string (gmap (option string) ndarray))
    (name : string) :
  name ∈ ["pinky"; "ring"; "middle"; "index"]%string ->
  default (mk_finger empty_frame empty_frame empty_frame)
    (fold_left
       (fun (finger_objects : gmap string FingerSensorData) finger_name =>
          match sd !! finger_name with
          | Some d => <[finger_name := finger_object d]> finger_objects
          | None => finger_objects
          end)
       ["pinky"; "ring"; "middle"; "index"]%string ∅ !! name)
  = finger_object (default ∅ (sd !! name)).
Proof.
  intros Hname. cbn [fold_left].
  assert (He : finger_object ∅ = mk_finger empty_frame empty_frame empty_frame)
    by reflexivity.
  destruct (sd !! "pinky"%string) as [d1|] eqn:E1;
    destruct (sd !! "ring"%string) as [d2|] eqn:E2;
    destruct (sd !! "middle"%string) as [d3|] eqn:E3;
    destruct (sd !! "index"%string) as [d4|] eqn:E4;
    repeat (apply elem_of_cons in Hname as [->|Hname]);
    try (by apply elem_of_nil in Hname);
    rewrite ?E1, ?E2, ?E3, ?E4;
    repeat first [ rewrite lookup_insert_eq | rewrite lookup_insert_ne by done
                 | rewrite lookup_empty ];
    reflexivity.
Qed.

Section Engine.

Context {Dev Time : Type}.
Variable rd : Dev -> Z -> Z -> Dev * reply.

Lemma set_client_same (h : hand Dev) (c : client Dev) :
  _client h = Some c -> set_client h c = h.
Proof. destruct h. simpl. by intros ->. Qed.

(** A read that fits one transaction. *)
Lemma read_small (h : hand Dev) (c : client Dev) (a count : Z) (d' : Dev) (r : reply) :
  connected h = true -> _client h = Some c -> count <= 125 ->
  rd (device c) a count = (d', r) ->
  _read_register rd h (Plain a) count
  = (set_client h (mk_client d' (requests c ++ [(a, count)])),
     match r with
     | Registers regs => Ok regs
     | _ => Raise CommunicationError
     end).
Proof.
  intros Hconn Hc Hcount Hrd. unfold _read_register, is_connected.
  rewrite Hconn, Hc. simpl. unfold MODBUS_MAX_REGISTERS_PER_READ.
  destruct (Z.leb_spec count 125); [|lia].
  unfold call_read. rewrite Hrd. by destruct r.
Qed.

Lemma read_sensors_registers (h : hand Dev) (c : client Dev) (reg_name finger : string)
    (position : option string) (a : Z) (rows cols : nat) (d' : Dev) (regs : list Z)
    (rest : list (string * (string * option string)))
    (sd : gmap string (gmap (option string) ndarray)) (palm_data : option ndarray) :
  generation h = GEN4 -> connected h = true -> _client h = Some c ->
  REGISTERS_GEN4 !! reg_name = Some (Tactile a rows cols) ->
  (rows * cols <= 125)%nat ->
  rd (device c) a (Z.of_nat (rows * cols)) = (d', Registers regs) ->
  Forall is_word regs ->
  read_sensors rd ((reg_name, (finger, position)) :: rest) h sd palm_data
  = read_sensors rd rest
      (set_client h (mk_client d' (requests c ++ [(a, Z.of_nat (rows * cols))])))
      (store_frame sd palm_data finger position rows cols regs).1
      (store_frame sd palm_data finger position rows cols regs).2.
Proof.
  intros Hgen Hconn Hc Hreg Hsize Hrd Hw.
  cbn [read_sensors]. unfold _regdict. rewrite Hgen. cbn [get_registers].
  rewrite Hreg. cbv zeta.
  rewrite (read_small h c a (Z.of_nat (rows * cols)) d' _ Hconn Hc ltac:(lia) Hrd).
  unfold store_frame, full_frame.
  destruct (Nat.eqb_spec (length regs) (rows * cols)) as [Hlen|Hlen]; simpl; [|done].
  destruct (reshape_words_ok regs rows cols (bool_decide (finger = "palm"%string)) Hlen Hw)
    as [m Hm].
  rewrite Hm. by destruct (bool_decide (finger = "palm"%string)).
Qed.

Lemma read_sensors_failure (h : hand Dev) (c : client Dev) (reg_name finger : string)
    (position : option string) (a : Z) (rows cols : nat) (d' : Dev) (r : reply)
    (rest : list (string * (string * option string)))
    (sd : gmap string (gmap (option string) ndarray)) (palm_data : option ndarray) :
  generation h = GEN4 -> connected h = true -> _client h = Some c ->
  REGISTERS_GEN4 !! reg_name = Some (Tactile a rows cols) ->
  (rows * cols <= 125)%nat ->
  rd (device c) a (Z.of_nat (rows * cols)) = (d', r) ->
  is_failure r ->
  snd (read_sensors rd ((reg_name, (finger, position)) :: rest) h sd palm_data)
  = Raise CommunicationError.
Proof.
  intros Hgen Hconn Hc Hreg Hsize Hrd Hr.
  cbn [read_sensors]. unfold _regdict. rewrite Hgen. cbn [get_registers].
  rewrite Hreg. cbv zeta.
  rewrite (read_small h c a (Z.of_nat (rows * cols)) d' _ Hconn Hc ltac:(lia) Hrd).
  destruct r; [by destruct Hr|done|done].
Qed.

(** The loop over the sensors when every reply carries registers: every
    request is issued, and each slot holds the frame of its sensor when the
    reply was complete and is untouched otherwise. *)
Lemma read_sensors_ok (sensors : list (string * (string * option string)))
    (shapes : list (string * option string * Z * nat * nat)) :
  Forall2 resolves sensors shapes ->
  forall (h : hand Dev) (c : client Dev)
         (sd : gmap string (gmap (option string) ndarray)) (palm_data : option ndarray),
  generation h = GEN4 -> connected h = true -> _client h = Some c ->
  NoDup (map shape_key shapes) ->
  Forall is_registers (serve rd (device c) (map shape_request shapes)) ->
  Forall (fun r => Forall is_word (registers_of r))
         (serve rd (device c) (map shape_request shapes)) ->
  exists c' sd' palm',
    read_sensors rd sensors h sd palm_data = (set_client h c', Ok (sd', palm')) /\
    requests c' = requests c ++ map shape_request shapes /\
    (forall key, slot_key key ∉ map shape_key shapes ->
       slot sd' palm' key = slot sd palm_data key) /\
    (forall i finger position a rows cols r,
       shapes !! i = Some (finger, position, a, rows, cols) ->
       serve rd (device c) (map shape_request shapes) !! i = Some r ->
       slot sd' palm' (finger, position)
       = match full_frame finger rows cols r with
         | Some m => Some m
         | None => slot sd palm_data (finger, position)
         end).
Proof.
  induction 1 as [|[reg_name [finger position]] [[[[f p] a] rows] cols] sensors shapes
                    Hres _ IH];
    intros h c sd palm_data Hgen Hconn Hc Hnd Hregs Hwords.
  - exists c, sd, palm_data. simpl. rewrite set_client_same by done.
    split; [done|]. split; [by rewrite app_nil_r|]. split; [done|].
    intros i ? ? ? ? ? ? Hi. by rewrite lookup_nil in Hi.
  - destruct Hres as (-> & -> & Hreg & Hsize).
    simpl in Hregs, Hwords, Hnd.
    destruct (rd (device c) a (Z.of_nat (rows * cols))) as [d' r0] eqn:Hrd.
    apply Forall_cons in Hregs as [Hr0 Hregs].
    apply Forall_cons in Hwords as [Hw0 Hwords].
    apply NoDup_cons in Hnd as [Hhead Hnd].
    destruct r0 as [regs| |]; try done. simpl in Hw0.
    rewrite (read_sensors_registers h c reg_name finger position a rows cols d' regs
               sensors sd palm_data Hgen Hconn Hc Hreg Hsize Hrd Hw0).
    cbn [serve map shape_request]. rewrite Hrd.
    set (c1 := mk_client d' (requests c ++ [(a, Z.of_nat (rows * cols))])).
    destruct (IH (set_client h c1) c1
                (store_frame sd palm_data finger position rows cols regs).1
                (store_frame sd palm_data finger position rows cols regs).2)
      as (c' & sd' & palm' & Hrun & Hreq & Hother & Hslots); try done.
    exists c', sd', palm'. split; [exact Hrun|]. split; [|split].
    + rewrite Hreq. subst c1. simpl. by rewrite <- app_assoc.
    + intros key Hkey. apply not_elem_of_cons in Hkey as [Hk1 Hk2].
      rewrite (Hother key Hk2), slot_store_frame.
      destruct (full_frame finger rows cols (Registers regs)); [|done].
      by rewrite decide_False.
    + intros [|i] finger' position' a' rows' cols' r Hi Hr; simpl in Hi, Hr.
      * injection Hi as <- <- <- <- <-. injection Hr as <-.
        rewrite (Hother (finger, position) Hhead), slot_store_frame.
        destruct (full_frame finger rows cols (Registers regs)); [|done].
        by rewrite decide_True.
      * rewrite (Hslots i finger' position' a' rows' cols' r Hi Hr).
        destruct (full_frame finger' rows' cols' r); [done|].
        rewrite slot_store_frame.
        destruct (full_frame finger rows cols (Registers regs)); [|done].
        rewrite decide_False; [done|]. intros Heq. apply Hhead.
        unfold shape_key at 1. rewrite <- Heq.
        apply (list_elem_of_fmap_2' shape_key _ (finger', position', a', rows', cols'));
          [by eapply list_elem_of_lookup_2|done].
Qed.

(** The loop stops with [CommunicationError] at the first read that fails. *)
Lemma read_sensors_fail (sensors : list (string * (string * option string)))
    (shapes : list (string * option string * Z * nat * nat)) :
  Forall2 resolves sensors shapes ->
  forall (h : hand Dev) (c : client Dev)
         (sd : gmap string (gmap (option string) ndarray)) (palm_data : option ndarray),
  generation h = GEN4 -> connected h = true -> _client h = Some c ->
  Exists is_failure (serve rd (device c) (map shape_request shapes)) ->
  Forall (fun r => Forall is_word (registers_of r))
         (serve rd (device c) (map shape_request shapes)) ->
  snd (read_sensors rd sensors h sd palm_data) = Raise CommunicationError.
Proof.
  induction 1 as [|[reg_name [finger position]] [[[[f p] a] rows] cols] sensors shapes
                    Hres _ IH];
    intros h c sd palm_data Hgen Hconn Hc Hfail Hwords.
  - by apply Exists_nil in Hfail.
  - destruct Hres as (-> & -> & Hreg & Hsize).
    simpl in Hfail, Hwords.
    destruct (rd (device c) a (Z.of_nat (rows * cols))) as [d' r0] eqn:Hrd.
    apply Forall_cons in Hwords as [Hw0 Hwords].
    apply Exists_cons in Hfail.
    destruct (decide (is_registers r0)) as [Hr0|Hr0].
    + destruct r0 as [regs| |]; try done. simpl in Hw0.
      destruct Hfail as [Hfail|Hfail]; [by destruct Hfail|].
      rewrite (read_sensors_registers h c reg_name finger position a rows cols d' regs
                 sensors sd palm_data Hgen Hconn Hc Hreg Hsize Hrd Hw0).
      by eapply IH.
    + by eapply read_sensors_failure.
Qed.

(** The snapshot assembled from the loop's variables holds, for every
    sensor, the contents of its slot, or the empty frame. *)
Lemma snapshot_of_slots (now : Time) (h h' : hand Dev)
    (sd : gmap string (gmap (option string) ndarray)) (palm_data : option ndarray) :
  generation h = GEN4 ->
  read_sensors rd tactile_sensors h ∅ None = (h', Ok (sd, palm_data)) ->
  exists snap,
    get_all_tactile_data rd now h = (h', Ok snap) /\
    timestamp snap = now /\
    Forall (fun sh => let '(finger, position, _, _, _) := sh in
                      frame_of snap finger position
                      = default empty_frame (slot sd palm_data (finger, position)))
           tactile_shapes.
Proof.
  intros Hgen Hread.
  exists (mk_tactile now
            (finger_object (default ∅ (sd !! "pinky"%string)))
            (finger_object (default ∅ (sd !! "ring"%string)))
            (finger_object (default ∅ (sd !! "middle"%string)))
            (finger_object (default ∅ (sd !! "index"%string)))
            (mk_thumb (get_frame (default ∅ (sd !! "thumb"%string)) "top")
                      (get_frame (default ∅ (sd !! "thumb"%string)) "tip")
                      (get_frame (default ∅ (sd !! "thumb"%string)) "mid")
                      (get_frame (default ∅ (sd !! "thumb"%string)) "base"))
            (default empty_frame palm_data)).
  split; [|split; [reflexivity|]].
  - unfold get_all_tactile_data. rewrite Hgen, Hread. cbv zeta.
    rewrite !finger_objects_lookup by (repeat constructor). reflexivity.
  - rewrite tactile_shapes_eq.
    repeat (apply Forall_cons; split); [..|apply Forall_nil];
      cbn [frame_of finger_frame thumb_frame String.eqb Ascii.eqb Bool.eqb
           pinky ring middle index thumb palm
           f_top f_tip f_base t_top t_tip t_mid t_base finger_object];
      first [ by apply get_frame_slot | reflexivity ].
Qed.

Lemma slot_empty (key : string * option string) : slot ∅ None key = None.
Proof. unfold slot. destruct (decide (key.1 = "palm"%string)); [done|]. by rewrite lookup_empty. Qed.

(** C8, as the code has it: on a connected Gen4 hand
    [get_all_tactile_data] reads the 17 tactile entries in turn. When every
    read returns registers, it returns a snapshot: a sensor whose read
    returned exactly [rows * cols] words holds the reshaped frame, a sensor
    whose read returned another number of words is left as the empty array,
    and all 17 requests are issued. When a read fails (an error response, or
    an exception of the transport), the exception is not caught: the whole
    operation raises [CommunicationError] and no snapshot is returned. *)
Theorem C8_partial_snapshot (now : Time) (h : hand Dev) (c : client Dev) :
  generation h = GEN4 -> connected h = true -> _client h = Some c ->
  Forall (fun r => Forall is_word (registers_of r))
         (serve rd (device c) (map shape_request tactile_shapes)) ->
  length tactile_shapes = 17%nat /\
  (Forall is_registers (serve rd (device c) (map shape_request tactile_shapes)) ->
   exists c' snap,
     get_all_tactile_data rd now h = (set_client h c', Ok snap) /\
     requests c' = requests c ++ map shape_request tactile_shapes /\
     timestamp snap = now /\
     forall i finger position a rows cols regs,
       tactile_shapes !! i = Some (finger, position, a, rows, cols) ->
       serve rd (device c) (map shape_request tactile_shapes) !! i = Some (Registers regs) ->
       (length regs = (rows * cols)%nat ->
        reshape_tactile_data regs rows cols (bool_decide (finger = "palm"%string))
        = Ok (frame_of snap finger position)) /\
       (length regs <> (rows * cols)%nat ->
        frame_of snap finger position = Array1 [])) /\
  (Exists is_failure (serve rd (device c) (map shape_request tactile_shapes)) ->
   snd (get_all_tactile_data rd now h) = Raise CommunicationError).
Proof.
  intros Hgen Hconn Hc Hwords. split; [by rewrite tactile_shapes_eq|]. split.
  - intros Hregs.
    destruct (read_sensors_ok tactile_sensors tactile_shapes tactile_sensors_resolve
                h c ∅ None Hgen Hconn Hc tactile_keys_nodup Hregs Hwords)
      as (c' & sd & palm_data & Hrun & Hreq & _ & Hslots).
    destruct (snapshot_of_slots now h _ sd palm_data Hgen Hrun)
      as (snap & Hsnap & Htime & Hframes).
    exists c', snap. split; [exact Hsnap|]. split; [exact Hreq|]. split; [exact Htime|].
    intros i finger position a rows cols regs Hi Hr.
    pose proof (Forall_lookup_1 _ _ _ _ Hframes Hi) as Hframe. simpl in Hframe.
    pose proof (Forall_lookup_1 _ _ _ _ Hwords Hr) as Hw. simpl in Hw.
    rewrite (Hslots i finger position a rows cols _ Hi Hr), slot_empty in Hframe.
    unfold full_frame in Hframe. split; intros Hlen.
    + destruct (reshape_words_ok regs rows cols (bool_decide (finger = "palm"%string)) Hlen Hw)
        as [m Hm].
      rewrite Hm in Hframe |- *.
      rewrite (proj2 (Nat.eqb_eq _ _) Hlen) in Hframe. simpl in Hframe. by rewrite Hframe.
    + rewrite (proj2 (Nat.eqb_neq _ _) Hlen) in Hframe. exact Hframe.
  - intros Hfail. unfold get_all_tactile_data. rewrite Hgen.
    pose proof (read_sensors_fail tactile_sensors tactile_shapes tactile_sensors_resolve
                  h c ∅ None Hgen Hconn Hc Hfail Hwords) as H.
    destruct (read_sensors rd tactile_sensors h ∅ None) as [h' [[sd palm_data]|e]];
      simpl in H |- *; [discriminate|congruence].
Qed.

End Engine.

Lemma C8_partial_snapshot_witness :
  generation fresh_hand = GEN4 /\ connected fresh_hand = true /\
  _client fresh_hand = Some (mk_client 0%nat []) /\
  Forall (fun r => Forall is_word (registers_of r))
         (serve short_tip_device 0%nat (map shape_request tactile_shapes)) /\
  exists c' snap,
    @get_all_tactile_data nat Z short_tip_device 0 fresh_hand
    = (set_client fresh_hand c', Ok snap) /\
    frame_of snap "pinky" (Some "tip"%string) = Array1 [].
Proof.
  assert (Hw : Forall (fun r => Forall is_word (registers_of r))
                 (serve short_tip_device 0%nat (map shape_request tactile_shapes))).
  { apply (bool_decide_eq_true_1 _). vm_compute. reflexivity. }
  assert (Hr : Forall is_registers
                 (serve short_tip_device 0%nat (map shape_request tactile_shapes))).
  { apply (bool_decide_eq_true_1 _). vm_compute. reflexivity. }
  split; [reflexivity|]. split; [reflexivity|]. split; [reflexivity|].
  split; [exact Hw|].
  destruct (proj1 (proj2 (C8_partial_snapshot short_tip_device 0 fresh_hand
                            (mk_client 0%nat []) eq_refl eq_refl eq_refl Hw)) Hr)
    as (c' & snap & H1 & _ & _ & H4).
  exists c', snap. split; [exact H1|].
  apply (H4 1%nat "pinky"%string (Some "tip"%string) 3018 12%nat 8%nat [0; 0; 0; 0; 0]);
    [vm_compute; reflexivity|vm_compute; reflexivity|simpl; lia].
Defined.

(** On a device whose second reply is an error response, the pinky tip is
    not left empty in a partial snapshot: the operation raises after two
    requests and the other fifteen sensors are never read. *)
Lemma C8_failed_read_aborts :
  generation fresh_hand = GEN4 /\
  serve flaky_device 0%nat (take 2 (map shape_request tactile_shapes))
  = [Registers (map (fun i => 3000 + i) (py_range 9)); ErrorResponse] /\
  @get_all_tactile_data nat Z flaky_device 0 fresh_hand
  = (mk_hand GEN4 true (Some (mk_client 2%nat [(3000, 9); (3018, 96)])),
     Raise CommunicationError) /\
  ~ exists snap, snd (@get_all_tactile_data nat Z flaky_device 0 fresh_hand) = Ok snap.
Proof.
  split; [reflexivity|]. split; [vm_compute; reflexivity|].
  assert (H : @get_all_tactile_data nat Z flaky_device 0 fresh_hand
  = (mk_hand GEN4 true (Some (mk_client 2%nat [(3000, 9); (3018, 96)])),
     Raise CommunicationError)) by (vm_compute; reflexivity).
  split; [exact H|]. rewrite H. intros [snap Hs]. discriminate.
Qed.

End TactileFacts.

(** * Further properties of the source *)

(** ** The codec *)

Module CodecFacts.
Import Utils UtilsMore.

Lemma land_byte (x : Z) : Z.land x 0xFF = x mod 256.
Proof. change 0xFF with (Z.ones 8). by rewrite Z.land_ones by lia. Qed.

Lemma int16_to_bytes_spec (x : Z) :
  int16_to_bytes x = (x mod 256, (x / 256) mod 256).
Proof.
  unfold int16_to_bytes, BYTE_MASK, BITS_PER_BYTE.
  rewrite !land_byte, Z.shiftr_div_pow2 by lia. reflexivity.
Qed.

Lemma bytes_to_int16_spec (lo hi : Z) :
  bytes_to_int16 lo hi = lo mod 256 + 256 * (hi mod 256).
Proof.
  unfold bytes_to_int16, BYTE_MASK, BITS_PER_BYTE.
  rewrite !land_byte, Z.shiftl_mul_pow2 by lia. change (2 ^ 8) with 256. lia.
Qed.

Lemma bytes_to_int16_split (x : Z) :
  bytes_to_int16 (fst (int16_to_bytes x)) (snd (int16_to_bytes x)) = x mod 65536.
Proof.
  rewrite int16_to_bytes_spec, bytes_to_int16_spec. simpl.
  rewrite !Z.mod_mod by lia.
  change 65536 with (256 * 256). rewrite Z.rem_mul_r by lia. reflexivity.
Qed.

Lemma bytes_to_int16_range (lo hi : Z) : 0 <= bytes_to_int16 lo hi < 65536.
Proof.
  rewrite bytes_to_int16_spec.
  pose proof (Z.mod_pos_bound lo 256). pose proof (Z.mod_pos_bound hi 256). lia.
Qed.

(** X1: Splitting any integer into its two bytes and joining them again gives
    the integer modulo 65536; both bytes are in 0..255. *)
Theorem int16_split_join (x : Z) :
  0 <= fst (int16_to_bytes x) < 256 /\
  0 <= snd (int16_to_bytes x) < 256 /\
  bytes_to_int16 (fst (int16_to_bytes x)) (snd (int16_to_bytes x)) = x mod 65536.
Proof.
  split; [|split; [|apply bytes_to_int16_split]];
    rewrite int16_to_bytes_spec; simpl.
  - apply Z.mod_pos_bound. lia.
  - apply Z.mod_pos_bound. lia.
Qed.

(** X2: Joining any two integers as low and high byte gives a 16-bit word, and
    splitting that word gives back the two integers modulo 256. *)
Theorem int16_join_split (lo hi : Z) :
  0 <= bytes_to_int16 lo hi < 65536 /\
  int16_to_bytes (bytes_to_int16 lo hi) = (lo mod 256, hi mod 256).
Proof.
  split; [apply bytes_to_int16_range|].
  rewrite int16_to_bytes_spec, bytes_to_int16_spec.
  pose proof (Z.mod_pos_bound lo 256). pose proof (Z.mod_pos_bound hi 256).
  replace (lo mod 256 + 256 * (hi mod 256)) with (lo mod 256 + hi mod 256 * 256) by lia.
  f_equal.
  - rewrite Z.mod_add by lia. apply Z.mod_mod. lia.
  - rewrite Z.div_add by lia. rewrite (Z.div_small (lo mod 256)) by lia.
    rewrite Z.add_0_l. apply Z.mod_mod. lia.
Qed.

Lemma serial_bytes_length (values : list Z) :
  length (convert_to_serial_bytes values) = (2 * length values)%nat.
Proof.
  rewrite UtilsFacts.convert_to_serial_bytes_bind.
  induction values as [|x values IH]; [done|].
  rewrite bind_cons, length_app, IH. simpl. lia.
Qed.

Lemma serial_bytes_forallb (values : list Z) :
  forallb is_byte (convert_to_serial_bytes values) = true.
Proof.
  rewrite UtilsFacts.convert_to_serial_bytes_bind.
  induction values as [|x values IH]; [done|].
  rewrite bind_cons, forallb_app, IH, andb_true_r.
  rewrite int16_to_bytes_spec. cbn [fst snd forallb]. unfold is_byte.
  pose proof (Z.mod_pos_bound x 256). pose proof (Z.mod_pos_bound (x / 256) 256).
  rewrite !andb_true_iff, !Z.leb_le, !Z.ltb_lt. lia.
Qed.

(** X3: The serial encoding of [n] values is [2 * n] bytes, each in 0..255, so
    [bytes(...)] accepts it whatever the values are. *)
Theorem serial_bytes_are_bytes (values : list Z) :
  length (convert_to_serial_bytes values) = (2 * length values)%nat /\
  Forall (fun b => 0 <= b < 256) (convert_to_serial_bytes values) /\
  to_bytes (convert_to_serial_bytes values) = Ok (convert_to_serial_bytes values).
Proof.
  split; [apply serial_bytes_length|]. split.
  - apply Forall_forall. intros b Hb. apply list_elem_of_In in Hb.
    pose proof (proj1 (forallb_forall _ _) (serial_bytes_forallb values) b Hb) as H.
    unfold is_byte in H. apply andb_true_iff in H as [H1 H2].
    apply Z.leb_le in H1. apply Z.ltb_lt in H2. lia.
  - apply SerialFacts.to_bytes_ok, serial_bytes_forallb.
Qed.

(** X4: Decoding the encoding of any six integers gives each of them modulo
    65536. *)
Theorem serial_decode_encode (v : list Z) :
  length v = 6%nat ->
  convert_12bytes_to_6values (convert_to_serial_bytes v)
  = Ok (map (fun x => x mod 65536) v).
Proof.
  intros Hlen.
  destruct v as [|a [|b [|c [|d [|e [|f [|g v]]]]]]]; try discriminate Hlen.
  rewrite UtilsFacts.convert_12bytes_of_serial_bytes. f_equal.
  apply map_ext. intros x. apply bytes_to_int16_split.
Qed.

Lemma serial_decode_encode_witness :
  length [70000; -2; 0; 1; 2; 3] = 6%nat /\
  convert_12bytes_to_6values (convert_to_serial_bytes [70000; -2; 0; 1; 2; 3])
  = Ok (map (fun x => x mod 65536) [70000; -2; 0; 1; 2; 3]).
Proof.
  split; [reflexivity|].
  exact (serial_decode_encode [70000; -2; 0; 1; 2; 3] eq_refl).
Defined.

(** X5: [convert_12bytes_to_6values] raises [ValidationError] exactly on fewer
    than twelve bytes; otherwise it returns six words in 0..65535 that
    depend on the first twelve bytes only. *)
Theorem decode_12bytes_total (bytes_data : list Z) :
  (len bytes_data < 12 <-> convert_12bytes_to_6values bytes_data = Raise ValidationError) /\
  (12 <= len bytes_data ->
   exists vals,
     convert_12bytes_to_6values bytes_data = Ok vals /\
     length vals = 6%nat /\
     Forall (fun w => 0 <= w < 65536) vals /\
     convert_12bytes_to_6values (take 12 bytes_data) = Ok vals).
Proof.
  assert (Hbig : 12 <= len bytes_data ->
   exists vals,
     convert_12bytes_to_6values bytes_data = Ok vals /\
     length vals = 6%nat /\
     Forall (fun w => 0 <= w < 65536) vals /\
     convert_12bytes_to_6values (take 12 bytes_data) = Ok vals).
  { intros H. unfold len in H.
    destruct bytes_data
      as [|b0 [|b1 [|b2 [|b3 [|b4 [|b5 [|b6 [|b7 [|b8 [|b9 [|b10 [|b11 rest]]]]]]]]]]]];
      simpl in H; try lia.
    unfold convert_12bytes_to_6values.
    match goal with |- context [len ?l <? 12] =>
      destruct (Z.ltb_spec (len l) 12) as [Hl|_] end.
    { unfold len in Hl. simpl in Hl. lia. }
    eexists. split; [reflexivity|]. split; [reflexivity|]. split; [|reflexivity].
    repeat constructor; apply bytes_to_int16_range. }
  split; [|exact Hbig]. split.
  - intros H. unfold convert_12bytes_to_6values.
    by destruct (Z.ltb_spec (len bytes_data) 12); [|lia].
  - intros H. destruct (Z.lt_ge_cases (len bytes_data) 12) as [|Hge]; [done|].
    destruct (Hbig Hge) as (vals & Hv & _). congruence.
Qed.

Lemma decode_12bytes_total_witness :
  12 <= len [1; 2; 3; 4; 5; 6; 7; 8; 9; 10; 11; 12; 13] /\
  exists vals,
    convert_12bytes_to_6values [1; 2; 3; 4; 5; 6; 7; 8; 9; 10; 11; 12; 13] = Ok vals /\
    length vals = 6%nat.
Proof.
  assert (H : 12 <= len [1; 2; 3; 4; 5; 6; 7; 8; 9; 10; 11; 12; 13])
    by (vm_compute; discriminate).
  split; [exact H|].
  destruct (proj2 (decode_12bytes_total [1; 2; 3; 4; 5; 6; 7; 8; 9; 10; 11; 12; 13]) H)
    as (vals & H1 & H2 & _).
  exists vals. split; [exact H1|exact H2].
Defined.

(** *** Validation *)

Lemma wrap_int32_range (z : Z) : is_int32 (wrap_int32 z) = true.
Proof.
  unfold is_int32, wrap_int32.
  pose proof (Z.mod_pos_bound (z + 2 ^ 31) (2 ^ 32)).
  apply andb_true_iff. split; [apply Z.leb_le|apply Z.ltb_lt]; lia.
Qed.

Lemma check_range_ok_inv (l : list Z) (min_val max_val : Z) :
  check_range l min_val max_val = Ok () -> Forall (in_range min_val max_val) l.
Proof.
  intros H. destruct (decide (Forall (in_range min_val max_val) l)) as [|Hn]; [done|].
  - rewrite UtilsFacts.check_range_raises in H by done. discriminate.
Qed.

(** X6: Whatever [validate_joint_values] returns is valid: six [int32] values,
    each the sentinel or within the bounds; and validating the returned
    array again returns it unchanged. *)
Theorem validate_output_valid (values : pyarg) (min_val max_val : Z) (w : list Z) :
  validate_joint_values values min_val max_val = Ok w ->
  length w = 6%nat /\
  Forall (fun x => is_int32 x = true) w /\
  Forall (in_range min_val max_val) w /\
  validate_joint_values (Ndarray w) min_val max_val = Ok w.
Proof.
  intros H. destruct values as [elems|]; [|discriminate]. simpl in H.
  destruct (Z.eqb_spec (len (map wrap_int32 elems)) NUM_JOINTS) as [Hlen|]; [|discriminate].
  simpl in H.
  destruct (check_range (map wrap_int32 elems) min_val max_val) as [[]|] eqn:Hc;
    [|discriminate].
  simpl in H. injection H as <-.
  assert (H6 : length (map wrap_int32 elems) = 6%nat).
  { unfold len, NUM_JOINTS in Hlen. lia. }
  assert (H32 : Forall (fun x => is_int32 x = true) (map wrap_int32 elems)).
  { apply Forall_fmap. apply Forall_true. intros z. apply wrap_int32_range. }
  assert (Hr : Forall (in_range min_val max_val) (map wrap_int32 elems))
    by (by apply check_range_ok_inv).
  split; [exact H6|]. split; [exact H32|]. split; [exact Hr|].
  by apply UtilsFacts.validate_int32.
Qed.

Lemma validate_output_valid_witness :
  validate_joint_values (Ndarray [4294967796; 500; -1; 500; 500; 0]) 0 1000
  = Ok [500; 500; -1; 500; 500; 0] /\
  validate_joint_values (Ndarray [500; 500; -1; 500; 500; 0]) 0 1000
  = Ok [500; 500; -1; 500; 500; 0].
Proof.
  assert (H : validate_joint_values (Ndarray [4294967796; 500; -1; 500; 500; 0]) 0 1000
              = Ok [500; 500; -1; 500; 500; 0]) by reflexivity.
  split; [exact H|].
  exact (proj2 (proj2 (proj2 (validate_output_valid _ _ _ _ H)))).
Defined.

(** *** Reshape *)

Lemma concat_reshape_C (data : list Z) (rows cols : nat) :
  concat (reshape_C data rows cols) = take (rows * cols) data.
Proof.
  revert data. induction rows as [|rows IH]; intros data; simpl; [by rewrite take_0|].
  rewrite IH. apply take_take_drop.
Qed.

Lemma matrix_ext (n : nat) (m1 m2 : list (list Z)) :
  length m1 = length m2 ->
  Forall (fun row => length row = n) m1 -> Forall (fun row => length row = n) m2 ->
  (forall r c, (r < length m1)%nat -> (c < n)%nat -> element m1 r c = element m2 r c) ->
  m1 = m2.
Proof.
  intros Hlen H1 H2 Hel. apply list_eq. intros r.
  destruct (decide (r < length m1)%nat) as [Hr|Hr].
  - destruct (lookup_lt_is_Some_2 m1 r Hr) as [row1 Hrow1].
    destruct (lookup_lt_is_Some_2 m2 r ltac:(lia)) as [row2 Hrow2].
    rewrite Hrow1, Hrow2. f_equal.
    pose proof (Forall_lookup_1 _ _ _ _ H1 Hrow1) as Hl1.
    pose proof (Forall_lookup_1 _ _ _ _ H2 Hrow2) as Hl2. simpl in Hl1, Hl2.
    apply list_eq. intros c.
    destruct (decide (c < n)%nat) as [Hc|Hc].
    + specialize (Hel r c Hr Hc). unfold element in Hel.
      by rewrite Hrow1, Hrow2 in Hel.
    + rewrite !lookup_ge_None_2 by lia. reflexivity.
  - rewrite !lookup_ge_None_2 by lia. reflexivity.
Qed.

(** Transposing twice gives the array back. *)
Lemma transpose_involutive (k n : nat) (m : list (list Z)) :
  length m = k -> Forall (fun row => length row = n) m ->
  transpose k (transpose n m) = m.
Proof.
  intros Hk Hm.
  assert (Hcols : Forall (fun col => length col = k) (transpose n m)).
  { rewrite <- Hk. apply UtilsFacts.transpose_row_length. }
  assert (Hn : length (transpose n m) = n) by (by apply UtilsFacts.transpose_length).
  apply (matrix_ext n).
  - rewrite UtilsFacts.transpose_length by done. by rewrite Hk.
  - pose proof (UtilsFacts.transpose_row_length k (transpose n m)) as H.
    by rewrite Hn in H.
  - exact Hm.
  - intros r c Hr Hc. rewrite UtilsFacts.transpose_length in Hr by done.
    rewrite UtilsFacts.transpose_element by done.
    by rewrite UtilsFacts.transpose_element.
Qed.

(** X7: [reshape_tactile_data] raises [ValidationError] on a length other than
    [rows * cols], whatever the values; on [rows * cols] values of the
    array's type it loses nothing: flattening the finger matrix gives the
    input back, and so does flattening the transpose of the palm matrix. *)
Theorem reshape_flatten (flat : list Z) (rows cols : nat) :
  (length flat <> (rows * cols)%nat ->
   reshape_tactile_data flat rows cols false = Raise ValidationError /\
   reshape_tactile_data flat rows cols true = Raise ValidationError) /\
  (length flat = (rows * cols)%nat ->
   Forall (fun x => is_int32 x = true) flat ->
   (exists m, reshape_tactile_data flat rows cols false = Ok (Array2 m) /\
              concat m = flat) /\
   (exists m, reshape_tactile_data flat rows cols true = Ok (Array2 m) /\
              concat (transpose cols m) = flat)).
Proof.
  split.
  - intros H. unfold reshape_tactile_data.
    by destruct (Nat.eqb_spec (length flat) (rows * cols)).
  - intros Hlen H32. unfold reshape_tactile_data.
    rewrite Hlen, Nat.eqb_refl. simpl.
    rewrite UtilsFacts.np_array_int32_ok by done. simpl. split.
    + eexists. split; [reflexivity|].
      rewrite concat_reshape_C. apply take_ge. lia.
    + eexists. split; [reflexivity|].
      rewrite transpose_involutive.
      * rewrite concat_reshape_C. apply take_ge. lia.
      * apply UtilsFacts.reshape_C_length.
      * apply UtilsFacts.reshape_C_row_length. lia.
Qed.

Lemma reshape_flatten_witness :
  length [1; 2; 3; 4; 5; 6] = (2 * 3)%nat /\
  Forall (fun x => is_int32 x = true) [1; 2; 3; 4; 5; 6] /\
  exists m, reshape_tactile_data [1; 2; 3; 4; 5; 6] 2 3 true = Ok (Array2 m) /\
            concat (transpose 3 m) = [1; 2; 3; 4; 5; 6].
Proof.
  assert (H : Forall (fun x => is_int32 x = true) [1; 2; 3; 4; 5; 6])
    by (repeat constructor).
  split; [reflexivity|]. split; [exact H|].
  exact (proj2 (proj2 (reshape_flatten [1; 2; 3; 4; 5; 6] 2 3) eq_refl H)).
Defined.

(** *** Checksum *)

(** X8: The checksum is a byte; it does not depend on the two start bytes; on a
    frame of at most two bytes it is 0; and appending a byte adds it modulo
    256. *)
Theorem checksum_incremental (frame : list Z) (x : Z) :
  (2 <= length frame)%nat ->
  0 <= calculate_checksum frame < 256 /\
  calculate_checksum (frame ++ [x]) = (calculate_checksum frame + x) mod 256 /\
  calculate_checksum (take 2 frame) = 0 /\
  (forall a b, calculate_checksum (a :: b :: drop 2 frame) = calculate_checksum frame).
Proof.
  intros Hlen. rewrite !UtilsFacts.calculate_checksum_sum.
  pose proof (Z.mod_pos_bound (additive_sum (drop 2 frame)) 256).
  split; [lia|]. split; [|split].
  - rewrite drop_app_le by lia.
    assert (Hs : forall l, additive_sum (l ++ [x]) = additive_sum l + x).
    { unfold additive_sum. induction l as [|y l IH]; simpl; [lia|]. rewrite IH. lia. }
    rewrite Hs. rewrite Z.add_mod_idemp_l by lia. reflexivity.
  - rewrite (drop_ge (take 2 frame)) by (rewrite length_take; lia). reflexivity.
  - intros a b. rewrite UtilsFacts.calculate_checksum_sum. reflexivity.
Qed.

Lemma checksum_incremental_witness :
  (2 <= length [0xEB; 0x90; 1; 2])%nat /\
  calculate_checksum ([0xEB; 0x90; 1; 2] ++ [7])
  = (calculate_checksum [0xEB; 0x90; 1; 2] + 7) mod 256.
Proof.
  assert (H : (2 <= length [0xEB; 0x90; 1; 2])%nat) by (simpl; lia).
  split; [exact H|].
  exact (proj1 (proj2 (checksum_incremental [0xEB; 0x90; 1; 2] 7 H))).
Defined.

(** *** The strict parser *)

Lemma extract_take (recv : list Z) (n : Z) :
  n <= len recv - 7 ->
  collect (fun i => getitem recv (7 + i)) (py_range n)
  = Ok (take (Z.to_nat n) (drop 7 recv)).
Proof.
  intros Hn.
  destruct (SerialFacts.extract_in_bounds recv n Hn) as (val & Hval & Hlen & Hel).
  rewrite Hval. f_equal. unfold len in *. apply list_eq. intros i.
  destruct (decide (i < length val)%nat) as [Hi|Hi].
  - rewrite (proj2 (Hel i Hi)). rewrite lookup_take_lt by lia.
    by rewrite lookup_drop.
  - rewrite lookup_ge_None_2 by lia.
    rewrite lookup_ge_None_2; [done|]. rewrite length_take, length_drop. lia.
Qed.

(** X9: [parse_serial_response] raises [ValidationError] on fewer than seven
    bytes and on a declared length different from the expected one;
    otherwise it returns the first [min(expected, len - 7)] bytes after the
    header, never indexing outside the data. *)
Theorem parse_serial_response_spec (data : list Z) (expected_length : Z) :
  (len data < 7 -> parse_serial_response data expected_length = Raise ValidationError) /\
  (forall b, 7 <= len data -> data !! 3%nat = Some b ->
     (Z.land b 0xFF - 3 <> expected_length ->
      parse_serial_response data expected_length = Raise ValidationError) /\
     (Z.land b 0xFF - 3 = expected_length ->
      parse_serial_response data expected_length
      = Ok (take (Z.to_nat (Z.min expected_length (len data - 7))) (drop 7 data)))).
Proof.
  split.
  - intros H. unfold parse_serial_response.
    by destruct (Z.ltb_spec (len data) 7); [|lia].
  - intros b Hlen Hb. unfold parse_serial_response.
    destruct (Z.ltb_spec (len data) 7); [lia|].
    assert (Hg : getitem data 3 = Ok b) by exact (getitem_lookup _ 3 b Hb).
    rewrite Hg. simpl mbind. unfold BYTE_MASK. split; intros Hd.
    + by destruct (Z.eqb_spec (Z.land b 255 - 3) expected_length).
    + destruct (Z.eqb_spec (Z.land b 255 - 3) expected_length); [|done].
      simpl. rewrite Hd. apply extract_take. lia.
Qed.

Lemma parse_serial_response_spec_witness :
  7 <= len [0xEB; 0x90; 1; 5; 0x11; 0x0A; 0x06; 7; 8; 9] /\
  parse_serial_response [0xEB; 0x90; 1; 5; 0x11; 0x0A; 0x06; 7; 8; 9] 2 = Ok [7; 8] /\
  parse_serial_response [0xEB; 0x90; 1; 5; 0x11; 0x0A; 0x06; 7; 8; 9] 6
  = Raise ValidationError.
Proof.
  assert (H : 7 <= len [0xEB; 0x90; 1; 5; 0x11; 0x0A; 0x06; 7; 8; 9])
    by (vm_compute; discriminate).
  split; [exact H|]. split.
  - exact (proj2 (proj2 (parse_serial_response_spec
                           [0xEB; 0x90; 1; 5; 0x11; 0x0A; 0x06; 7; 8; 9] 2)
                    5 H eq_refl) eq_refl).
  - apply (proj1 (proj2 (parse_serial_response_spec
                           [0xEB; 0x90; 1; 5; 0x11; 0x0A; 0x06; 7; 8; 9] 6)
                    5 H eq_refl)).
    vm_compute. discriminate.
Defined.

End CodecFacts.

(** ** The register tables *)

Module RegistersFacts.

(** A boolean property of every entry of a register table follows from its
    evaluation on the list of the entries. *)
Lemma map_Forall_bool {A : Type} (P : string -> A -> bool) (m : gmap string A) :
  forallb (uncurry P) (map_to_list m) = true ->
  map_Forall (fun k x => P k x = true) m.
Proof.
  intros H. apply map_Forall_to_list. apply Forall_forall. intros [k x] Hin.
  apply list_elem_of_In in Hin.
  exact (proj1 (forallb_forall _ _) H (k, x) Hin).
Qed.

Lemma str_in_spec (x : string) (l : list string) :
  Registers.str_in x l = true <-> x ∈ l.
Proof.
  unfold Registers.str_in. rewrite existsb_exists. split.
  - intros (y & Hy & Heq). apply String.eqb_eq in Heq as ->.
    by apply list_elem_of_In.
  - intros H. exists x. split; [by apply list_elem_of_In|apply String.eqb_refl].
Qed.

Lemma validate_register_address_3 (name : string) :
  Registers.validate_register_address name 3
  = match REGISTERS_GEN3 !! name with
    | Some entry => Ok entry
    | None => Raise ValueError
    end.
Proof. reflexivity. Qed.

Lemma validate_register_address_4 (name : string) :
  Registers.validate_register_address name 4
  = match REGISTERS_GEN4 !! name with
    | Some entry => Ok entry
    | None => Raise ValueError
    end.
Proof. reflexivity. Qed.

Lemma gen3_in_gen4 :
  map_Forall (fun name e3 =>
                match REGISTERS_GEN4 !! name with
                | Some e4 => bool_decide (e3 = e4)
                | None => true
                end = true) REGISTERS_GEN3.
Proof. apply (map_Forall_bool _ REGISTERS_GEN3). vm_compute. reflexivity. Qed.

(** X10: A register known to both generations has the same entry in both: its
    address does not depend on the generation. A generation other than 3 or
    4 is a [ValueError], whatever the name. *)
Theorem registers_agree_across_generations (name : string) :
  (forall e3 e4,
     Registers.validate_register_address name 3 = Ok e3 ->
     Registers.validate_register_address name 4 = Ok e4 -> e3 = e4) /\
  (forall generation, generation <> 3 -> generation <> 4 ->
     Registers.validate_register_address name generation = Raise ValueError).
Proof.
  split.
  - intros e3 e4. rewrite validate_register_address_3, validate_register_address_4.
    destruct (REGISTERS_GEN3 !! name) as [e|] eqn:H3; [|discriminate].
    destruct (REGISTERS_GEN4 !! name) as [e'|] eqn:H4; [|discriminate].
    intros [= <-] [= <-].
    pose proof (gen3_in_gen4 name e H3) as H. cbv beta in H. rewrite H4 in H.
    by apply bool_decide_eq_true in H.
  - intros generation H3 H4.
    unfold Registers.validate_register_address, Registers.get_registers.
    destruct (Z.eqb_spec generation 3); [lia|].
    by destruct (Z.eqb_spec generation 4); [lia|].
Qed.

Lemma registers_agree_across_generations_witness :
  Registers.validate_register_address "ANGLE_SET" 3 = Ok (Plain 1486) /\
  Registers.validate_register_address "ANGLE_SET" 4 = Ok (Plain 1486) /\
  Plain 1486 = Plain 1486.
Proof.
  assert (H3 : Registers.validate_register_address "ANGLE_SET" 3 = Ok (Plain 1486))
    by reflexivity.
  assert (H4 : Registers.validate_register_address "ANGLE_SET" 4 = Ok (Plain 1486))
    by reflexivity.
  split; [exact H3|]. split; [exact H4|].
  exact (proj1 (registers_agree_across_generations "ANGLE_SET") _ _ H3 H4).
Defined.

Lemma blocks_disjoint_table (m : gmap string reg_entry) :
  forallb (uncurry (fun name1 e1 =>
    forallb (uncurry (fun name2 e2 => implb (in_block e1 e2) (String.eqb name1 name2)))
            (map_to_list m))) (map_to_list m) = true ->
  forall name1 name2 e1 e2,
    m !! name1 = Some e1 -> m !! name2 = Some e2 ->
    Serial.entry_address e1 <= Serial.entry_address e2
      < Serial.entry_address e1 + entry_size e1 ->
    name1 = name2.
Proof.
  intros H name1 name2 e1 e2 H1 H2 Hin.
  apply (map_Forall_bool _ m) in H. specialize (H name1 e1 H1). cbv beta in H.
  apply (map_Forall_bool _ m) in H. specialize (H name2 e2 H2). cbv beta in H.
  unfold in_block in H.
  destruct (Z.leb_spec (Serial.entry_address e1) (Serial.entry_address e2)); [|lia].
  destruct (Z.ltb_spec (Serial.entry_address e2)
              (Serial.entry_address e1 + entry_size e1)); [|lia].
  simpl in H. by apply String.eqb_eq.
Qed.

(** X11: Within a generation no two registers share an address, and no register
    lies inside the block of a tactile sensor other than the sensor's own
    entry: an address identifies its register. *)
Theorem register_blocks_disjoint (generation : HandGeneration)
    (name1 name2 : string) (e1 e2 : reg_entry) :
  get_registers generation !! name1 = Some e1 ->
  get_registers generation !! name2 = Some e2 ->
  Serial.entry_address e1 <= Serial.entry_address e2
    < Serial.entry_address e1 + entry_size e1 ->
  name1 = name2.
Proof.
  destruct generation; apply blocks_disjoint_table; vm_compute; reflexivity.
Qed.

Lemma register_blocks_disjoint_witness :
  get_registers GEN4 !! "PALM_TAC"%string = Some (Tactile 4900 8 14) /\
  get_registers GEN4 !! "PALM_TAC"%string = Some (Tactile 4900 8 14) /\
  4900 <= 4900 < 4900 + entry_size (Tactile 4900 8 14) /\
  "PALM_TAC"%string = "PALM_TAC"%string.
Proof.
  assert (H : get_registers GEN4 !! "PALM_TAC"%string = Some (Tactile 4900 8 14))
    by reflexivity.
  assert (Hin : 4900 <= 4900 < 4900 + entry_size (Tactile 4900 8 14))
    by (simpl; lia).
  split; [exact H|]. split; [exact H|]. split; [exact Hin|].
  exact (register_blocks_disjoint GEN4 "PALM_TAC" "PALM_TAC" _ _ H H Hin).
Defined.

Lemma touch_sensors_gen4 :
  map_Forall (fun name entry =>
    Bool.eqb (is_tuple entry)
      (String.eqb (Registers.categorize_register name) "touch_sensors")
    && Bool.eqb (is_tuple entry) (Registers.str_in name (Modbus.tactile_sensors.*1))
    = true) REGISTERS_GEN4.
Proof. apply (map_Forall_bool _ REGISTERS_GEN4). vm_compute. reflexivity. Qed.

Lemma touch_sensors_gen3 :
  map_Forall (fun name entry =>
    negb (is_tuple entry)
    && negb (String.eqb (Registers.categorize_register name) "touch_sensors")
    = true) REGISTERS_GEN3.
Proof. apply (map_Forall_bool _ REGISTERS_GEN3). vm_compute. reflexivity. Qed.

(** X12: In the Gen4 map the entries that are tuples (address and shape) are
    exactly the registers [categorize_register] calls touch sensors, and
    exactly the registers of the table [get_all_tactile_data] reads; the Gen3
    map has no tuple and no touch sensor. *)
Theorem tuples_are_touch_sensors (name : string) (entry : reg_entry) :
  (REGISTERS_GEN4 !! name = Some entry ->
   (is_tuple entry = true <->
    Registers.categorize_register name = "touch_sensors"%string) /\
   (is_tuple entry = true <-> name ∈ Modbus.tactile_sensors.*1)) /\
  (REGISTERS_GEN3 !! name = Some entry ->
   is_tuple entry = false /\
   Registers.categorize_register name <> "touch_sensors"%string).
Proof.
  split; intros H.
  - pose proof (touch_sensors_gen4 name entry H) as Hb. cbv beta in Hb.
    apply andb_true_iff in Hb as [H1 H2].
    apply Bool.eqb_prop in H1, H2. split.
    + rewrite H1. apply String.eqb_eq.
    + rewrite H2. apply str_in_spec.
  - pose proof (touch_sensors_gen3 name entry H) as Hb. cbv beta in Hb.
    apply andb_true_iff in Hb as [H1 H2].
    apply negb_true_iff in H1, H2. split; [exact H1|]. by apply String.eqb_neq.
Qed.

Lemma tuples_are_touch_sensors_witness :
  REGISTERS_GEN4 !! "PALM_TAC"%string = Some (Tactile 4900 8 14) /\
  Registers.categorize_register "PALM_TAC" = "touch_sensors"%string.
Proof.
  assert (H : REGISTERS_GEN4 !! "PALM_TAC"%string = Some (Tactile 4900 8 14))
    by reflexivity.
  split; [exact H|].
  exact (proj1 (proj1 (proj1 (tuples_are_touch_sensors "PALM_TAC" (Tactile 4900 8 14)) H))
           eq_refl).
Defined.

End RegistersFacts.

(** ** Serial commands and reads *)

Module SerialOpsFacts.
Import Utils UtilsMore Serial SerialOps.

Lemma drain_empties (p : port) : in_buffer (drain p) = [].
Proof.
  funelim (drain p).
  - assumption.
  - unfold in_waiting, len in *. destruct (in_buffer p); [done|]. simpl in *. lia.
Qed.

Lemma not_connected_when_closed (h : hand) :
  ser h = None -> is_connected h = false.
Proof. intros H. unfold is_connected. rewrite H. apply andb_false_r. Qed.

(** X13: A write that raises has sent nothing and changed nothing: the hand is
    as it was. The exception is [CommunicationError] on a hand that is not
    connected, [ValidationError] on a connected hand when the address is not
    one of the generation's addresses, and [ValueError] only when a byte of
    the frame is out of range. *)
Theorem write_failure_changes_nothing (h h' : hand) (hand_id : Z) (addr : reg_entry)
    (num : Z) (val : list Z) (e : exn) :
  _write_register h hand_id addr num val = (h', Raise e) ->
  h' = h /\
  (is_connected h = false -> e = CommunicationError) /\
  (is_connected h = true -> addr_in addr (valid_addrs (_regdict h)) = false ->
   e = ValidationError) /\
  (is_connected h = true -> addr_in addr (valid_addrs (_regdict h)) = true ->
   e = ValueError).
Proof.
  unfold _write_register. intros H.
  destruct (ser h) as [p|] eqn:Hser.
  - destruct (is_connected h) eqn:Hconn; cbn [negb] in H.
    + destruct (addr_in addr (valid_addrs (_regdict h))) eqn:Haddr; cbn [negb] in H.
      * destruct addr as [a|a rows cols]; [|discriminate Haddr].
        match type of H with context [to_bytes ?f] =>
          destruct (to_bytes f) as [data|e1] eqn:Hb end.
        -- cbv zeta in H.
           match type of H with context [to_bytes ?f] =>
             destruct (to_bytes f) as [out|e2] eqn:Hb2 end; [discriminate|].
           injection H as <- <-. unfold to_bytes in Hb2.
           match type of Hb2 with context [forallb ?f ?l] =>
             destruct (forallb f l) end; [discriminate|].
           injection Hb2 as <-. by repeat split.
        -- injection H as <- <-. unfold to_bytes in Hb.
           match type of Hb with context [forallb ?f ?l] =>
             destruct (forallb f l) end; [discriminate|].
           injection Hb as <-. by repeat split.
      * injection H as <- <-. by repeat split.
    + injection H as <- <-. by repeat split.
  - injection H as <- <-. rewrite (not_connected_when_closed h Hser).
    by repeat split.
Qed.

Lemma write_failure_changes_nothing_witness :
  _write_register (mk_hand GEN3 false None) 1 (Plain 1486) 12 [] 
  = (mk_hand GEN3 false None, Raise CommunicationError) /\
  mk_hand GEN3 false None = mk_hand GEN3 false None.
Proof.
  assert (H : _write_register (mk_hand GEN3 false None) 1 (Plain 1486) 12 []
              = (mk_hand GEN3 false None, Raise CommunicationError)) by reflexivity.
  split; [exact H|].
  exact (proj1 (write_failure_changes_nothing _ _ _ _ _ _ _ H)).
Defined.

(** X14: A write that succeeds has handed the port exactly one frame: start
    bytes, hand id, [num + 3], the write command, the address low byte
    first, the payload, and the sum modulo 256 of everything after the
    start bytes. When it returns, the receive buffer has been drained
    empty. The length byte comes from [num], not from the payload. *)
Theorem write_frame_layout (h : hand) (p : port) (hand_id a num : Z) (val : list Z) :
  ser h = Some p -> is_connected h = true ->
  addr_in (Plain a) (valid_addrs (_regdict h)) = true ->
  is_byte hand_id = true -> is_byte (num + 3) = true -> forallb is_byte val = true ->
  exists p',
    _write_register h hand_id (Plain a) num val = (set_ser h p', Ok true) /\
    written p'
    = written p ++
        [[0xEB; 0x90; hand_id; num + 3; 0x12; a mod 256; (a / 256) mod 256] ++ val
         ++ [(hand_id + (num + 3) + 0x12 + a mod 256 + (a / 256) mod 256
              + additive_sum val) mod 256]] /\
    in_buffer p' = [] /\ is_open p' = is_open p.
Proof.
  intros Hser Hconn Haddr Hid Hnum Hval.
  unfold _write_register. rewrite Hser, Hconn, Haddr. cbn [negb].
  match goal with |- context [to_bytes ?f] => set (frame := f) end.
  assert (Hframe : frame = [0xEB; 0x90; hand_id; num + 3; 0x12; a mod 256;
                            (a / 256) mod 256] ++ val).
  { subst frame. cbn [app]. rewrite !CodecFacts.land_byte, Z.shiftr_div_pow2 by lia.
    reflexivity. }
  assert (Hb : forallb is_byte frame = true).
  { rewrite Hframe. cbn [app forallb]. rewrite Hid, Hnum, Hval.
    pose proof (Z.mod_pos_bound a 256). pose proof (Z.mod_pos_bound (a / 256) 256).
    unfold is_byte. rewrite !andb_true_iff, !Z.leb_le, !Z.ltb_lt. lia. }
  rewrite (SerialFacts.to_bytes_ok _ Hb). cbv beta iota zeta.
  rewrite (SerialFacts.to_bytes_with_checksum _ Hb).
  eexists. split; [reflexivity|].
  rewrite drain_empties, !(proj1 (SerialFacts.drain_keeps _)),
    !(proj2 (SerialFacts.drain_keeps _)).
  split; [|split; [reflexivity|]].
  - assert (Hw : written (sleep (write p (frame ++ [calculate_checksum frame])))
                 = written p ++ [frame ++ [calculate_checksum frame]]).
    { unfold sleep, write. simpl. by destruct (incoming p). }
    assert (Hsum : calculate_checksum frame
                   = (hand_id + (num + 3) + 0x12 + a mod 256 + (a / 256) mod 256
                      + additive_sum val) mod 256).
    { rewrite UtilsFacts.calculate_checksum_sum, Hframe. cbn [app drop].
      unfold additive_sum. cbn [foldr]. f_equal. lia. }
    rewrite Hw, Hsum, Hframe. by rewrite <- app_assoc.
  - unfold sleep, write. simpl. by destruct (incoming p).
Qed.

Lemma write_frame_layout_witness :
  ser (mk_hand GEN4 true (Some (mk_port true [] [7] [[8]; [9]; []; [10]]))) 
  = Some (mk_port true [] [7] [[8]; [9]; []; [10]]) /\
  exists p',
    _write_register (mk_hand GEN4 true (Some (mk_port true [] [7] [[8]; [9]; []; [10]])))
      1 (Plain 1004) 1 [1]
    = (set_ser (mk_hand GEN4 true (Some (mk_port true [] [7] [[8]; [9]; []; [10]]))) p',
       Ok true) /\
    in_buffer p' = [].
Proof.
  split; [reflexivity|].
  destruct (write_frame_layout
              (mk_hand GEN4 true (Some (mk_port true [] [7] [[8]; [9]; []; [10]])))
              (mk_port true [] [7] [[8]; [9]; []; [10]]) 1 1004 1 [1]
              eq_refl eq_refl eq_refl eq_refl eq_refl eq_refl)
    as (p' & H1 & _ & H3 & _).
  exists p'. split; [exact H1|exact H3].
Defined.

(** *** Reading *)

(** What [_read_register] does on a connected hand when the request can be
    framed: one request frame goes out, the buffer is read once after one
    sleep and left empty, and the reply is parsed leniently. *)
Lemma read_register_unfold (h : hand) (p : port) (hand_id a num : Z) :
  ser h = Some p -> is_connected h = true ->
  is_byte hand_id = true -> is_byte num = true ->
  _read_register h hand_id (Plain a) num
  = (set_ser h
       (mk_port (is_open p)
          (written p ++
             [[0xEB; 0x90; hand_id; 0x04; 0x11; a mod 256; (a / 256) mod 256; num;
               (hand_id + 0x04 + 0x11 + a mod 256 + (a / 256) mod 256 + num) mod 256]])
          [] (tail (incoming p))),
     if len (received p) =? 0 then Ok []
     else if len (received p) <? 7 then Ok []
     else b ← getitem (received p) 3;
          collect (fun i => getitem (received p) (7 + i))
                  (py_range (Z.min (Z.land b 0xFF - 3) (len (received p) - 7)))).
Proof.
  intros Hser Hconn Hid Hnum.
  unfold _read_register. rewrite Hser, Hconn. cbn [negb].
  match goal with |- context [to_bytes ?f] => set (frame := f) end.
  assert (Hframe : frame = [0xEB; 0x90; hand_id; 0x04; 0x11; a mod 256;
                            (a / 256) mod 256; num]).
  { subst frame. cbn [app]. rewrite !CodecFacts.land_byte, Z.shiftr_div_pow2 by lia.
    reflexivity. }
  assert (Hb : forallb is_byte frame = true).
  { rewrite Hframe. cbn [forallb]. rewrite Hid, Hnum.
    pose proof (Z.mod_pos_bound a 256). pose proof (Z.mod_pos_bound (a / 256) 256).
    unfold is_byte. rewrite !andb_true_iff, !Z.leb_le, !Z.ltb_lt. lia. }
  rewrite (SerialFacts.to_bytes_ok _ Hb). cbv beta iota zeta.
  rewrite (SerialFacts.to_bytes_with_checksum _ Hb).
  assert (Hsum : calculate_checksum frame
                 = (hand_id + 0x04 + 0x11 + a mod 256 + (a / 256) mod 256 + num) mod 256).
  { rewrite UtilsFacts.calculate_checksum_sum, Hframe. cbn [drop].
    unfold additive_sum. cbn [foldr]. f_equal. lia. }
  rewrite Hsum, Hframe. clear Hsum Hb Hframe frame.
  unfold read_all, received, sleep, write, SERIAL_MIN_FRAME_SIZE.
  destruct (incoming p) as [|chunk later]; reflexivity.
Qed.

(** X15: The read request is nine bytes: start bytes, hand id, 4, the read
    command, the address low byte first, the number of bytes wanted, and the
    checksum. The reply is whatever the buffer holds after one sleep,
    including bytes that were pending before the request; fewer than seven
    bytes give the empty list, not an exception; the buffer is left empty.
    A hand id or a count that is not a byte raises [ValueError] before
    anything is sent. *)
Theorem read_request_and_soft_failure (h : hand) (p : port) (hand_id a num : Z) :
  ser h = Some p -> is_connected h = true ->
  (is_byte hand_id = true -> is_byte num = true ->
   exists p',
     fst (_read_register h hand_id (Plain a) num) = set_ser h p' /\
     written p'
     = written p ++
         [[0xEB; 0x90; hand_id; 0x04; 0x11; a mod 256; (a / 256) mod 256; num;
           (hand_id + 0x04 + 0x11 + a mod 256 + (a / 256) mod 256 + num) mod 256]] /\
     in_buffer p' = [] /\
     received p = in_buffer p ++ hd [] (incoming p) /\
     (len (received p) < 7 -> snd (_read_register h hand_id (Plain a) num) = Ok [])) /\
  (is_byte hand_id && is_byte num = false ->
   _read_register h hand_id (Plain a) num = (h, Raise ValueError)).
Proof.
  intros Hser Hconn. split.
  - intros Hid Hnum. rewrite (read_register_unfold h p hand_id a num) by done.
    eexists. split; [reflexivity|]. split; [reflexivity|]. split; [reflexivity|].
    split.
    + unfold received, sleep. destruct (incoming p); simpl; [by rewrite app_nil_r|done].
    + intros Hshort. simpl.
      destruct (Z.eqb_spec (len (received p)) 0); [done|].
      by destruct (Z.ltb_spec (len (received p)) 7); [|lia].
  - intros Hbad. unfold _read_register. rewrite Hser, Hconn. cbn [negb].
    unfold to_bytes. cbn [app forallb].
    replace (is_byte 235) with true by reflexivity.
    replace (is_byte 144) with true by reflexivity.
    cbn [andb].
    apply andb_false_iff in Hbad as [Hbad|Hbad]; rewrite Hbad.
    + reflexivity.
    + destruct (is_byte hand_id); cbn [andb]; [|reflexivity].
      replace (is_byte 4) with true by reflexivity.
      replace (is_byte SERIAL_CMD_READ) with true by reflexivity. cbn [andb].
      destruct (is_byte (Z.land a 255)); cbn [andb]; [|reflexivity].
      destruct (is_byte (Z.land (Z.shiftr a 8) 255)); reflexivity.
Qed.

Lemma read_request_and_soft_failure_witness :
  ser short_reply_hand = Some short_reply_port /\
  is_connected short_reply_hand = true /\
  _read_register short_reply_hand 1 (Plain 1546) 256
  = (short_reply_hand, Raise ValueError).
Proof.
  split; [reflexivity|]. split; [reflexivity|].
  exact (proj2 (read_request_and_soft_failure short_reply_hand short_reply_port
                  1 1546 256 eq_refl eq_refl) eq_refl).
Defined.

(** X16: Whenever the strict parser of [utils.py] accepts the received bytes,
    [_read_register] returns the same data: the lenient extraction only adds
    answers where the strict one raises. *)
Theorem read_agrees_with_strict_parser (h : hand) (p : port) (hand_id a num : Z)
    (val : list Z) :
  ser h = Some p -> is_connected h = true ->
  is_byte hand_id = true -> is_byte num = true ->
  parse_serial_response (received p) num = Ok val ->
  snd (_read_register h hand_id (Plain a) num) = Ok val.
Proof.
  intros Hser Hconn Hid Hnum Hparse.
  rewrite (read_register_unfold h p hand_id a num) by done. simpl.
  unfold parse_serial_response in Hparse.
  destruct (Z.ltb_spec (len (received p)) 7) as [|Hlen]; [discriminate|].
  destruct (Z.eqb_spec (len (received p)) 0); [lia|].
  destruct (getitem (received p) 3) as [b|e]; [|discriminate]. simpl in *.
  unfold BYTE_MASK in Hparse.
  destruct (Z.eqb_spec (Z.land b 255 - 3) num); [|discriminate].
  exact Hparse.
Qed.

Lemma read_agrees_with_strict_parser_witness :
  ser full_reply_hand = Some full_reply_port /\
  is_connected full_reply_hand = true /\
  parse_serial_response (received full_reply_port) 6 = Ok [1; 2; 3; 4; 5; 6] /\
  snd (_read_register full_reply_hand 1 (Plain 1546) 6) = Ok [1; 2; 3; 4; 5; 6].
Proof.
  assert (H : parse_serial_response (received full_reply_port) 6 = Ok [1; 2; 3; 4; 5; 6])
    by reflexivity.
  split; [reflexivity|]. split; [reflexivity|]. split; [exact H|].
  exact (read_agrees_with_strict_parser full_reply_hand full_reply_port 1 1546 6 _
           eq_refl eq_refl eq_refl eq_refl H).
Defined.

(** X17: [_read12] decodes the twelve bytes that follow the seven-byte header
    of a reply whose length byte is 15, and nothing else: the header's other
    bytes and whatever follows the payload, the checksum included, have no
    effect on the result. For a payload that encodes the six integers [v] the
    result is [v] modulo 65536. *)
Theorem read12_decodes_payload (h : hand) (p : port) (hand_id a : Z)
    (reg_name : string) (hdr trailer v : list Z) :
  ser h = Some p -> is_connected h = true -> is_byte hand_id = true ->
  _regdict h !! reg_name = Some (Plain a) ->
  received p = hdr ++ convert_to_serial_bytes v ++ trailer ->
  length hdr = 7%nat -> hdr !! 3%nat = Some 15 -> length v = 6%nat ->
  snd (_read12 h hand_id reg_name) = Ok (map (fun x => x mod 65536) v).
Proof.
  intros Hser Hconn Hid Hreg Hrecv Hhdr H3 Hv.
  assert (Henc : length (convert_to_serial_bytes v) = 12%nat).
  { rewrite CodecFacts.serial_bytes_length. lia. }
  assert (Hlen : len (received p) = 19 + len trailer).
  { unfold len. rewrite Hrecv, !length_app, Hhdr, Henc. lia. }
  assert (Hread : _read_register h hand_id (Plain a) 12
                  = (fst (_read_register h hand_id (Plain a) 12),
                     Ok (convert_to_serial_bytes v))).
  { rewrite (read_register_unfold h p hand_id a 12) by done. cbn [fst]. f_equal.
    unfold len in Hlen.
    destruct (Z.eqb_spec (len (received p)) 0); [unfold len in *; lia|].
    destruct (Z.ltb_spec (len (received p)) 7); [unfold len in *; lia|].
    assert (Hg : getitem (received p) 3 = Ok 15).
    { apply (getitem_lookup _ 3). rewrite Hrecv. by apply lookup_app_l_Some. }
    rewrite Hg. simpl mbind.
    replace (Z.min (Z.land 15 255 - 3) (len (received p) - 7)) with 12
      by (change (Z.land 15 255 - 3) with 12; unfold len; lia).
    rewrite CodecFacts.extract_take by (unfold len; lia). f_equal.
    rewrite Hrecv. replace 7%nat with (length hdr) by done.
    rewrite drop_app_length. change (Z.to_nat 12) with 12%nat.
    rewrite <- Henc. apply take_app_length. }
  unfold _read12. rewrite Hreg, Hread. cbv zeta.
  destruct (Z.ltb_spec (len (convert_to_serial_bytes v)) 12) as [Hlt|_].
  { unfold len in Hlt. lia. }
  cbn [snd].
  destruct v as [|v0 [|v1 [|v2 [|v3 [|v4 [|v5 [|v6 v]]]]]]]; try discriminate Hv.
  rewrite UtilsFacts.convert_12bytes_of_serial_bytes. f_equal.
  apply map_ext. intros x. apply CodecFacts.bytes_to_int16_split.
Qed.

Lemma read12_decodes_payload_witness :
  ser echo_reply_hand = Some echo_reply_port /\
  snd (_read12 echo_reply_hand 1 "ANGLE_ACT") = Ok (map (fun x => x mod 65536) [500; -1; 0; 1000; 7; 8]).
Proof.
  split; [reflexivity|].
  exact (read12_decodes_payload echo_reply_hand echo_reply_port 1 1546 "ANGLE_ACT"
           [0xEB; 0x90; 1; 15; 0x11; 0x0A; 0x06] [0xFF; 0xFF] [500; -1; 0; 1000; 7; 8]
           eq_refl eq_refl eq_refl eq_refl eq_refl eq_refl eq_refl eq_refl).
Defined.

(** *** Commands *)

Lemma write_when_disconnected (h : hand) (hand_id : Z) (addr : reg_entry)
    (num : Z) (val : list Z) :
  is_connected h = false ->
  _write_register h hand_id addr num val = (h, Raise CommunicationError).
Proof.
  intros H. unfold _write_register. rewrite H. by destruct (ser h).
Qed.

Lemma regdict_has_setters (h : hand) :
  regdict_getitem h "ANGLE_SET" = Ok (Plain 1486) /\
  regdict_getitem h "POS_SET" = Ok (Plain 1474) /\
  regdict_getitem h "SPEED_SET" = Ok (Plain 1522) /\
  regdict_getitem h "FORCE_SET" = Ok (Plain 1498) /\
  _regdict h !! "ANGLE_SET"%string = Some (Plain 1486).
Proof. unfold regdict_getitem, _regdict. destruct (generation h); repeat split. Qed.

(** X18: The four setters validate before they look at the connection: an array
    the validator rejects gives [ValidationError] whether or not the hand is
    connected, and an accepted array on a hand that is not connected gives
    [CommunicationError]; either way nothing is sent and the hand is
    unchanged. *)
Theorem setters_validate_first (h : hand) (values : pyarg) (hand_id : Z) :
  (forall e, validate_joint_values values 0 1000 = Raise e ->
     set_angle h values hand_id = (h, Raise e) /\
     set_pos h values hand_id = (h, Raise e) /\
     set_speed h values hand_id = (h, Raise e) /\
     set_force h values hand_id = (h, Raise e)) /\
  (forall v, validate_joint_values values 0 1000 = Ok v -> is_connected h = false ->
     set_angle h values hand_id = (h, Raise CommunicationError) /\
     set_pos h values hand_id = (h, Raise CommunicationError) /\
     set_speed h values hand_id = (h, Raise CommunicationError) /\
     set_force h values hand_id = (h, Raise CommunicationError)).
Proof.
  destruct (regdict_has_setters h) as (Ha & Hp & Hs & Hf & Ha').
  unfold set_angle, set_pos, set_speed, set_force, validate_angles, validate_speeds,
    validate_forces, MIN_ANGLE, MAX_ANGLE, MIN_SPEED, MAX_SPEED, MIN_FORCE, MAX_FORCE.
  rewrite Hp, Hs, Hf, Ha'. split.
  - intros e ->. by repeat split.
  - intros v -> Hconn. rewrite !write_when_disconnected by done. by repeat split.
Qed.

Lemma setters_validate_first_witness :
  validate_joint_values (Ndarray [100; 100; 100]) 0 1000 = Raise ValidationError /\
  set_speed (mk_hand GEN4 false None) (Ndarray [100; 100; 100]) 1
  = (mk_hand GEN4 false None, Raise ValidationError).
Proof.
  assert (H : validate_joint_values (Ndarray [100; 100; 100]) 0 1000
              = Raise ValidationError) by reflexivity.
  split; [exact H|].
  exact (proj1 (proj2 (proj2 (proj1 (setters_validate_first (mk_hand GEN4 false None)
           (Ndarray [100; 100; 100]) 1) _ H)))).
Defined.

(** X19: On a Gen4 hand a typed read of a tactile register cannot be framed:
    the register's entry is a tuple, and the read raises [TypeError] once the
    connection check has passed, before anything is sent. A name the
    generation does not know is a [ValidationError] even when the hand is
    not connected. *)
Theorem typed_read_of_bad_register (h : hand) (hand_id : Z) (reg_name : string) :
  (_regdict h !! reg_name = None ->
   _read6 h hand_id reg_name = (h, Raise ValidationError) /\
   _read12 h hand_id reg_name = (h, Raise ValidationError)) /\
  (forall entry, _regdict h !! reg_name = Some entry -> is_tuple entry = true ->
   is_connected h = true ->
   _read6 h hand_id reg_name = (h, Raise TypeError) /\
   _read12 h hand_id reg_name = (h, Raise TypeError)).
Proof.
  split.
  - intros H. unfold _read6, _read12. by rewrite H.
  - intros entry H Htuple Hconn. destruct entry as [|a rows cols]; [discriminate|].
    unfold _read6, _read12, _read_register. rewrite H, Hconn.
    destruct (ser h) as [p|] eqn:Hser; [done|].
    by rewrite (not_connected_when_closed h Hser) in Hconn.
Qed.

Lemma typed_read_of_bad_register_witness :
  _regdict (mk_hand GEN4 true (Some (mk_port true [] [] []))) !! "PALM_TAC"%string
  = Some (Tactile 4900 8 14) /\
  _read6 (mk_hand GEN4 true (Some (mk_port true [] [] []))) 1 "PALM_TAC"
  = (mk_hand GEN4 true (Some (mk_port true [] [] [])), Raise TypeError).
Proof.
  assert (H : _regdict (mk_hand GEN4 true (Some (mk_port true [] [] []))) !! "PALM_TAC"%string
              = Some (Tactile 4900 8 14)) by reflexivity.
  split; [exact H|].
  exact (proj1 (proj2 (typed_read_of_bad_register
           (mk_hand GEN4 true (Some (mk_port true [] [] []))) 1 "PALM_TAC") _ H
           eq_refl eq_refl)).
Defined.

End SerialOpsFacts.

(** ** Modbus commands and reads *)

Module ModbusOpsFacts.
Import Utils UtilsMore Modbus ModbusOps.

(** *** The register file *)

Lemma store_words_lookup_lt (d : gmap Z Z) (a k : Z) (values : list Z) :
  k < a -> store_words d a values !! k = d !! k.
Proof.
  revert d a. induction values as [|v values IH]; intros d a Hk; simpl; [done|].
  rewrite IH by lia. apply lookup_insert_ne. lia.
Qed.

Lemma store_words_lookup_ge (d : gmap Z Z) (a k : Z) (values : list Z) :
  a + len values <= k -> store_words d a values !! k = d !! k.
Proof.
  unfold len. revert d a. induction values as [|v values IH]; intros d a Hk; simpl in *;
    [done|].
  rewrite IH by lia. apply lookup_insert_ne. lia.
Qed.

Lemma store_words_lookup_in (d : gmap Z Z) (a : Z) (values : list Z) (i : nat) (v : Z) :
  values !! i = Some v -> store_words d a values !! (a + Z.of_nat i) = Some v.
Proof.
  revert d a i. induction values as [|w values IH]; intros d a [|i] H; simplify_eq/=.
  - rewrite Z.add_0_r, store_words_lookup_lt by lia. apply lookup_insert_eq.
  - replace (a + Z.of_nat (S i)) with (a + 1 + Z.of_nat i) by lia.
    exact (IH _ (a + 1) i H).
Qed.

Lemma read_values (d : gmap Z Z) (a : Z) (values : list Z) :
  (forall i v, values !! i = Some v -> d !! (a + Z.of_nat i) = Some v) ->
  map (fun i => default 0 (d !! (a + i))) (py_range (len values)) = values.
Proof.
  intros H. apply list_eq. intros i. rewrite list_lookup_fmap.
  destruct (decide (i < length values)%nat) as [Hi|Hi].
  - rewrite SerialFacts.lookup_py_range by (unfold len; lia). simpl.
    destruct (lookup_lt_is_Some_2 values i Hi) as [v Hv].
    by rewrite (H i v Hv), Hv.
  - rewrite (lookup_ge_None_2 values) by lia.
    rewrite lookup_ge_None_2; [done|].
    pose proof (SerialFacts.length_py_range (len values)). unfold len in *. lia.
Qed.

(** *** Commands against a register file *)

Lemma modbus_values_of_joints (v : list Z) :
  JointVector v ->
  convert_to_modbus_values v = map unsigned16 v /\
  length (map unsigned16 v) = 6%nat /\
  Forall is_word (map unsigned16 v).
Proof.
  intros [Hlen Hv]. rewrite UtilsFacts.convert_to_modbus_values_map.
  split; [|split].
  - apply map_ext_Forall. eapply Forall_impl; [exact Hv|]. intros x Hx.
    unfold unsigned16, PLACEHOLDER_VALUE. destruct (Z.eqb_spec x (-1)); [done|].
    destruct Hx as [?|Hx]; [lia|]. apply UtilsFacts.land_word_small. lia.
  - by rewrite length_map.
  - apply Forall_fmap. eapply Forall_impl; [exact Hv|]. intros x Hx.
    unfold unsigned16, is_word. simpl.
    destruct (Z.eqb_spec x (-1)); [lia|]. destruct Hx; lia.
Qed.

Lemma validate_joints (v : list Z) :
  JointVector v -> validate_joint_values (Ndarray v) 0 1000 = Ok v.
Proof.
  intros [Hlen Hv]. apply UtilsFacts.validate_int32; [|done|].
  - eapply Forall_impl; [exact Hv|]. intros x Hx. unfold is_int32.
    apply andb_true_iff. split; [apply Z.leb_le|apply Z.ltb_lt]; destruct Hx; lia.
  - exact Hv.
Qed.

Lemma write_block (h : hand (gmap Z Z)) (c : client (gmap Z Z)) (a : Z) (values : list Z) :
  connected h = true -> _client h = Some c -> Forall is_word values ->
  _write_register memory_write h (Plain a) values
  = (set_client h (mk_client (store_words (device c) a values) (requests c)), Ok true).
Proof.
  intros Hconn Hc Hw. unfold _write_register, is_connected. rewrite Hconn, Hc. simpl.
  unfold memory_write.
  assert (Hb : forallb (fun v => (0 <=? v) && (v <? 65536)) values = true).
  { apply forallb_forall. intros x Hx. apply list_elem_of_In in Hx.
    pose proof (proj1 (Forall_forall _ _) Hw x Hx) as [? ?].
    apply andb_true_iff. split; [by apply Z.leb_le|by apply Z.ltb_lt]. }
  by rewrite Hb.
Qed.

Lemma read_block (h : hand (gmap Z Z)) (c : client (gmap Z Z)) (reg_name : string)
    (a : Z) (vals : list Z) :
  connected h = true -> _client h = Some c ->
  _regdict h !! reg_name = Some (Plain a) ->
  length vals = 6%nat -> Forall is_word vals ->
  (forall i v, vals !! i = Some v -> device c !! (a + Z.of_nat i) = Some v) ->
  snd (to_array (_read6_16bit memory_read h reg_name)) = Ok (Array1 vals).
Proof.
  intros Hconn Hc Hreg Hlen Hw Hd.
  unfold _read6_16bit. rewrite Hreg.
  rewrite (TactileFacts.read_small memory_read h c a 6 (device c)
             (Registers (map (fun i => default 0 (device c !! (a + i))) (py_range 6)))
             Hconn Hc ltac:(lia) eq_refl).
  assert (Hm : map (fun i => default 0 (device c !! (a + i))) (py_range 6) = vals).
  { replace 6 with (len vals) by (unfold len; lia). by apply read_values. }
  rewrite Hm.
  destruct (Z.ltb_spec (len vals) 6) as [Hlt|_]; [unfold len in Hlt; lia|].
  cbn [to_array snd]. rewrite UtilsFacts.np_array_int32_ok; [reflexivity|].
  eapply Forall_impl; [exact Hw|]. apply TactileFacts.is_word_int32.
Qed.

Lemma regdict_modbus_setters (h : hand (gmap Z Z)) :
  regdict_getitem h "ANGLE_SET" = Ok (Plain 1486) /\
  regdict_getitem h "SPEED_SET" = Ok (Plain 1522) /\
  regdict_getitem h "FORCE_SET" = Ok (Plain 1498) /\
  _regdict h !! "ANGLE_SET"%string = Some (Plain 1486) /\
  _regdict h !! "SPEED_SET"%string = Some (Plain 1522) /\
  _regdict h !! "FORCE_SET"%string = Some (Plain 1498).
Proof. unfold regdict_getitem, _regdict. destruct (generation h); repeat split. Qed.

(** X20: Against a device that is a plain register file, setting valid angles,
    then speeds, then forces succeeds, and the three getters then return
    what was set, a sentinel [-1] reading back as 65535: each command writes
    its own six registers and leaves the others alone. *)
Theorem set_then_get_on_register_file (h : hand (gmap Z Z)) (c : client (gmap Z Z))
    (va vs vf : list Z) :
  connected h = true -> _client h = Some c ->
  JointVector va -> JointVector vs -> JointVector vf ->
  exists h1 h2 h3,
    set_angle memory_write h (Ndarray va) = (h1, Ok true) /\
    set_speed memory_write h1 (Ndarray vs) = (h2, Ok true) /\
    set_force memory_write h2 (Ndarray vf) = (h3, Ok true) /\
    snd (get_angle_set memory_read h3) = Ok (Array1 (map unsigned16 va)) /\
    snd (get_speed_set memory_read h3) = Ok (Array1 (map unsigned16 vs)) /\
    snd (get_force_set memory_read h3) = Ok (Array1 (map unsigned16 vf)).
Proof.
  intros Hconn Hc Ha Hs Hf.
  destruct (modbus_values_of_joints va Ha) as (Hca & Hla & Hwa).
  destruct (modbus_values_of_joints vs Hs) as (Hcs & Hls & Hws).
  destruct (modbus_values_of_joints vf Hf) as (Hcf & Hlf & Hwf).
  set (d1 := store_words (device c) 1486 (map unsigned16 va)).
  set (d2 := store_words d1 1522 (map unsigned16 vs)).
  set (d3 := store_words d2 1498 (map unsigned16 vf)).
  set (h1 := set_client h (mk_client d1 (requests c))).
  set (h2 := set_client h1 (mk_client d2 (requests c))).
  set (h3 := set_client h2 (mk_client d3 (requests c))).
  exists h1, h2, h3.
  assert (H1 : set_angle memory_write h (Ndarray va) = (h1, Ok true)).
  { unfold set_angle, validate_angles, MIN_ANGLE, MAX_ANGLE.
    rewrite (validate_joints va Ha), (proj1 (regdict_modbus_setters h)), Hca.
    by apply write_block. }
  assert (H2 : set_speed memory_write h1 (Ndarray vs) = (h2, Ok true)).
  { unfold set_speed, validate_speeds, MIN_SPEED, MAX_SPEED.
    rewrite (validate_joints vs Hs), (proj1 (proj2 (regdict_modbus_setters h1))), Hcs.
    exact (write_block h1 (mk_client d1 (requests c)) 1522 _ Hconn eq_refl Hws). }
  assert (H3 : set_force memory_write h2 (Ndarray vf) = (h3, Ok true)).
  { unfold set_force, validate_forces, MIN_FORCE, MAX_FORCE.
    rewrite (validate_joints vf Hf),
      (proj1 (proj2 (proj2 (regdict_modbus_setters h2)))), Hcf.
    exact (write_block h2 (mk_client d2 (requests c)) 1498 _ Hconn eq_refl Hwf). }
  split; [exact H1|]. split; [exact H2|]. split; [exact H3|].
  destruct (regdict_modbus_setters h3) as (_ & _ & _ & Hra & Hrs & Hrf).
  split; [|split].
  - apply (read_block h3 (mk_client d3 (requests c)) _ 1486); try done.
    intros i v Hv. simpl. subst d3 d2 d1.
    pose proof (lookup_lt_Some _ _ _ Hv) as Hi. rewrite Hla in Hi.
    rewrite store_words_lookup_lt by lia. rewrite store_words_lookup_lt by lia.
    by apply store_words_lookup_in.
  - apply (read_block h3 (mk_client d3 (requests c)) _ 1522); try done.
    intros i v Hv. simpl. subst d3 d2 d1.
    pose proof (lookup_lt_Some _ _ _ Hv) as Hi. rewrite Hls in Hi.
    rewrite store_words_lookup_ge by (unfold len; lia).
    by apply store_words_lookup_in.
  - apply (read_block h3 (mk_client d3 (requests c)) _ 1498); try done.
    intros i v Hv. simpl. subst d3.
    by apply store_words_lookup_in.
Qed.

Lemma set_then_get_on_register_file_witness :
  connected (mk_hand GEN4 true (Some (mk_client (∅ : gmap Z Z) []))) = true /\
  JointVector [500; -1; 0; 1000; 1; 2] /\
  exists h1 h2 h3,
    set_angle memory_write (mk_hand GEN4 true (Some (mk_client (∅ : gmap Z Z) [])))
      (Ndarray [500; -1; 0; 1000; 1; 2]) = (h1, Ok true) /\
    set_speed memory_write h1 (Ndarray [500; -1; 0; 1000; 1; 2]) = (h2, Ok true) /\
    set_force memory_write h2 (Ndarray [500; -1; 0; 1000; 1; 2]) = (h3, Ok true) /\
    snd (get_angle_set memory_read h3) = Ok (Array1 (map unsigned16 [500; -1; 0; 1000; 1; 2])).
Proof.
  assert (Hj : JointVector [500; -1; 0; 1000; 1; 2]).
  { split; [reflexivity|]. repeat constructor; unfold valid_joint; lia. }
  split; [reflexivity|]. split; [exact Hj|].
  destruct (set_then_get_on_register_file
              (mk_hand GEN4 true (Some (mk_client (∅ : gmap Z Z) [])))
              (mk_client ∅ []) _ _ _ eq_refl eq_refl Hj Hj Hj)
    as (h1 & h2 & h3 & H1 & H2 & H3 & H4 & _).
  exists h1, h2, h3. by repeat split.
Defined.

Section Engine.

Context {Dev : Type}.
Variable rd : Dev -> Z -> Z -> Dev * reply.
Variable wr : Dev -> Z -> list Z -> Dev * write_reply.

(** X21: A Modbus write returns [True] whenever the hand is connected and the
    client does not raise: the response is never inspected, so an error
    response of the device goes unnoticed. It raises [CommunicationError]
    when the hand is not connected (nothing is sent) or the client raises.
    No read request is issued. *)
Theorem modbus_write_ignores_error_response (h : hand Dev) (a : Z) (values : list Z) :
  (is_connected h = false ->
   _write_register wr h (Plain a) values = (h, Raise CommunicationError)) /\
  (forall c, connected h = true -> _client h = Some c ->
     exists d',
       fst (_write_register wr h (Plain a) values)
       = set_client h (mk_client d' (requests c)) /\
       fst (wr (device c) a values) = d' /\
       (snd (_write_register wr h (Plain a) values) = Ok true <->
        exists is_error, snd (wr (device c) a values) = WriteResponse is_error) /\
       (snd (_write_register wr h (Plain a) values) = Raise CommunicationError <->
        snd (wr (device c) a values) = WriteRaises)).
Proof.
  split.
  - intros H. unfold _write_register. by rewrite H.
  - intros c Hconn Hc. unfold _write_register, is_connected. rewrite Hconn, Hc. simpl.
    destruct (wr (device c) a values) as [d' [b|]]; simpl; exists d';
      (split; [done|]); (split; [done|]); split; split; try done; eauto.
    + by intros [? ?].
Qed.

(** X22: [set_pos] addresses different registers on the two transports. Over
    serial it writes the twelve encoded bytes to [POS_SET] (1474, sent as
    [C2 05]); over Modbus it is [set_angle], which writes the six words to
    [ANGLE_SET] (1486). *)
Theorem set_pos_register_by_transport (hs : Serial.hand) (p : Serial.port)
    (hand_id : Z) (hm : hand Dev) (c : client Dev) (v : list Z) :
  Serial.ser hs = Some p -> Serial.is_connected hs = true -> is_byte hand_id = true ->
  connected hm = true -> _client hm = Some c ->
  JointVector v ->
  (exists p' checksum,
     SerialOps.set_pos hs (Ndarray v) hand_id = (Serial.set_ser hs p', Ok true) /\
     Serial.written p'
     = Serial.written p ++
         [[0xEB; 0x90; hand_id; 15; 0x12; 0xC2; 0x05] ++ convert_to_serial_bytes v
          ++ [checksum]]) /\
  set_pos wr hm (Ndarray v) = set_angle wr hm (Ndarray v) /\
  fst (set_pos wr hm (Ndarray v))
  = set_client hm (mk_client (fst (wr (device c) 1486 (map unsigned16 v))) (requests c)).
Proof.
  intros Hser Hsconn Hid Hconn Hc Hv. split; [|split; [reflexivity|]].
  - unfold SerialOps.set_pos, validate_angles, MIN_ANGLE, MAX_ANGLE.
    rewrite (validate_joints v Hv). unfold SerialOps.regdict_getitem.
    assert (Hreg : Serial._regdict hs !! "POS_SET"%string = Some (Plain 1474)).
    { unfold Serial._regdict. by destruct (Serial.generation hs). }
    assert (Haddr : Serial.addr_in (Plain 1474) (Serial.valid_addrs (Serial._regdict hs))
                    = true).
    { unfold Serial._regdict. destruct (Serial.generation hs); vm_compute; reflexivity. }
    rewrite Hreg.
    destruct (SerialFacts.write_register_frame hs p hand_id 1474 12
                (convert_to_serial_bytes v) Hser Hsconn Haddr) as (p' & Hw & Hfr).
    { cbn [app forallb]. rewrite Hid, CodecFacts.serial_bytes_forallb. reflexivity. }
    exists p'. eexists. split; [exact Hw|].
    rewrite Hfr. rewrite <- app_assoc. reflexivity.
  - unfold set_pos, set_angle, validate_angles, MIN_ANGLE, MAX_ANGLE.
    rewrite (validate_joints v Hv).
    assert (Hreg : regdict_getitem hm "ANGLE_SET" = Ok (Plain 1486)).
    { unfold regdict_getitem, _regdict. by destruct (generation hm). }
    rewrite Hreg, (proj1 (modbus_values_of_joints v Hv)).
    unfold _write_register, is_connected. rewrite Hconn, Hc. simpl.
    by destruct (wr (device c) 1486 (map unsigned16 v)) as [d' [b|]].
Qed.

(** X23: On a Gen4 hand the action-sequence commands cannot be issued, over
    either transport: the Gen4 register map has no [ACTION_SEQ_INDEX] and no
    [ACTION_SEQ_RUN], so the lookup raises [KeyError] before the connection
    is looked at, and nothing is sent. *)
Theorem action_sequences_missing_on_gen4 (hs : Serial.hand) (hm : hand Dev)
    (hand_id sequence_id : Z) :
  Serial.generation hs = GEN4 -> generation hm = GEN4 ->
  SerialOps.set_action_sequence hs hand_id sequence_id = (hs, Raise KeyError) /\
  SerialOps.run_action_sequence hs hand_id = (hs, Raise KeyError) /\
  set_action_sequence wr hm sequence_id = (hm, Raise KeyError) /\
  run_action_sequence wr hm = (hm, Raise KeyError).
Proof.
  intros Hs Hm.
  unfold SerialOps.set_action_sequence, SerialOps.run_action_sequence,
    SerialOps.regdict_getitem, Serial._regdict,
    set_action_sequence, run_action_sequence, regdict_getitem, _regdict.
  rewrite Hs, Hm. by repeat split.
Qed.

(** X24: [_read6_8bit] splits every word it read, low byte first: from three or
    more 16-bit words it returns twice as many bytes, and bytes [2i] and
    [2i+1] are the low and high byte of word [i]. *)
Theorem read6_8bit_little_endian (h h' : hand Dev) (reg_name : string)
    (entry : reg_entry) (val_act : list Z) :
  _regdict h !! reg_name = Some entry ->
  _read_register rd h entry 3 = (h', Ok val_act) ->
  3 <= len val_act -> Forall is_word val_act ->
  exists results,
    _read6_8bit rd h reg_name = (h', Ok results) /\
    length results = (2 * length val_act)%nat /\
    forall i w, val_act !! i = Some w ->
      results !! (2 * i)%nat = Some (w mod 256) /\
      results !! (2 * i + 1)%nat = Some (w / 256) /\
      w mod 256 + 256 * (w / 256) = w /\ 0 <= w / 256 < 256.
Proof.
  intros Hreg Hread Hlen Hw.
  rewrite (HelperFacts.read6_8bit_short_or_full rd h h' reg_name entry val_act Hreg Hread).
  destruct (Z.ltb_spec (len val_act) 3) as [|Hge]; [lia|]. clear Hlen Hread Hreg Hge.
  exists (val_act ≫= (fun val => [Z.land val 0xFF; Z.land (Z.shiftr val 8) 0xFF])).
  split; [reflexivity|].
  induction Hw as [|w0 l Hw0 Hl IH]; [split; [done|]; intros i w Hi; by rewrite lookup_nil in Hi|].
  destruct IH as [IH1 IH2]. rewrite bind_cons. split.
  - rewrite length_app, IH1. simpl. lia.
  - intros [|i] w Hi; simpl in Hi.
    + injection Hi as <-. destruct Hw0 as [Hw1 Hw2].
      rewrite !CodecFacts.land_byte, Z.shiftr_div_pow2 by lia. change (2 ^ 8) with 256.
      assert (0 <= w0 / 256 < 256).
      { split; [apply Z.div_pos; lia|apply Z.div_lt_upper_bound; lia]. }
      rewrite (Z.mod_small (w0 / 256)) by lia.
      pose proof (Z.div_mod w0 256). repeat split; try done; lia.
    + destruct (IH2 i w Hi) as (H1 & H2 & H3).
      replace (2 * S i + 1)%nat with (S (S (2 * i + 1))) by lia.
      replace (2 * S i)%nat with (S (S (2 * i))) by lia.
      split; [exact H1|]. split; [exact H2|exact H3].
Qed.

(** *** The single-sensor read *)

Lemma read_frame_tactile (h : hand Dev) (c : client Dev) (a : Z) (rows cols : nat)
    (is_palm : bool) (d' : Dev) (r : reply) :
  connected h = true -> _client h = Some c -> (rows * cols <= 125)%nat ->
  rd (device c) a (Z.of_nat (rows * cols)) = (d', r) ->
  read_frame rd h (Tactile a rows cols) is_palm
  = (set_client h (mk_client d' (requests c ++ [(a, Z.of_nat (rows * cols))])),
     match r with
     | Registers regs =>
         if (length regs =? rows * cols)%nat
         then reshape_tactile_data regs rows cols is_palm
         else Ok (Array1 [])
     | _ => Raise CommunicationError
     end).
Proof.
  intros Hconn Hc Hsize Hrd. unfold read_frame. cbv zeta.
  rewrite (TactileFacts.read_small rd h c a (Z.of_nat (rows * cols)) d' r
             Hconn Hc ltac:(lia) Hrd).
  destruct r as [regs| |]; try done.
  by destruct (length regs =? rows * cols)%nat.
Qed.

Lemma valid_sensor_checks (finger position : string) :
  valid_sensor finger position <->
  String.eqb finger "palm" = false /\
  Registers.str_in finger ["pinky"; "ring"; "middle"; "index"; "thumb"] = true /\
  Registers.str_in position
    (if String.eqb finger "thumb" then ["top"; "tip"; "mid"; "base"]
     else ["top"; "tip"; "base"]) = true.
Proof.
  unfold valid_sensor. split.
  - intros H. repeat (apply elem_of_cons in H as [H|H]);
      try (by apply elem_of_nil in H); injection H as -> ->; by repeat split.
  - intros (_ & Hf & Hp). apply RegistersFacts.str_in_spec in Hf.
    repeat (apply elem_of_cons in Hf as [->|Hf]); try (by apply elem_of_nil in Hf);
      cbn [String.eqb Ascii.eqb Bool.eqb] in Hp;
      apply RegistersFacts.str_in_spec in Hp;
      repeat (apply elem_of_cons in Hp as [->|Hp]); try (by apply elem_of_nil in Hp);
      apply (bool_decide_eq_true_1 _); vm_compute; reflexivity.
Qed.

Lemma valid_sensor_register (finger position : string) :
  valid_sensor finger position ->
  exists a rows cols,
    (finger, Some position, a, rows, cols) ∈ tactile_shapes /\
    (rows * cols <= 125)%nat /\
    REGISTERS_GEN4 !! (upper finger ++ "_" ++ upper position ++ "_TAC")%string
    = Some (Tactile a rows cols).
Proof.
  unfold valid_sensor. intros H.
  repeat (apply elem_of_cons in H as [H|H]); try (by apply elem_of_nil in H);
    injection H as -> ->;
    eexists _, _, _;
    (split; [|split; [|vm_compute; reflexivity]];
     [apply (bool_decide_eq_true_1 _); vm_compute; reflexivity|vm_compute; lia]).
Qed.

(** X25: [get_tactile_data] on a connected Gen4 hand: for each of the sixteen
    valid finger and position pairs the composed register name is a tactile
    entry of the map, one request for [rows * cols] words is issued, and the
    result is the row-major matrix when that many words come back, the empty
    array when another number does, and [CommunicationError] when the read
    fails. Any other pair, with a finger that is not the palm, is a
    [ValidationError] with no request; on Gen3 every call is a
    [GenerationError] with no request. *)
Theorem get_tactile_data_spec (h : hand Dev) (finger position : string) :
  (generation h = GEN3 ->
   get_tactile_data rd h finger position = (h, Raise GenerationError)) /\
  (generation h = GEN4 -> finger <> "palm"%string -> ~ valid_sensor finger position ->
   get_tactile_data rd h finger position = (h, Raise ValidationError)) /\
  (forall c, generation h = GEN4 -> connected h = true -> _client h = Some c ->
     valid_sensor finger position ->
     exists a rows cols,
       (finger, Some position, a, rows, cols) ∈ tactile_shapes /\
       get_tactile_data rd h finger position
       = (set_client h
            (mk_client (fst (rd (device c) a (Z.of_nat (rows * cols))))
                       (requests c ++ [(a, Z.of_nat (rows * cols))])),
          match snd (rd (device c) a (Z.of_nat (rows * cols))) with
          | Registers regs =>
              if (length regs =? rows * cols)%nat
              then reshape_tactile_data regs rows cols false
              else Ok (Array1 [])
          | _ => Raise CommunicationError
          end)).
Proof.
  split; [|split].
  - intros Hgen. unfold get_tactile_data. by rewrite Hgen.
  - intros Hgen Hpalm Hinvalid. unfold get_tactile_data. rewrite Hgen.
    destruct (String.eqb_spec finger "palm") as [|_]; [done|].
    destruct (Registers.str_in finger ["pinky"; "ring"; "middle"; "index"; "thumb"]%string)
      eqn:Hf; [|done].
    cbn [negb].
    destruct (Registers.str_in position _) eqn:Hp; [|done].
    exfalso. apply Hinvalid. apply valid_sensor_checks.
    split; [by apply String.eqb_neq|]. by split.
  - intros c Hgen Hconn Hc Hvalid.
    destruct (valid_sensor_register finger position Hvalid)
      as (a & rows & cols & Hin & Hsize & Hreg).
    apply valid_sensor_checks in Hvalid as (Hpalm & Hf & Hp).
    exists a, rows, cols. split; [exact Hin|].
    unfold get_tactile_data. rewrite Hgen, Hpalm, Hf. cbn [negb]. rewrite Hp.
    cbn [negb]. cbv zeta. unfold _regdict. rewrite Hgen. cbn [get_registers].
    rewrite Hreg.
    apply read_frame_tactile; try done.
    by destruct (rd (device c) a (Z.of_nat (rows * cols))).
Qed.

End Engine.

Lemma modbus_write_ignores_error_response_witness :
  connected fresh_hand = true /\
  snd (_write_register
         (fun (d : nat) (address : Z) (values : list Z) => (d, WriteResponse true))
         fresh_hand (Plain 1486) [1; 2; 3]) = Ok true.
Proof.
  split; [reflexivity|].
  destruct (proj2 (modbus_write_ignores_error_response
                     (fun (d : nat) (address : Z) (values : list Z) =>
                        (d, WriteResponse true))
                     fresh_hand 1486 [1; 2; 3]) (mk_client 0%nat []) eq_refl eq_refl)
    as (d' & _ & _ & H & _).
  apply (proj2 H). by exists true.
Defined.

Lemma set_pos_register_by_transport_witness :
  Serial.is_connected (Serial.mk_hand GEN3 true (Some (Serial.mk_port true [] [] []))) = true /\
  JointVector [500; -1; 0; 1000; 1; 2] /\
  fst (set_pos memory_write_nat fresh_hand (Ndarray [500; -1; 0; 1000; 1; 2]))
  = set_client fresh_hand (mk_client 1%nat []).
Proof.
  assert (Hj : JointVector [500; -1; 0; 1000; 1; 2]).
  { split; [reflexivity|]. repeat constructor; unfold valid_joint; lia. }
  split; [reflexivity|]. split; [exact Hj|].
  exact (proj2 (proj2 (set_pos_register_by_transport memory_write_nat
           (Serial.mk_hand GEN3 true (Some (Serial.mk_port true [] [] [])))
           (Serial.mk_port true [] [] []) 1 fresh_hand (mk_client 0%nat [])
           [500; -1; 0; 1000; 1; 2] eq_refl eq_refl eq_refl eq_refl eq_refl Hj))).
Defined.

Lemma get_tactile_data_spec_witness :
  generation fresh_hand = GEN4 /\ valid_sensor "thumb" "mid" /\
  exists a rows cols,
    ("thumb"%string, Some "mid"%string, a, rows, cols) ∈ tactile_shapes /\
    snd (get_tactile_data short_tip_device fresh_hand "thumb" "mid")
    = Ok (Array2 [[0; 0; 0]; [0; 0; 0]; [0; 0; 0]]).
Proof.
  assert (Hv : valid_sensor "thumb" "mid").
  { unfold valid_sensor. apply (bool_decide_eq_true_1 _). vm_compute. reflexivity. }
  split; [reflexivity|]. split; [exact Hv|].
  destruct (proj2 (proj2 (get_tactile_data_spec short_tip_device fresh_hand
                            "thumb" "mid")) (mk_client 0%nat []) eq_refl eq_refl eq_refl Hv)
    as (a & rows & cols & Hin & _).
  exists a, rows, cols. split; [exact Hin|]. vm_compute. reflexivity.
Defined.

Lemma read6_8bit_little_endian_witness :
  _regdict fresh_hand !! "ERROR"%string = Some (Plain 1606) /\
  exists results,
    _read6_8bit echo_device fresh_hand "ERROR"
    = (mk_hand GEN4 true (Some (mk_client 1%nat [(1606, 3)])), Ok results) /\
    length results = 6%nat.
Proof.
  assert (Hr : _read_register echo_device fresh_hand (Plain 1606) 3
               = (mk_hand GEN4 true (Some (mk_client 1%nat [(1606, 3)])),
                  Ok [1606; 1607; 1608])) by reflexivity.
  assert (Hw : Forall is_word [1606; 1607; 1608])
    by (repeat constructor; unfold is_word; lia).
  split; [reflexivity|].
  destruct (read6_8bit_little_endian echo_device fresh_hand _ "ERROR" (Plain 1606)
              [1606; 1607; 1608] eq_refl Hr ltac:(unfold len; simpl; lia) Hw)
    as (results & H1 & H2 & _).
  exists results. split; [exact H1|exact H2].
Defined.

Lemma action_sequences_missing_on_gen4_witness :
  Serial.generation (Serial.mk_hand GEN4 false None) = GEN4 /\
  generation fresh_hand = GEN4 /\
  set_action_sequence memory_write_nat fresh_hand 3 = (fresh_hand, Raise KeyError).
Proof.
  split; [reflexivity|]. split; [reflexivity|].
  exact (proj1 (proj2 (proj2 (action_sequences_missing_on_gen4 memory_write_nat
           (Serial.mk_hand GEN4 false None) fresh_hand 1 3 eq_refl eq_refl)))).
Defined.

End ModbusOpsFacts.
